(** * Plugin catalogue reconciliation: [sync-plugins.js]

    A shallow embedding of the script that reconciles the plugin manifest
    ([plugins.json]) with the Webflow content collection and the Algolia
    search index, and the properties of its specification.

    Two revisions of the script are modelled, each in a module of its own:
    - [Sync]: [src/sync-plugins.js], lines 1-307, the revision with the
      change check ([isPluginEqual]) and [processDeletePlugin];
    - [Part000]: [src/unnamed/part_000], the revision that updates every
      record it finds and deletes orphans inline.
    The older copy that follows line 307 in [src/sync-plugins.js] is in
    [Older]: it shares the [try] block of [processPlugin] with [Part000]
    and differs in the [catch] block, in the pause between batches and in
    the report.  The report and its posting to the pull request, which
    [src/unnamed/part_000] and the older copy have, are [reportText] and
    [postReport]; [formatPluginName] and [toTitleCase], the same in both
    files, are modelled on strings of ASCII characters.

    What the script imports from [./utils.js], [git-url-parse] and [path]
    is not part of the sources.  The pure helpers are the fields of
    [Utils], the network calls the fields of [World]; every definition and
    theorem is parametric in both.  [findPluginByName] is modelled from the
    specification.

    State.  The two stores, the four report lists, the set
    [webflowPluginIds] and a trace of the calls and console output are
    threaded through a state and exception monad.  [console.log] lines that
    only print counts, and the summary [src/sync-plugins.js] prints at the
    end, are left out.  The comments of the pull request are a state of
    their own, [Thread].

    Asynchrony.  The script is single threaded.  The calls handed to one
    [Promise.all] all start, take turns at their [await]s in an order that
    depends on when the network answers, and all run to their end even
    when one is rejected; [Promise.all] rejects with the rejection that
    comes first in time.  The model fixes one of these orders: array
    order, each call running to its end before the next starts, the first
    rejection in array order being the one reported.  What is stated about
    more than one call of a batch is therefore stated over what does not
    depend on the order: whether a call returns, how often a name is dealt
    with, report lists up to the order of their names, the number of
    pauses, the exit status.

    Outside the model.  [getGithubPluginsList] (line 178) reads and parses
    [plugins.json] inside the outer [try] of [syncPlugins]; the model
    starts from the parsed manifest, so what is stated of a run is stated
    of a run whose manifest could be read.  [generateReadme] is a call
    whose outcome the world gives; in the source its transform parses the
    URL of every manifest entry once more, with no [try] around it, and
    the work of [markdown-magic] is not awaited.  No property assumes that
    [generateReadme] returns, and none says when a whole run completes. *)

From Stdlib Require Import ZArith Ascii String List Bool Lia DecimalString.
From stdpp Require Import base gmap list strings.
From Equations Require Import Equations.

Local Open Scope string_scope.
Local Open Scope list_scope.

(** ** Data model *)

(** A JavaScript value of the kinds the [active] field can take. *)
Inductive JsValue : Type :=
| JsUndefined
| JsBool (b : bool)
| JsString (s : string).

(** A thrown value. *)
Record JsError : Type := mkJsError { message : string }.

(** One row of [plugins.json].  [status] may be missing; the manifest has
    no [id] property, the script reads it all the same. *)
Record ManifestEntry : Type := mkManifestEntry {
  gp_name : string;
  gp_description : string;
  gp_githubUrl : string;
  gp_status : option string;
  gp_id : option string
}.

(** [fieldData] of a record of the content collection. *)
Record FieldData : Type := mkFieldData {
  fd_name : string;
  fd_title : string;
  fd_slug : string;
  fd_description : string;
  fd_github : string;
  fd_content : string;
  fd_npm_downloads : Z;
  fd_github_stars : Z;
  fd_author_link : option string;
  fd_author_name : option string;
  fd_author_avatar : option string;
  fd_active : JsValue
}.

(** A record of the content collection as [listWebflowCollectionItems]
    returns it: the store's id, the top-level [name] property the script
    reads when it builds [webflowPluginIds], and the fields. *)
Record WebflowItem : Type := mkWebflowItem {
  wf_id : nat;
  wf_name : option string;
  wf_fieldData : FieldData
}.

(** An object of the search index. *)
Record AlgoliaItem : Type := mkAlgoliaItem {
  objectID : string;
  al_name : string;
  al_description : string;
  al_githubUrl : string;
  al_npmDownloads : Z;
  al_githubStars : Z;
  al_authorLink : option string;
  al_authorName : option string;
  al_authorAvatar : option string
}.

(** What [gitUrlParse] yields, as the script destructures it
    ([{ source, owner, name: repo }]). *)
Record RepoRef : Type := mkRepoRef {
  source : option string;
  owner : option string;
  repo : option string
}.

(** [{}]: every property undefined. *)
Definition noRepoRef : RepoRef := mkRepoRef None None None.

Record RepoInfo : Type := mkRepoInfo {
  githubStars : option Z;
  authorAvatar : option string;
  authorLink : option string;
  authorName : option string
}.

Definition noRepoInfo : RepoInfo := mkRepoInfo None None None None.

Record Readme : Type := mkReadme { content : option string }.

Record FailedPlugin : Type := mkFailedPlugin {
  fp_name : string;
  fp_reason : string
}.

(** The six mutating calls to the two stores. *)
Inductive StoreCall : Type :=
| CreateWebflowItem (fieldData : FieldData)
| UpdateWebflowItem (itemId : nat) (fieldData : FieldData)
| DeleteWebflowItem (itemId : nat)
| CreateAlgoliaItem (item : AlgoliaItem)
| UpdateAlgoliaItem (item : AlgoliaItem)
| DeleteAlgoliaItem (slug : string).

(** What the run does that can be seen from outside, in order. *)
Inductive Event : Type :=
| EvLog (msg : string)
| EvError (msg : string) (detail : string)
| EvGetRepoInfo (r : RepoRef)
| EvGetNpmDownloads (packageName : string) (repoName : option string)
| EvGetReadmeContent (r : RepoRef)
| EvStore (c : StoreCall) (resolved : bool)
| EvListAlgolia
| EvListWebflow
| EvSleep (ms : Z)
| EvGenerateReadme.

(** The result of a call: a value, or a thrown error. *)
Inductive Outcome (A : Type) : Type :=
| Returned (a : A)
| Thrown (e : JsError).
Arguments Returned {A} a.
Arguments Thrown {A} e.

(** The pure helpers the script imports.  [gitUrlParse] may throw;
    [path.basename] is total on strings. *)
Record Utils : Type := mkUtils {
  gitUrlParse : string -> Outcome (option RepoRef);
  basename : string -> string;
  formatTitle : string -> string;
  getErrorMessage : JsError -> string;
  (** the truthiness of [isPluginEqual(githubPlugin, fieldData, content)] *)
  isPluginEqual : ManifestEntry -> FieldData -> string -> bool
}.

(** The network: enrichment results, and which store calls are rejected. *)
Record World : Type := mkWorld {
  getRepoInfo : RepoRef -> Outcome (option RepoInfo);
  getNpmDownloads : string -> option string -> Outcome (option Z);
  getReadmeContent : RepoRef -> Outcome (option Readme);
  storeFault : StoreCall -> option JsError;
  listAlgoliaFault : option JsError;
  listWebflowFault : option JsError;
  generateReadmeFault : option JsError
}.

(** The two stores, the four report lists of the script, the set
    [webflowPluginIds] and the trace of events. *)
Record State : Type := mkState {
  webflow : list WebflowItem;
  nextId : nat;
  algolia : gmap string AlgoliaItem;
  createdPlugins : list string;
  updatedPlugins : list string;
  deletedPlugins : list string;
  failedPlugins : list FailedPlugin;
  webflowPluginIds : gset (option string);
  trace : list Event
}.

(** The state a process starts in: the stores as they are, the report
    lists empty. *)
Definition initState (wf : list WebflowItem) (next : nat)
    (al : gmap string AlgoliaItem) : State :=
  mkState wf next al [] [] [] [] ∅ [].

Definition set_webflow (f : list WebflowItem -> list WebflowItem) (s : State) : State :=
  mkState (f (webflow s)) (nextId s) (algolia s) (createdPlugins s)
    (updatedPlugins s) (deletedPlugins s) (failedPlugins s)
    (webflowPluginIds s) (trace s).

Definition set_nextId (n : nat) (s : State) : State :=
  mkState (webflow s) n (algolia s) (createdPlugins s)
    (updatedPlugins s) (deletedPlugins s) (failedPlugins s)
    (webflowPluginIds s) (trace s).

Definition set_algolia (f : gmap string AlgoliaItem -> gmap string AlgoliaItem)
    (s : State) : State :=
  mkState (webflow s) (nextId s) (f (algolia s)) (createdPlugins s)
    (updatedPlugins s) (deletedPlugins s) (failedPlugins s)
    (webflowPluginIds s) (trace s).

Definition set_created (f : list string -> list string) (s : State) : State :=
  mkState (webflow s) (nextId s) (algolia s) (f (createdPlugins s))
    (updatedPlugins s) (deletedPlugins s) (failedPlugins s)
    (webflowPluginIds s) (trace s).

Definition set_updated (f : list string -> list string) (s : State) : State :=
  mkState (webflow s) (nextId s) (algolia s) (createdPlugins s)
    (f (updatedPlugins s)) (deletedPlugins s) (failedPlugins s)
    (webflowPluginIds s) (trace s).

Definition set_deleted (f : list string -> list string) (s : State) : State :=
  mkState (webflow s) (nextId s) (algolia s) (createdPlugins s)
    (updatedPlugins s) (f (deletedPlugins s)) (failedPlugins s)
    (webflowPluginIds s) (trace s).

Definition set_failed (f : list FailedPlugin -> list FailedPlugin) (s : State) : State :=
  mkState (webflow s) (nextId s) (algolia s) (createdPlugins s)
    (updatedPlugins s) (deletedPlugins s) (f (failedPlugins s))
    (webflowPluginIds s) (trace s).

Definition set_ids (f : gset (option string) -> gset (option string))
    (s : State) : State :=
  mkState (webflow s) (nextId s) (algolia s) (createdPlugins s)
    (updatedPlugins s) (deletedPlugins s) (failedPlugins s)
    (f (webflowPluginIds s)) (trace s).

Definition record (e : Event) (s : State) : State :=
  mkState (webflow s) (nextId s) (algolia s) (createdPlugins s)
    (updatedPlugins s) (deletedPlugins s) (failedPlugins s)
    (webflowPluginIds s) (trace s ++ [e]).

(** ** The monad of the script: state and exceptions *)

Definition M (A : Type) : Type := State -> Outcome A * State.

Definition ret {A} (a : A) : M A := fun s => (Returned a, s).

Definition bind {A B} (m : M A) (k : A -> M B) : M B :=
  fun s =>
    match m s with
    | (Returned a, s') => k a s'
    | (Thrown e, s') => (Thrown e, s')
    end.

Definition throw {A} (e : JsError) : M A := fun s => (Thrown e, s).

(** [try { body } catch (err) { handler }] *)
Definition tryCatch {A} (body : M A) (handler : JsError -> M A) : M A :=
  fun s =>
    match body s with
    | (Returned a, s') => (Returned a, s')
    | (Thrown e, s') => handler e s'
    end.

(** A promise run to its end: the outcome is kept, nothing is thrown. *)
Definition settle {A} (m : M A) : M (Outcome A) :=
  fun s => let (r, s') := m s in (Returned r, s').

Definition ofOutcome {A} (r : Outcome A) : M A :=
  match r with
  | Returned a => ret a
  | Thrown e => throw e
  end.

Definition modify (f : State -> State) : M unit := fun s => (Returned tt, f s).

Declare Scope js_scope.
Delimit Scope js_scope with js.
Notation "x <- c1 ;; c2" := (bind c1 (fun x => c2))
  (at level 100, c1 at next level, right associativity) : js_scope.
Notation "c1 ;;; c2" := (bind c1 (fun _ => c2))
  (at level 100, right associativity) : js_scope.
Local Open Scope js_scope.

(** [Promise.all([a, b, c])], the three calls taken in array order; of
    several rejections the first in array order is thrown, where the
    script gets the first in time. *)
Definition promiseAll3 {A B C} (a : M A) (b : M B) (c : M C) : M (A * B * C) :=
  ra <- settle a ;;
  rb <- settle b ;;
  rc <- settle c ;;
  match ra, rb, rc with
  | Returned x, Returned y, Returned z => ret (x, y, z)
  | Thrown e, _, _ => throw e
  | _, Thrown e, _ => throw e
  | _, _, Thrown e => throw e
  end.

(** The first rejection of a list of settled promises. *)
Fixpoint firstThrown (rs : list (Outcome unit)) : option JsError :=
  match rs with
  | [] => None
  | Thrown e :: _ => Some e
  | Returned _ :: rs' => firstThrown rs'
  end.

Fixpoint settleAll (ps : list (M unit)) : M (list (Outcome unit)) :=
  match ps with
  | [] => ret []
  | p :: ps' => r <- settle p ;; rs <- settleAll ps' ;; ret (r :: rs)
  end.

(** [Promise.all(batch.map(f))], the calls taken in array order, each
    run to its end before the next starts; in the script they take turns
    at their [await]s. *)
Definition promiseAll (ps : list (M unit)) : M unit :=
  rs <- settleAll ps ;;
  match firstThrown rs with
  | Some e => throw e
  | None => ret tt
  end.

(** ** JavaScript operators the script uses *)

(** Truthiness of a string: only the empty string is falsy. *)
Definition truthyString (s : string) : bool := negb (String.eqb s "").

(** [x || 0] on a number that may be undefined. *)
Definition orZero (x : option Z) : Z :=
  match x with
  | Some n => n
  | None => 0%Z
  end.

(** [status && status === 'active'] *)
Definition activeOf (status : option string) : JsValue :=
  match status with
  | None => JsUndefined
  | Some s => if truthyString s then JsBool (String.eqb s "active") else JsString s
  end.

(** [!content], [content] taken from [readmeContent || {}]: the content
    when there is some, [None] when [!content] holds. *)
Definition contentOf (readmeContent : option Readme) : option string :=
  match readmeContent with
  | Some r =>
      match content r with
      | Some c => if truthyString c then Some c else None
      | None => None
      end
  | None => None
  end.

(** [array.slice(i, j)] for [i <= j]. *)
Definition slice {A} (i j : nat) (l : list A) : list A := firstn (j - i) (skipn i l).

(** Modelled from the spec: [findPluginByName] of [./utils.js] is not in the
    sources.  The specification has it look a record up by [name], the join
    key (4.1, step 1); it is taken as [Array.prototype.find], the first
    element in list order whose name is the one asked for.  [nameOf] reads
    the name: [fieldData.name] of a catalogue record, [name] of a manifest
    entry. *)
Definition findPluginByName {A} (nameOf : A -> string) (plugins : list A)
    (n : string) : option A :=
  List.find (fun p => String.eqb (nameOf p) n) plugins.

Definition webflowName (p : WebflowItem) : string := fd_name (wf_fieldData p).

Definition BATCH_SIZE : nat := 5.
Definition DELAY_MS : Z := 2000.

(** ** The stores and the calls to the outside *)

(** What a store call that resolved did to the stores.  The content
    collection assigns the id of a new record from a counter, so that no id
    is used twice; an update replaces the fields of the record with that
    id, a deletion removes it, and both do nothing when there is none.  The
    index is keyed by [objectID]: saving an object replaces the one with
    its key. *)
Definition applyStore (c : StoreCall) (s : State) : State :=
  match c with
  | CreateWebflowItem fd =>
      set_nextId (S (nextId s))
        (set_webflow (fun items => items ++ [mkWebflowItem (nextId s) None fd]) s)
  | UpdateWebflowItem i fd =>
      set_webflow
        (map (fun it => if Nat.eqb (wf_id it) i
                        then mkWebflowItem (wf_id it) (wf_name it) fd else it)) s
  | DeleteWebflowItem i =>
      set_webflow (List.filter (fun it => negb (Nat.eqb (wf_id it) i))) s
  | CreateAlgoliaItem item => set_algolia (fun m => <[objectID item := item]> m) s
  | UpdateAlgoliaItem item => set_algolia (fun m => <[objectID item := item]> m) s
  | DeleteAlgoliaItem slug => set_algolia (fun m => delete slug m) s
  end.

Section Script.

Variable U : Utils.
Variable W : World.

(** A store call: it is rejected when the world says so, and then leaves
    the stores as they were; otherwise it resolves and takes effect. *)
Definition storeCall (c : StoreCall) : M unit :=
  fun s =>
    match storeFault W c with
    | Some e => (Thrown e, record (EvStore c false) s)
    | None => (Returned tt, record (EvStore c true) (applyStore c s))
    end.

Definition createWebflowItem (fd : FieldData) : M unit := storeCall (CreateWebflowItem fd).
Definition updateWebflowItem (i : nat) (fd : FieldData) : M unit :=
  storeCall (UpdateWebflowItem i fd).
Definition deleteWebflowItem (i : nat) : M unit := storeCall (DeleteWebflowItem i).
Definition createAlgoliaItem (item : AlgoliaItem) : M unit := storeCall (CreateAlgoliaItem item).
Definition updateAlgoliaItem (item : AlgoliaItem) : M unit := storeCall (UpdateAlgoliaItem item).
Definition deleteAlgoliaItem (slug : string) : M unit := storeCall (DeleteAlgoliaItem slug).

Definition callRepoInfo (r : RepoRef) : M (option RepoInfo) :=
  modify (record (EvGetRepoInfo r)) ;;; ofOutcome (getRepoInfo W r).

Definition callNpmDownloads (packageName : string) (repoName : option string)
    : M (option Z) :=
  modify (record (EvGetNpmDownloads packageName repoName)) ;;;
  ofOutcome (getNpmDownloads W packageName repoName).

Definition callReadmeContent (r : RepoRef) : M (option Readme) :=
  modify (record (EvGetReadmeContent r)) ;;; ofOutcome (getReadmeContent W r).

Definition listAlgoliaItems : M (list AlgoliaItem) :=
  fun s =>
    match listAlgoliaFault W with
    | Some e => (Thrown e, record EvListAlgolia s)
    | None => (Returned (map snd (map_to_list (algolia s))), record EvListAlgolia s)
    end.

Definition listWebflowCollectionItems : M (list WebflowItem) :=
  fun s =>
    match listWebflowFault W with
    | Some e => (Thrown e, record EvListWebflow s)
    | None => (Returned (webflow s), record EvListWebflow s)
    end.

Definition sleep (ms : Z) : M unit := modify (record (EvSleep ms)).

(** [generateReadme(githubPlugins)], as a call that throws or returns as
    the world has it. *)
Definition generateReadme : M unit :=
  fun s =>
    match generateReadmeFault W with
    | Some e => (Thrown e, record EvGenerateReadme s)
    | None => (Returned tt, record EvGenerateReadme s)
    end.

Definition consoleLog (msg : string) : M unit := modify (record (EvLog msg)).
Definition consoleError (msg detail : string) : M unit := modify (record (EvError msg detail)).

Definition pushCreated (n : string) : M unit := modify (set_created (fun l => l ++ [n])).
Definition pushUpdated (n : string) : M unit := modify (set_updated (fun l => l ++ [n])).
Definition pushDeleted (n : string) : M unit := modify (set_deleted (fun l => l ++ [n])).
Definition pushFailed (f : FailedPlugin) : M unit := modify (set_failed (fun l => l ++ [f])).

(** [webflowPluginIds.delete(x)] *)
Definition idsDelete (x : option string) : M unit :=
  modify (set_ids (fun ids => ids ∖ {[ x ]})).

(** ** Assembly of the two field-sets (lines 85-110) *)

Definition assembleFieldData (githubPlugin : ManifestEntry) (repoInfo : option RepoInfo)
    (npmDownloads : option Z) (content : string) : FieldData :=
  let info := default noRepoInfo repoInfo in
  {| fd_name := gp_name githubPlugin;
     fd_title := formatTitle U (gp_name githubPlugin);
     fd_slug := basename U (gp_githubUrl githubPlugin);
     fd_description := gp_description githubPlugin;
     fd_github := gp_githubUrl githubPlugin;
     fd_content := content;
     fd_npm_downloads := orZero npmDownloads;
     fd_github_stars := orZero (githubStars info);
     fd_author_link := authorLink info;
     fd_author_name := authorName info;
     fd_author_avatar := authorAvatar info;
     fd_active := activeOf (gp_status githubPlugin) |}.

Definition assembleAlgoliaItem (githubPlugin : ManifestEntry) (repoInfo : option RepoInfo)
    (npmDownloads : option Z) : AlgoliaItem :=
  let info := default noRepoInfo repoInfo in
  {| objectID := basename U (gp_githubUrl githubPlugin);
     al_name := gp_name githubPlugin;
     al_description := gp_description githubPlugin;
     al_githubUrl := gp_githubUrl githubPlugin;
     al_npmDownloads := orZero npmDownloads;
     al_githubStars := orZero (githubStars info);
     al_authorLink := authorLink info;
     al_authorName := authorName info;
     al_authorAvatar := authorAvatar info |}.

(** The three enrichment calls of one entry (lines 58-65). *)
Definition enrich (githubPlugin : ManifestEntry)
    : M (option RepoInfo * option Z * option Readme) :=
  parsed <- ofOutcome (gitUrlParse U (gp_githubUrl githubPlugin)) ;;
  let r := default noRepoRef parsed in
  promiseAll3 (callRepoInfo r)
              (callNpmDownloads (gp_name githubPlugin) (repo r))
              (callReadmeContent r).

(** The [catch] block of [processPlugin]. *)
Definition processPluginCatch (githubPlugin : ManifestEntry) (err : JsError) : M unit :=
  consoleError ("Failed to process " +:+ gp_name githubPlugin) (getErrorMessage U err) ;;;
  pushFailed {| fp_name := gp_name githubPlugin;
                fp_reason := "Webflow or Algolia error: " +:+ getErrorMessage U err |}.

Definition noContentFailure (githubPlugin : ManifestEntry) : M unit :=
  consoleLog ("No README content found for " +:+ gp_name githubPlugin) ;;;
  pushFailed {| fp_name := gp_name githubPlugin;
                fp_reason := "No README content found" |}.

(** The create branch, the same in both revisions. *)
Definition createBoth (githubPlugin : ManifestEntry) (fieldData : FieldData)
    (algoliaItem : AlgoliaItem) : M unit :=
  consoleLog "CREATING WEBFLOW ITEM" ;;;
  createWebflowItem fieldData ;;;
  createAlgoliaItem algoliaItem ;;;
  pushCreated (gp_name githubPlugin).

(** The two writes of the update branch, the same in both revisions. *)
Definition updateBoth (githubPlugin : ManifestEntry) (webflowPlugin : WebflowItem)
    (fieldData : FieldData) (algoliaItem : AlgoliaItem) : M unit :=
  consoleLog "UPDATING WEBFLOW ITEM" ;;;
  updateWebflowItem (wf_id webflowPlugin) fieldData ;;;
  updateAlgoliaItem algoliaItem ;;;
  pushUpdated (gp_name githubPlugin).

End Script.

(** ** The loops of [syncPlugins] *)

(** [for (const x of xs) { await body(x) }]: one after the other; a
    rejection ends the loop. *)
Fixpoint forOf {A} (xs : list A) (body : A -> M unit) : M unit :=
  match xs with
  | [] => ret tt
  | x :: xs' => body x ;;; forOf xs' body
  end.

(** The batch loop (lines 199-210), [process] standing for
    [(githubPlugin) => processPlugin(githubPlugin, webflowPlugins,
    webflowPluginIds)] and [pause] for [sleep(DELAY_MS)]:
<<
    for (let i = 0; i < githubPlugins.length; i += BATCH_SIZE) {
      const batch = githubPlugins.slice(i, i + BATCH_SIZE);
      await Promise.all(batch.map(process));
      if (i + BATCH_SIZE < githubPlugins.length) { await pause; }
    }
>>  *)
Equations forBatches (process : ManifestEntry -> M unit) (pause : M unit)
    (githubPlugins : list ManifestEntry) (i : nat) : M unit
    by wf (length githubPlugins - i) lt :=
forBatches process pause githubPlugins i with lt_dec i (length githubPlugins) := {
  | left _ =>
      let batch := slice i (i + BATCH_SIZE) githubPlugins in
      promiseAll (map process batch) ;;;
      (if Nat.ltb (i + BATCH_SIZE) (length githubPlugins) then pause else ret tt) ;;;
      forBatches process pause githubPlugins (i + BATCH_SIZE)
  | right _ => ret tt }.
Next Obligation. unfold BATCH_SIZE. lia. Qed.

(** How the process ends: [syncPlugins] ran through, or its [catch] block
    called [process.exit(1)]. *)
Inductive Exit : Type := Completed | Exit1.

(** The outer [try]/[catch] of [syncPlugins]. *)
Definition orExit (body : M unit) : State -> Exit * State :=
  fun s =>
    match body s with
    | (Returned _, s') => (Completed, s')
    | (Thrown e, s') =>
        (Exit1, record (EvError "An error occurred during the sync process:" (message e)) s')
    end.

(** ** [src/sync-plugins.js] *)

Module Sync.
Section Sync.

Variable U : Utils.
Variable W : World.

(** [processDeletePlugin] (lines 157-172). *)
Definition processDeletePlugin (webflowPlugin : WebflowItem) : M unit :=
  tryCatch
    (consoleLog "DELETING WEBFLOW ITEM" ;;;
     deleteWebflowItem W (wf_id webflowPlugin) ;;;
     deleteAlgoliaItem W (fd_slug (wf_fieldData webflowPlugin)) ;;;
     pushDeleted (webflowName webflowPlugin))
    (fun err =>
       consoleError ("Failed to process deletion of " +:+ webflowName webflowPlugin)
                    (getErrorMessage U err)).

(** The [try] block of [processPlugin] (lines 56-142). *)
Definition processPluginBody (githubPlugin : ManifestEntry)
    (webflowPlugins : list WebflowItem) : M unit :=
  let webflowPlugin := findPluginByName webflowName webflowPlugins (gp_name githubPlugin) in
  results <- enrich U W githubPlugin ;;
  let '(repoInfo, npmDownloads, readmeContent) := results in
  match contentOf readmeContent with
  | None =>
      noContentFailure githubPlugin ;;;
      match webflowPlugin with
      | Some wp => processDeletePlugin wp
      | None => ret tt
      end
  | Some content =>
      let fieldData := assembleFieldData U githubPlugin repoInfo npmDownloads content in
      let algoliaItem := assembleAlgoliaItem U githubPlugin repoInfo npmDownloads in
      match webflowPlugin with
      | Some wp =>
          let hasChanged := isPluginEqual U githubPlugin (wf_fieldData wp) content in
          if hasChanged
          then updateBoth W githubPlugin wp fieldData algoliaItem
          else consoleLog ("No changes detected for " +:+ gp_name githubPlugin
                           +:+ ", skipping update.")
      | None => createBoth W githubPlugin fieldData algoliaItem
      end ;;;
      idsDelete (gp_id githubPlugin)
  end.

(** [processPlugin] (lines 50-153). *)
Definition processPlugin (githubPlugin : ManifestEntry)
    (webflowPlugins : list WebflowItem) : M unit :=
  tryCatch (processPluginBody githubPlugin webflowPlugins)
           (processPluginCatch U githubPlugin).

(** The orphan pass (lines 212-216). *)
Definition deleteOrphans (githubPlugins : list ManifestEntry)
    (webflowPlugins : list WebflowItem) : M unit :=
  forOf webflowPlugins (fun webflowPlugin =>
    match findPluginByName gp_name githubPlugins (webflowName webflowPlugin) with
    | Some _ => ret tt
    | None => processDeletePlugin webflowPlugin
    end).

(** The [try] block of [syncPlugins] (lines 178-218), [githubPlugins] being
    what [getGithubPluginsList] read.  The summary printed afterwards is not
    modelled. *)
Definition syncPluginsBody (githubPlugins : list ManifestEntry) : M unit :=
  algoliaPlugins <- listAlgoliaItems W ;;
  webflowPlugins <- listWebflowCollectionItems W ;;
  modify (set_ids (fun _ => list_to_set (map wf_name webflowPlugins))) ;;;
  forBatches (fun githubPlugin => processPlugin githubPlugin webflowPlugins)
             (sleep DELAY_MS) githubPlugins 0 ;;;
  deleteOrphans githubPlugins webflowPlugins ;;;
  generateReadme W.

(** [syncPlugins] (lines 176-242). *)
Definition syncPlugins (githubPlugins : list ManifestEntry) : State -> Exit * State :=
  orExit (syncPluginsBody githubPlugins).

End Sync.
End Sync.

(** ** [src/unnamed/part_000] *)

Module Part000.
Section Part000.

Variable U : Utils.
Variable W : World.

(** The [try] block of [processPlugin] (lines 113-183). *)
Definition processPluginBody (githubPlugin : ManifestEntry)
    (webflowPlugins : list WebflowItem) : M unit :=
  let webflowPlugin := findPluginByName webflowName webflowPlugins (gp_name githubPlugin) in
  results <- enrich U W githubPlugin ;;
  let '(repoInfo, npmDownloads, readmeContent) := results in
  match contentOf readmeContent with
  | None => noContentFailure githubPlugin
  | Some content =>
      let fieldData := assembleFieldData U githubPlugin repoInfo npmDownloads content in
      let algoliaItem := assembleAlgoliaItem U githubPlugin repoInfo npmDownloads in
      match webflowPlugin with
      | Some wp => updateBoth W githubPlugin wp fieldData algoliaItem
      | None => createBoth W githubPlugin fieldData algoliaItem
      end ;;;
      idsDelete (gp_id githubPlugin)
  end.

(** [processPlugin] (lines 107-194). *)
Definition processPlugin (githubPlugin : ManifestEntry)
    (webflowPlugins : list WebflowItem) : M unit :=
  tryCatch (processPluginBody githubPlugin webflowPlugins)
           (processPluginCatch U githubPlugin).

(** The orphan pass (lines 228-238): no [try] around the deletion. *)
Definition deleteOrphans (githubPlugins : list ManifestEntry)
    (webflowPlugins : list WebflowItem) : M unit :=
  forOf webflowPlugins (fun webflowPlugin =>
    match findPluginByName gp_name githubPlugins (webflowName webflowPlugin) with
    | Some _ => ret tt
    | None =>
        consoleLog "DELETING WEBFLOW ITEM" ;;;
        deleteWebflowItem W (wf_id webflowPlugin) ;;;
        deleteAlgoliaItem W (fd_slug (wf_fieldData webflowPlugin)) ;;;
        pushDeleted (webflowName webflowPlugin)
    end).

(** The [try] block of [syncPlugins] (lines 201-240).  The report and its
    posting to the pull request are not modelled. *)
Definition syncPluginsBody (githubPlugins : list ManifestEntry) : M unit :=
  algoliaPlugins <- listAlgoliaItems W ;;
  webflowPlugins <- listWebflowCollectionItems W ;;
  modify (set_ids (fun _ => list_to_set (map wf_name webflowPlugins))) ;;;
  forBatches (fun githubPlugin => processPlugin githubPlugin webflowPlugins)
             (sleep DELAY_MS) githubPlugins 0 ;;;
  deleteOrphans githubPlugins webflowPlugins ;;;
  generateReadme W.

(** [syncPlugins] (lines 199-252). *)
Definition syncPlugins (githubPlugins : list ManifestEntry) : State -> Exit * State :=
  orExit (syncPluginsBody githubPlugins).

End Part000.
End Part000.

(** ** The script without [webflowPluginIds]

    [src/sync-plugins.js] with the set, its construction (line 191) and the
    one operation on it (line 142) taken out; everything else is as in
    [Sync]. *)

Module SyncNoSet.
Section SyncNoSet.

Variable U : Utils.
Variable W : World.

Definition processPluginBody (githubPlugin : ManifestEntry)
    (webflowPlugins : list WebflowItem) : M unit :=
  let webflowPlugin := findPluginByName webflowName webflowPlugins (gp_name githubPlugin) in
  results <- enrich U W githubPlugin ;;
  let '(repoInfo, npmDownloads, readmeContent) := results in
  match contentOf readmeContent with
  | None =>
      noContentFailure githubPlugin ;;;
      match webflowPlugin with
      | Some wp => Sync.processDeletePlugin U W wp
      | None => ret tt
      end
  | Some content =>
      let fieldData := assembleFieldData U githubPlugin repoInfo npmDownloads content in
      let algoliaItem := assembleAlgoliaItem U githubPlugin repoInfo npmDownloads in
      match webflowPlugin with
      | Some wp =>
          let hasChanged := isPluginEqual U githubPlugin (wf_fieldData wp) content in
          if hasChanged
          then updateBoth W githubPlugin wp fieldData algoliaItem
          else consoleLog ("No changes detected for " +:+ gp_name githubPlugin
                           +:+ ", skipping update.")
      | None => createBoth W githubPlugin fieldData algoliaItem
      end
  end.

Definition processPlugin (githubPlugin : ManifestEntry)
    (webflowPlugins : list WebflowItem) : M unit :=
  tryCatch (processPluginBody githubPlugin webflowPlugins)
           (processPluginCatch U githubPlugin).

Definition syncPluginsBody (githubPlugins : list ManifestEntry) : M unit :=
  algoliaPlugins <- listAlgoliaItems W ;;
  webflowPlugins <- listWebflowCollectionItems W ;;
  forBatches (fun githubPlugin => processPlugin githubPlugin webflowPlugins)
             (sleep DELAY_MS) githubPlugins 0 ;;;
  Sync.deleteOrphans U W githubPlugins webflowPlugins ;;;
  generateReadme W.

Definition syncPlugins (githubPlugins : list ManifestEntry) : State -> Exit * State :=
  orExit (syncPluginsBody githubPlugins).

End SyncNoSet.
End SyncNoSet.

(** [src/unnamed/part_000] without the set (lines 212-214 and 183). *)

Module Part000NoSet.
Section Part000NoSet.

Variable U : Utils.
Variable W : World.

Definition processPluginBody (githubPlugin : ManifestEntry)
    (webflowPlugins : list WebflowItem) : M unit :=
  let webflowPlugin := findPluginByName webflowName webflowPlugins (gp_name githubPlugin) in
  results <- enrich U W githubPlugin ;;
  let '(repoInfo, npmDownloads, readmeContent) := results in
  match contentOf readmeContent with
  | None => noContentFailure githubPlugin
  | Some content =>
      let fieldData := assembleFieldData U githubPlugin repoInfo npmDownloads content in
      let algoliaItem := assembleAlgoliaItem U githubPlugin repoInfo npmDownloads in
      match webflowPlugin with
      | Some wp => updateBoth W githubPlugin wp fieldData algoliaItem
      | None => createBoth W githubPlugin fieldData algoliaItem
      end
  end.

Definition processPlugin (githubPlugin : ManifestEntry)
    (webflowPlugins : list WebflowItem) : M unit :=
  tryCatch (processPluginBody githubPlugin webflowPlugins)
           (processPluginCatch U githubPlugin).

Definition syncPluginsBody (githubPlugins : list ManifestEntry) : M unit :=
  algoliaPlugins <- listAlgoliaItems W ;;
  webflowPlugins <- listWebflowCollectionItems W ;;
  forBatches (fun githubPlugin => processPlugin githubPlugin webflowPlugins)
             (sleep DELAY_MS) githubPlugins 0 ;;;
  Part000.deleteOrphans W githubPlugins webflowPlugins ;;;
  generateReadme W.

Definition syncPlugins (githubPlugins : list ManifestEntry) : State -> Exit * State :=
  orExit (syncPluginsBody githubPlugins).

End Part000NoSet.
End Part000NoSet.

(** ** The two revisions side by side *)

Inductive Revision : Type :=
| SyncPluginsJs   (* src/sync-plugins.js *)
| Part_000.       (* src/unnamed/part_000 *)

Definition processPluginBodyOf (rev : Revision) (U : Utils) (W : World)
    : ManifestEntry -> list WebflowItem -> M unit :=
  match rev with
  | SyncPluginsJs => Sync.processPluginBody U W
  | Part_000 => Part000.processPluginBody U W
  end.

Definition processPluginOf (rev : Revision) (U : Utils) (W : World)
    : ManifestEntry -> list WebflowItem -> M unit :=
  match rev with
  | SyncPluginsJs => Sync.processPlugin U W
  | Part_000 => Part000.processPlugin U W
  end.

Definition syncPluginsOf (rev : Revision) (U : Utils) (W : World)
    : list ManifestEntry -> State -> Exit * State :=
  match rev with
  | SyncPluginsJs => Sync.syncPlugins U W
  | Part_000 => Part000.syncPlugins U W
  end.

Definition processPluginNoSetOf (rev : Revision) (U : Utils) (W : World)
    : ManifestEntry -> list WebflowItem -> M unit :=
  match rev with
  | SyncPluginsJs => SyncNoSet.processPlugin U W
  | Part_000 => Part000NoSet.processPlugin U W
  end.

Definition syncPluginsNoSetOf (rev : Revision) (U : Utils) (W : World)
    : list ManifestEntry -> State -> Exit * State :=
  match rev with
  | SyncPluginsJs => SyncNoSet.syncPlugins U W
  | Part_000 => Part000NoSet.syncPlugins U W
  end.

(** ** The report and its posting to the pull request

    [generateReport] and [postReportToPR] are in [src/unnamed/part_000]
    (lines 47-100) and in the older copy in [src/sync-plugins.js] (lines
    346-400).  The two differ in how a failure is printed and in how the
    earlier report comment is recognised. *)

(** The line feed of a template literal. *)
Definition newline : string := String (ascii_of_nat 10) EmptyString.

(** A length as a template literal prints it. *)
Definition showNat (n : nat) : string := NilZero.string_of_uint (Nat.to_uint n).

(** [array.join(sep)] on strings. *)
Definition join (sep : string) (l : list string) : string := String.concat sep l.

(** [s.startsWith(search)] *)
Definition startsWith (search s : string) : bool := String.prefix search s.

(** [s.includes(search)]: [search] starts at some position of [s]. *)
Fixpoint includes (search s : string) : bool :=
  String.prefix search s ||
  match s with
  | EmptyString => false
  | String _ s' => includes search s'
  end.

(** [list.length > 0 ? list.map(item).join('\n') : ''] *)
Definition itemize {A} (item : A -> string) (l : list A) : string :=
  if Nat.ltb 0 (length l) then join newline (map item l) else "".

(** The template literal of [generateReport], [failedItem] printing one
    failure. *)
Definition reportText (failedItem : FailedPlugin -> string) (s : State) : string :=
  newline +:+
  "## Sync Report" +:+ newline +:+
  "- **Created plugins**: " +:+ showNat (length (createdPlugins s)) +:+ newline +:+
  "  " +:+ itemize (fun plugin => "  - " +:+ plugin) (createdPlugins s) +:+ newline +:+
  "- **Updated plugins**: " +:+ showNat (length (updatedPlugins s)) +:+ newline +:+
  "- **Deleted plugins**: " +:+ showNat (length (deletedPlugins s)) +:+ newline +:+
  "  " +:+ itemize (fun plugin => "  - " +:+ plugin) (deletedPlugins s) +:+ newline +:+
  "- **Failed plugins**: " +:+ showNat (length (failedPlugins s)) +:+ newline +:+
  "  " +:+ itemize failedItem (failedPlugins s) +:+ newline +:+
  "  ".

(** A comment of the pull request, and the thread of its comments. *)
Record Comment : Type := mkComment {
  comment_id : nat;
  comment_body : string
}.

Record Thread : Type := mkThread {
  comments : list Comment;
  nextCommentId : nat
}.

(** The three calls of [octokit.rest.issues]: what [listComments] answers
    on a thread, and which of the other two calls are rejected. *)
Record Octokit : Type := mkOctokit {
  listComments : Thread -> Outcome (list Comment);
  updateCommentFault : nat -> string -> option JsError;
  createCommentFault : string -> option JsError
}.

(** What the two calls do to the thread when they resolve: the body of the
    comment with that id is replaced; a new comment gets the next id and
    goes to the end.  The body is kept as it was sent. *)
Definition updateComment (i : nat) (body : string) (t : Thread) : Thread :=
  mkThread
    (map (fun c => if Nat.eqb (comment_id c) i then mkComment (comment_id c) body else c)
         (comments t))
    (nextCommentId t).

Definition createComment (body : string) (t : Thread) : Thread :=
  mkThread (comments t ++ [mkComment (nextCommentId t) body]) (S (nextCommentId t)).

(** [postReportToPR], [isReport] being the test of [comments.find].  A
    returned string is the line the function prints with [console.log]. *)
Definition postReport (isReport : string -> bool) (O : Octokit) (report : string)
    (t : Thread) : Outcome string * Thread :=
  match listComments O t with
  | Thrown e => (Thrown e, t)
  | Returned listed =>
      match List.find (fun comment => isReport (comment_body comment)) listed with
      | Some existingComment =>
          match updateCommentFault O (comment_id existingComment) report with
          | Some e => (Thrown e, t)
          | None => (Returned "Report updated on the PR successfully.",
                     updateComment (comment_id existingComment) report t)
          end
      | None =>
          match createCommentFault O report with
          | Some e => (Thrown e, t)
          | None => (Returned "Report posted to the PR successfully.",
                     createComment report t)
          end
      end
  end.

(** [process.env.GITHUB_EVENT_NAME === name], the variable set or not. *)
Definition isEvent (name : string) (eventName : option string) : bool :=
  match eventName with
  | Some ev => String.eqb ev name
  | None => false
  end.

(** The end of the [try] block of [syncPlugins], after the stores are
    synchronised: the report is printed, and posted when the run is for a
    pull request ([eventName] is [process.env.GITHUB_EVENT_NAME]); a
    rejection of the posting goes to the outer [catch]. *)
Definition reportAndExit (generateReport : State -> string)
    (postReportToPR : string -> Thread -> Outcome string * Thread)
    (eventName : option string) (body : M unit) (s : State) (t : Thread)
    : Exit * State * Thread :=
  match body s with
  | (Thrown e, s1) =>
      (Exit1, record (EvError "An error occurred during the sync process:" (message e)) s1, t)
  | (Returned _, s1) =>
      let s2 := record (EvLog "Sync process completed.") s1 in
      let report := generateReport s2 in
      let s3 := record (EvLog report) s2 in
      if isEvent "pull_request" eventName
      then match postReportToPR report t with
           | (Returned line, t') => (Completed, record (EvLog line) s3, t')
           | (Thrown e, t') =>
               (Exit1,
                record (EvError "An error occurred during the sync process:" (message e)) s3,
                t')
           end
      else (Completed, s3, t)
  end.

(** [src/unnamed/part_000] with its report (lines 47-100 and 240-247). *)
Module Part000Report.

Definition generateReport : State -> string :=
  reportText (fun plugin =>
    "  - **" +:+ fp_name plugin +:+ "**: `" +:+ fp_reason plugin +:+ "`").

Definition postReportToPR : Octokit -> string -> Thread -> Outcome string * Thread :=
  postReport (includes "## Sync Report").

(** [syncPlugins] (lines 199-252). *)
Definition syncPlugins (U : Utils) (W : World) (O : Octokit) (eventName : option string)
    (githubPlugins : list ManifestEntry) : State -> Thread -> Exit * State * Thread :=
  reportAndExit generateReport (postReportToPR O) eventName
    (Part000.syncPluginsBody U W githubPlugins).

End Part000Report.

(** ** The older copy in [src/sync-plugins.js] (lines 309-550)

    Its [processPlugin] has the [try] block of [src/unnamed/part_000] and
    reads [err.message] in the [catch] block.  Its [syncPlugins] calls
    [sleep], which the copy neither imports nor defines: evaluating
    [sleep(DELAY_MS)] throws a [ReferenceError].  It has no
    [generateReadme]. *)
Module Older.
Section Older.

Variable U : Utils.
Variable W : World.
Variable O : Octokit.

Definition generateReport : State -> string :=
  reportText (fun plugin => "  - **" +:+ fp_name plugin +:+ "**: " +:+ fp_reason plugin).

Definition postReportToPR : string -> Thread -> Outcome string * Thread :=
  postReport (startsWith "## Sync Report") O.

(** [processPlugin] (lines 407-491). *)
Definition processPlugin (githubPlugin : ManifestEntry)
    (webflowPlugins : list WebflowItem) : M unit :=
  tryCatch (Part000.processPluginBody U W githubPlugin webflowPlugins)
    (fun err =>
       consoleError ("Failed to process " +:+ gp_name githubPlugin) (message err) ;;;
       pushFailed {| fp_name := gp_name githubPlugin;
                     fp_reason := "Webflow or Algolia error: " +:+ message err |}).

(** [sleep(DELAY_MS)] where [sleep] is not bound. *)
Definition sleepUnbound : M unit := throw (mkJsError "sleep is not defined").

(** The [try] block of [syncPlugins] up to the orphan pass (lines 498-535). *)
Definition syncPluginsBody (githubPlugins : list ManifestEntry) : M unit :=
  algoliaPlugins <- listAlgoliaItems W ;;
  webflowPlugins <- listWebflowCollectionItems W ;;
  modify (set_ids (fun _ => list_to_set (map wf_name webflowPlugins))) ;;;
  forBatches (fun githubPlugin => processPlugin githubPlugin webflowPlugins)
             sleepUnbound githubPlugins 0 ;;;
  Part000.deleteOrphans W githubPlugins webflowPlugins.

(** [syncPlugins] (lines 496-548). *)
Definition syncPlugins (eventName : option string)
    (githubPlugins : list ManifestEntry) : State -> Thread -> Exit * State * Thread :=
  reportAndExit generateReport postReportToPR eventName (syncPluginsBody githubPlugins).

End Older.
End Older.

(** ** Plugin names in the README table

    [commonPartRe], [formatPluginName] and [toTitleCase] are the same in
    [src/sync-plugins.js] (lines 243-267) and [src/unnamed/part_000]
    (lines 253-277).  A string is taken character by character; the model
    is the script's on names of ASCII characters, where a character is a
    UTF-16 code unit and upper and lower case are those of the letters A to
    Z.  The properties are stated for such names. *)

Definition isAscii (s : string) : bool :=
  forallb (fun c => Nat.ltb (nat_of_ascii c) 128) (list_ascii_of_string s).

Definition inRange (lo hi : nat) (c : ascii) : bool :=
  Nat.leb lo (nat_of_ascii c) && Nat.leb (nat_of_ascii c) hi.

Definition charToLowerCase (c : ascii) : ascii :=
  if inRange 65 90 c then ascii_of_nat (nat_of_ascii c + 32) else c.

Definition charToUpperCase (c : ascii) : ascii :=
  if inRange 97 122 c then ascii_of_nat (nat_of_ascii c - 32) else c.

Fixpoint mapString (f : ascii -> ascii) (s : string) : string :=
  match s with
  | EmptyString => EmptyString
  | String c s' => String (f c) (mapString f s')
  end.

(** [s.toLowerCase()] *)
Definition toLowerCase (s : string) : string := mapString charToLowerCase s.

(** The class [\w]: a letter, a digit or the underscore. *)
Definition isWordChar (c : ascii) : bool :=
  inRange 65 90 c || inRange 97 122 c || inRange 48 57 c || Ascii.eqb c "_".

(** The class [\s] on ASCII: tab, line feed, vertical tab, form feed,
    carriage return and space; [\S] is its complement. *)
Definition isSpaceChar (c : ascii) : bool :=
  inRange 9 13 c || Ascii.eqb c " ".

(** [str.replace(/\w\S*/g, (txt) => txt.charAt(0).toUpperCase() +
    txt.substr(1).toLowerCase())], read from left to right.  Outside a
    match, a character of [\w] starts one and is put in upper case, any
    other character is copied.  Inside a match, [\S*] takes every
    character that is no white space and puts it in lower case; a white
    space ends the match and is copied. *)
Fixpoint titleCase (inMatch : bool) (str : string) : string :=
  match str with
  | EmptyString => EmptyString
  | String c str' =>
      if inMatch
      then if isSpaceChar c
           then String c (titleCase false str')
           else String (charToLowerCase c) (titleCase true str')
      else if isWordChar c
           then String (charToUpperCase c) (titleCase true str')
           else String c (titleCase false str')
  end.

(** [toTitleCase] *)
Definition toTitleCase (str : string) : string := titleCase false str.

(** [word] read at the start of [s]: what follows it. *)
Fixpoint readWord (word s : string) : option string :=
  match word with
  | EmptyString => Some s
  | String c word' =>
      match s with
      | EmptyString => None
      | String d s' => if Ascii.eqb c d then readWord word' s' else None
      end
  end.

(** [(?:-|$)]: a hyphen, which is consumed, or the end of the string. *)
Definition hyphenOrEnd (s : string) : option string :=
  match s with
  | EmptyString => Some EmptyString
  | String c s' => if Ascii.eqb c "-" then Some s' else None
  end.

(** [(?:^|-)word(?:-|$)] tried at one position of the subject, [s] being
    the subject from that position on and [atStart] telling whether the
    position is the first: what follows the match.  [^] is tried before
    the hyphen. *)
Definition commonPart (word : string) (atStart : bool) (s : string) : option string :=
  match (if atStart
         then match readWord word s with
              | Some rest => hyphenOrEnd rest
              | None => None
              end
         else None) with
  | Some rest => Some rest
  | None =>
      match readWord (String "-" word) s with
      | Some rest => hyphenOrEnd rest
      | None => None
      end
  end.

(** [commonPartRe] tried at one position: the alternative with
    [serverless-plugin] before the one with [serverless]. *)
Definition commonPartRe (atStart : bool) (s : string) : option string :=
  match commonPart "serverless-plugin" atStart s with
  | Some rest => Some rest
  | None => commonPart "serverless" atStart s
  end.

(** [s.replace(commonPartRe, '')]: the expression has no [g] flag, the
    leftmost match is taken out and nothing else. *)
Fixpoint replaceCommonPart (atStart : bool) (s : string) : string :=
  match commonPartRe atStart s with
  | Some rest => rest
  | None =>
      match s with
      | EmptyString => EmptyString
      | String c s' => String c (replaceCommonPart false s')
      end
  end.

(** [s.replace(/-/g, ' ')] *)
Definition replaceHyphens (s : string) : string :=
  mapString (fun c => if Ascii.eqb c "-" then " "%char else c) s.

(** [formatPluginName] *)
Definition formatPluginName (string : String.string) : String.string :=
  toTitleCase (replaceHyphens (replaceCommonPart true (toLowerCase string))).

(** ** Vocabulary of the properties *)

(** Everything of a state but [webflowPluginIds]. *)
Definition observe (s : State) :=
  (webflow s, nextId s, algolia s, createdPlugins s, updatedPlugins s,
   deletedPlugins s, failedPlugins s, trace s).

(** Two computations that do the same but for [webflowPluginIds]: started
    in states with the same stores, report lists and trace, they end with
    the same outcome in states with the same stores, report lists and
    trace. *)
Definition simulates {A} (c c' : M A) : Prop :=
  forall s s', observe s = observe s' ->
    fst (c s) = fst (c' s') /\ observe (snd (c s)) = observe (snd (c' s')).

(** The entries of a list handed to [process] one after the other, each
    started in the state the one before it left. *)
Definition runAll (process : ManifestEntry -> M unit) (entries : list ManifestEntry)
    (s : State) : State :=
  fold_left (fun st g => snd (process g st)) entries s.

Definition isSleep (ev : Event) : bool :=
  match ev with
  | EvSleep _ => true
  | _ => false
  end.

Definition countSleeps (tr : list Event) : nat := length (List.filter isSleep tr).

Definition isContentWrite (c : StoreCall) : bool :=
  match c with
  | CreateWebflowItem _ | UpdateWebflowItem _ _ => true
  | _ => false
  end.

Definition isIndexWrite (c : StoreCall) : bool :=
  match c with
  | CreateAlgoliaItem _ | UpdateAlgoliaItem _ => true
  | _ => false
  end.

(** The create and update calls of a trace, in order. *)
Definition storeWrites (tr : list Event) : list Event :=
  List.filter (fun ev =>
    match ev with
    | EvStore c _ => isContentWrite c || isIndexWrite c
    | _ => false
    end) tr.

(** The create and update calls one entry may leave in the trace: none; a
    rejected write to the content collection; or a resolved write to the
    content collection followed by the matching write to the index. *)
Inductive WritesInOrder : list Event -> Prop :=
| wio_none : WritesInOrder []
| wio_rejected c :
    isContentWrite c = true -> WritesInOrder [EvStore c false]
| wio_create fd item b :
    WritesInOrder [EvStore (CreateWebflowItem fd) true;
                   EvStore (CreateAlgoliaItem item) b]
| wio_update i fd item b :
    WritesInOrder [EvStore (UpdateWebflowItem i fd) true;
                   EvStore (UpdateAlgoliaItem item) b].

(** The state in which the next process starts: the stores as this one
    left them, the report lists empty again. *)
Definition nextProcess (s : State) : State :=
  initState (webflow s) (nextId s) (algolia s).

(** What the enrichment of an entry comes to: an exception, no README
    content, or the two assembled field-sets and the content. *)
Inductive Plan : Type :=
| PlanThrow
| PlanNoContent
| PlanContent (fieldData : FieldData) (algoliaItem : AlgoliaItem) (content : string).

Definition planOf (U : Utils) (W : World) (githubPlugin : ManifestEntry) : Plan :=
  match gitUrlParse U (gp_githubUrl githubPlugin) with
  | Thrown _ => PlanThrow
  | Returned parsed =>
      let r := default noRepoRef parsed in
      match getRepoInfo W r,
            getNpmDownloads W (gp_name githubPlugin) (repo r),
            getReadmeContent W r with
      | Returned repoInfo, Returned npmDownloads, Returned readmeContent =>
          match contentOf readmeContent with
          | None => PlanNoContent
          | Some content =>
              PlanContent
                (assembleFieldData U githubPlugin repoInfo npmDownloads content)
                (assembleAlgoliaItem U githubPlugin repoInfo npmDownloads)
                content
          end
      | _, _, _ => PlanThrow
      end
  end.

(** A record is in step with an entry when it holds the fields assembled
    for the entry, or when the change check finds nothing to do on it. *)
Definition inStep (U : Utils) (g : ManifestEntry) (fd : FieldData) (c : string)
    (it : WebflowItem) : Prop :=
  wf_fieldData it = fd \/ isPluginEqual U g (wf_fieldData it) c = false.

(** What holds of the content collection [wf] and its next id [nx] once
    the entries [done] have been processed against the listing [listing]
    taken when the next id was [next]. *)
Record BatchInv (U : Utils) (W : World) (listing : list WebflowItem) (next : nat)
    (done : list ManifestEntry) (wf : list WebflowItem) (nx : nat) : Prop :=
  mkBatchInv {
    inv_next : next <= nx;
    (** a record with the id of a listed one has its name *)
    inv_ids : forall it it0,
      In it wf -> In it0 listing -> wf_id it = wf_id it0 ->
      webflowName it = webflowName it0;
    (** a record whose name was not processed yet is a listed one *)
    inv_old : forall it,
      In it wf -> ~ In (webflowName it) (map gp_name done) -> In it listing;
    (** a listed record whose name was not processed yet is still there *)
    inv_kept : forall it0,
      In it0 listing -> ~ In (webflowName it0) (map gp_name done) -> In it0 wf;
    (** an entry with content has a record, and its records are in step *)
    inv_content : forall g fd ai c,
      In g done -> planOf U W g = PlanContent fd ai c ->
      (exists it, In it wf /\ webflowName it = gp_name g) /\
      (forall it, In it wf -> webflowName it = gp_name g -> inStep U g fd c it);
    (** an entry without content has no record *)
    inv_nocontent : forall g,
      In g done -> planOf U W g = PlanNoContent ->
      forall it, In it wf -> webflowName it <> gp_name g
  }.

(** The content collection is reconciled with the manifest: the records of
    entries with content exist and are in step, entries without content
    have no record, and every record belongs to an entry. *)
Record Reconciled (U : Utils) (W : World) (githubPlugins : list ManifestEntry)
    (wf : list WebflowItem) : Prop :=
  mkReconciled {
    rec_content : forall g fd ai c,
      In g githubPlugins -> planOf U W g = PlanContent fd ai c ->
      (exists it, In it wf /\ webflowName it = gp_name g) /\
      (forall it, In it wf -> webflowName it = gp_name g -> inStep U g fd c it);
    rec_nocontent : forall g,
      In g githubPlugins -> planOf U W g = PlanNoContent ->
      forall it, In it wf -> webflowName it <> gp_name g;
    rec_no_orphan : forall it,
      In it wf -> In (webflowName it) (map gp_name githubPlugins)
  }.

(** How often a name is in a report list. *)
Definition occurrences (n : string) (l : list string) : nat :=
  length (List.filter (String.eqb n) l).


Definition hasId (i : nat) (items : list WebflowItem) : bool :=
  existsb (fun it => Nat.eqb (wf_id it) i) items.

(** ** Stand-ins for the helpers and the network

    Concrete helpers and worlds on which the theorems are instantiated.
    No theorem depends on them. *)

Module Demo.

Fixpoint afterLastSlash (s acc : string) : string :=
  match s with
  | EmptyString => acc
  | String c s' =>
      if Ascii.eqb c "/"%char then afterLastSlash s' ""
      else afterLastSlash s' (acc +:+ String c "")
  end.

Definition parse (url : string) : Outcome (option RepoRef) :=
  Returned (Some (mkRepoRef (Some "github.com") (Some "acme") (Some (afterLastSlash url "")))).

(** A change check that answers [true] when one of the manifest fields or
    the README differs from what is stored. *)
Definition differs (g : ManifestEntry) (fd : FieldData) (c : string) : bool :=
  negb (String.eqb (gp_name g) (fd_name fd)
        && String.eqb (gp_description g) (fd_description fd)
        && String.eqb (gp_githubUrl g) (fd_github fd)
        && String.eqb c (fd_content fd)).

Definition utils : Utils :=
  {| gitUrlParse := parse;
     basename := fun url => afterLastSlash url "";
     formatTitle := fun n => n;
     getErrorMessage := message;
     isPluginEqual := differs |}.

(** The same helpers around any change check. *)
Definition utilsWith (check : ManifestEntry -> FieldData -> string -> bool) : Utils :=
  {| gitUrlParse := parse;
     basename := fun url => afterLastSlash url "";
     formatTitle := fun n => n;
     getErrorMessage := message;
     isPluginEqual := check |}.

Definition info (stars : Z) : RepoInfo :=
  mkRepoInfo (Some stars) (Some "https://avatars.example/acme.png")
             (Some "https://github.com/acme") (Some "acme").

(** Every repository has a README and [stars] stars; nothing fails. *)
Definition world (stars : Z) : World :=
  {| getRepoInfo := fun _ => Returned (Some (info stars));
     getNpmDownloads := fun _ _ => Returned (Some 1200%Z);
     getReadmeContent := fun _ => Returned (Some (mkReadme (Some "# Usage")));
     storeFault := fun _ => None;
     listAlgoliaFault := None;
     listWebflowFault := None;
     generateReadmeFault := None |}.


(** No repository has a README, and the content collection rejects every
    deletion. *)
Definition worldDeleteRejected : World :=
  {| getRepoInfo := fun _ => Returned (Some (info 10));
     getNpmDownloads := fun _ _ => Returned (Some 1200%Z);
     getReadmeContent := fun _ => Returned None;
     storeFault := fun c =>
       match c with
       | DeleteWebflowItem _ => Some (mkJsError "429 Too Many Requests")
       | _ => None
       end;
     listAlgoliaFault := None;
     listWebflowFault := None;
     generateReadmeFault := None |}.

(** Every repository has a README; the index rejects every new object. *)
Definition worldIndexRejected : World :=
  {| getRepoInfo := fun _ => Returned (Some (info 10));
     getNpmDownloads := fun _ _ => Returned (Some 1200%Z);
     getReadmeContent := fun _ => Returned (Some (mkReadme (Some "# Usage")));
     storeFault := fun c =>
       match c with
       | CreateAlgoliaItem _ => Some (mkJsError "index unavailable")
       | _ => None
       end;
     listAlgoliaFault := None;
     listWebflowFault := None;
     generateReadmeFault := None |}.

Definition entry (n : string) (st : option string) : ManifestEntry :=
  {| gp_name := n;
     gp_description := "A plugin";
     gp_githubUrl := "https://github.com/acme/" +:+ n;
     gp_status := st;
     gp_id := None |}.

Definition offline : ManifestEntry := entry "serverless-offline" (Some "active").

(** The record a run in [world 10] stores for [offline]. *)
Definition offlineRecord : WebflowItem :=
  mkWebflowItem 1 None
    (assembleFieldData utils offline (Some (info 10)) (Some 1200%Z) "# Usage").

Definition orphanRecord : WebflowItem :=
  mkWebflowItem 2 None
    (assembleFieldData utils (entry "serverless-gone" (Some "active"))
       (Some (info 3)) (Some 5%Z) "# Gone").

Definition twelve : list ManifestEntry :=
  map (fun n => entry n (Some "active"))
    ["p01"; "p02"; "p03"; "p04"; "p05"; "p06";
     "p07"; "p08"; "p09"; "p10"; "p11"; "p12"].

End Demo.

(** ** Vocabulary of the further properties *)

(** The line [processPlugin] of [src/sync-plugins.js] prints when it skips
    the update of an entry (line 130). *)
Definition skipMessage (n : string) : string :=
  "No changes detected for " +:+ n +:+ ", skipping update.".

(** The event is that line, printed for the name [n]. *)
Definition isSkipOf (n : string) (ev : Event) : bool :=
  match ev with
  | EvLog msg => String.eqb msg (skipMessage n)
  | _ => false
  end.

(** How often the update of a name was skipped. *)
Definition skips (n : string) (tr : list Event) : nat :=
  length (List.filter (isSkipOf n) tr).

(** How often a name was dealt with: reported as created, as updated or as
    failed, or its update skipped.  The number does not depend on the order
    in which the entries of a batch get their turns. *)
Definition handled (n : string) (s : State) : nat :=
  occurrences n (createdPlugins s) + occurrences n (updatedPlugins s) +
  occurrences n (map fp_name (failedPlugins s)) + skips n (trace s).

(** The errors of the enrichment calls of an entry that are rejected. *)
Definition enrichmentErrors (U : Utils) (W : World) (githubPlugin : ManifestEntry)
    : list JsError :=
  match gitUrlParse U (gp_githubUrl githubPlugin) with
  | Thrown _ => []
  | Returned parsed =>
      let r := default noRepoRef parsed in
      match getRepoInfo W r with Thrown e => [e] | Returned _ => [] end ++
      match getNpmDownloads W (gp_name githubPlugin) (repo r) with
      | Thrown e => [e]
      | Returned _ => []
      end ++
      match getReadmeContent W r with Thrown e => [e] | Returned _ => [] end
  end.

(** A delete call in a trace, resolved or rejected. *)
Definition isDeleteCall (ev : Event) : bool :=
  match ev with
  | EvStore (DeleteWebflowItem _) _ | EvStore (DeleteAlgoliaItem _) _ => true
  | _ => false
  end.

(** The call of [generateReadme] in a trace. *)
Definition isGenerateReadme (ev : Event) : bool :=
  match ev with
  | EvGenerateReadme => true
  | _ => false
  end.

(** The store calls of a trace, resolved or rejected. *)
Definition storeCalls (tr : list Event) : list Event :=
  List.filter (fun ev => match ev with EvStore _ _ => true | _ => false end) tr.

(** The names a run reports as created, updated or failed. *)
Definition reportedNames (s : State) : list string :=
  createdPlugins s ++ updatedPlugins s ++ map fp_name (failedPlugins s).

(** The state the batch loop starts in: both stores listed, the set
    [webflowPluginIds] built. *)
Definition afterListings (s : State) : State :=
  set_ids (fun _ => list_to_set (map wf_name (webflow s)))
    (record EvListWebflow (record EvListAlgolia s)).

(** The orphan pass of a revision. *)
Definition deleteOrphansOf (rev : Revision) (U : Utils) (W : World)
    : list ManifestEntry -> list WebflowItem -> M unit :=
  match rev with
  | SyncPluginsJs => Sync.deleteOrphans U W
  | Part_000 => Part000.deleteOrphans W
  end.

(** Whether the enrichment of an entry comes to README content. *)
Definition hasContent (p : Plan) : bool :=
  match p with
  | PlanContent _ _ _ => true
  | _ => false
  end.

(** A string has a given character. *)
Fixpoint hasChar (c : ascii) (s : string) : bool :=
  match s with
  | EmptyString => false
  | String d s' => Ascii.eqb c d || hasChar c s'
  end.

(** ** More stand-ins *)

Module Samples.

(** The content collection cannot be listed. *)
Definition worldListingRejected : World :=
  {| getRepoInfo := fun _ => Returned (Some (Demo.info 10));
     getNpmDownloads := fun _ _ => Returned (Some 1200%Z);
     getReadmeContent := fun _ => Returned (Some (mkReadme (Some "# Usage")));
     storeFault := fun _ => None;
     listAlgoliaFault := None;
     listWebflowFault := Some (mkJsError "503 Service Unavailable");
     generateReadmeFault := None |}.

(** Every repository has a README; the index rejects every call that
    changes it. *)
Definition worldIndexReadOnly : World :=
  {| getRepoInfo := fun _ => Returned (Some (Demo.info 10));
     getNpmDownloads := fun _ _ => Returned (Some 1200%Z);
     getReadmeContent := fun _ => Returned (Some (mkReadme (Some "# Usage")));
     storeFault := fun c =>
       match c with
       | CreateAlgoliaItem _ | UpdateAlgoliaItem _ | DeleteAlgoliaItem _ =>
           Some (mkJsError "index is read-only")
       | _ => None
       end;
     listAlgoliaFault := None;
     listWebflowFault := None;
     generateReadmeFault := None |}.

(** The repository host is down: the repository information cannot be
    fetched, the README can. *)
Definition worldRepoInfoRejected : World :=
  {| getRepoInfo := fun _ => Thrown (mkJsError "502 Bad Gateway");
     getNpmDownloads := fun _ _ => Returned (Some 1200%Z);
     getReadmeContent := fun _ => Returned (Some (mkReadme (Some "# Usage")));
     storeFault := fun _ => None;
     listAlgoliaFault := None;
     listWebflowFault := None;
     generateReadmeFault := None |}.

Definition offlineObject : AlgoliaItem :=
  assembleAlgoliaItem Demo.utils Demo.offline (Some (Demo.info 10)) (Some 1200%Z).


(** The whole thread is listed, no call is rejected. *)
Definition octokit : Octokit :=
  {| listComments := fun t => Returned (comments t);
     updateCommentFault := fun _ _ => None;
     createCommentFault := fun _ => None |}.

(** The comments of the pull request cannot be listed. *)
Definition unlisted : Octokit :=
  {| listComments := fun _ => Thrown (mkJsError "401 Bad credentials");
     updateCommentFault := fun _ _ => None;
     createCommentFault := fun _ => None |}.

(** A thread with one comment of a reviewer. *)
Definition thread : Thread :=
  mkThread [mkComment 7 "Looks good to me."] 8.

(** The lists of a run that created one plugin and failed on another. *)
Definition reportLists : State :=
  mkState [] 1 ∅ ["serverless-offline"] [] []
    [mkFailedPlugin "serverless-webpack" "No README content found"] ∅ [].

Definition six : list ManifestEntry :=
  map (fun n => Demo.entry n (Some "active")) ["p01"; "p02"; "p03"; "p04"; "p05"; "p06"].


End Samples.


(** * Properties *)

(** ** Running the script by hand *)

Ltac unfold_js :=
  unfold Sync.processPlugin, Sync.processPluginBody,
    Part000.processPlugin, Part000.processPluginBody,
    SyncNoSet.processPlugin, SyncNoSet.processPluginBody,
    Part000NoSet.processPlugin, Part000NoSet.processPluginBody,
    Sync.processDeletePlugin, processPluginCatch, noContentFailure,
    createBoth, updateBoth, enrich, promiseAll3,
    callRepoInfo, callNpmDownloads, callReadmeContent,
    createWebflowItem, updateWebflowItem, deleteWebflowItem,
    createAlgoliaItem, updateAlgoliaItem, deleteAlgoliaItem, storeCall,
    consoleLog, consoleError, sleep, pushCreated, pushUpdated, pushDeleted,
    pushFailed, idsDelete, tryCatch, settle, ofOutcome, bind, ret, throw,
    modify in *.

(** Case analysis on every outcome the script branches on, innermost first. *)
Ltac case_js :=
  repeat match goal with
  | |- context [match ?x with _ => _ end] =>
      lazymatch x with
      | context [match _ with _ => _ end] => fail
      | _ => destruct x eqn:?
      end
  end.

Lemma trace_record ev s : trace (record ev s) = trace s ++ [ev].
Proof. reflexivity. Qed.

(** ** The [active] field *)

Lemma truthyString_spec s : truthyString s = true <-> s <> "".
Proof.
  unfold truthyString. destruct (String.eqb_spec s ""); simpl; split; congruence.
Qed.

(** C8 (as amended): the assembled [active] field is [true] exactly when
    [status] is the string 'active' and [false] exactly when [status] is
    another non-empty string; when [status] is missing the field is
    [undefined], and when it is the empty string the field is that empty
    string. *)
Theorem C8_active_field (U : Utils) (githubPlugin : ManifestEntry)
    (repoInfo : option RepoInfo) (npmDownloads : option Z) (content : string) :
  let active := fd_active (assembleFieldData U githubPlugin repoInfo npmDownloads content) in
  (active = JsBool true <-> gp_status githubPlugin = Some "active") /\
  (active = JsBool false <->
     exists s, gp_status githubPlugin = Some s /\ s <> "" /\ s <> "active") /\
  ((gp_status githubPlugin = None /\ active = JsUndefined) \/
   (gp_status githubPlugin = Some "" /\ active = JsString "") \/
   (exists s, gp_status githubPlugin = Some s /\ s <> "" /\
              active = JsBool (String.eqb s "active"))).
Proof.
  cbn. unfold activeOf.
  destruct (gp_status githubPlugin) as [s|];
    [|repeat split; try congruence; [intros [s [? _]]; congruence | left; auto]].
  destruct (truthyString s) eqn:Ht.
  - apply truthyString_spec in Ht.
    destruct (String.eqb_spec s "active") as [->|Hne].
    + repeat split; try congruence.
      * intros [s [E [_ H]]]. congruence.
      * right; right. exists "active". auto.
    + repeat split; try congruence.
      * intros _. exists s. auto.
      * right; right. exists s. repeat split; auto.
        destruct (String.eqb_spec s "active"); congruence.
  - assert (s = "") as ->.
    { unfold truthyString in Ht. destruct (String.eqb_spec s ""); [done|discriminate]. }
    repeat split; try congruence.
    + intros [s [E [H _]]]. congruence.
    + right; left. auto.
Qed.

(** C8 (counterexample): a manifest entry without [status], created in the
    content collection, is stored with [active] undefined, not [false]. *)
Lemma C8_active_undefined_without_status :
  map (fun it => fd_active (wf_fieldData it))
      (webflow (snd (Sync.processPlugin Demo.utils (Demo.world 10)
                       (Demo.entry "serverless-offline" None) []
                       (initState [] 1 ∅))))
    = [JsUndefined]
  /\ JsUndefined <> JsBool false.
Proof. split; [vm_compute; reflexivity | discriminate]. Qed.

(** ** Containment of failures *)

Lemma processDeletePlugin_returns U W wp s :
  fst (Sync.processDeletePlugin U W wp s) = Returned tt.
Proof. unfold_js. case_js; reflexivity. Qed.

Lemma Sync_processPlugin_returns U W g wps s :
  fst (Sync.processPlugin U W g wps s) = Returned tt.
Proof. unfold_js. case_js; reflexivity. Qed.

Lemma Part000_processPlugin_returns U W g wps s :
  fst (Part000.processPlugin U W g wps s) = Returned tt.
Proof. unfold_js. case_js; reflexivity. Qed.

(** C10: when a store call of [processDeletePlugin] is rejected, the
    function returns normally, the error is logged with [console.error],
    and none of the four report lists changes: the failed deletion is in
    no report list. *)
Theorem C10_failed_deletion_unreported (U : Utils) (W : World)
    (webflowPlugin : WebflowItem) (s : State) (err : JsError) :
  storeFault W (DeleteWebflowItem (wf_id webflowPlugin)) = Some err \/
  (storeFault W (DeleteWebflowItem (wf_id webflowPlugin)) = None /\
   storeFault W (DeleteAlgoliaItem (fd_slug (wf_fieldData webflowPlugin))) = Some err) ->
  let r := Sync.processDeletePlugin U W webflowPlugin s in
  fst r = Returned tt /\
  createdPlugins (snd r) = createdPlugins s /\
  updatedPlugins (snd r) = updatedPlugins s /\
  deletedPlugins (snd r) = deletedPlugins s /\
  failedPlugins (snd r) = failedPlugins s /\
  exists calls,
    trace (snd r) =
      trace s ++ calls ++
        [EvError ("Failed to process deletion of " +:+ webflowName webflowPlugin)
                 (getErrorMessage U err)].
Proof.
  intros [H | [H1 H2]]; unfold_js; cbn.
  - rewrite H. cbn. repeat split.
    eexists [_; _]. rewrite <- !app_assoc. reflexivity.
  - rewrite H1. cbn. rewrite H2. cbn. repeat split.
    eexists [_; _; _]. rewrite <- !app_assoc. reflexivity.
Qed.

Lemma C10_failed_deletion_unreported_witness :
  let r := Sync.processDeletePlugin Demo.utils Demo.worldDeleteRejected
             Demo.orphanRecord (initState [Demo.orphanRecord] 3 ∅) in
  fst r = Returned tt /\
  createdPlugins (snd r) = [] /\
  updatedPlugins (snd r) = [] /\
  deletedPlugins (snd r) = [] /\
  failedPlugins (snd r) = [] /\
  exists calls,
    trace (snd r) =
      [] ++ calls ++
        [EvError ("Failed to process deletion of " +:+ webflowName Demo.orphanRecord)
                 "429 Too Many Requests"].
Proof.
  apply (C10_failed_deletion_unreported Demo.utils Demo.worldDeleteRejected
           Demo.orphanRecord (initState [Demo.orphanRecord] 3 ∅)
           (mkJsError "429 Too Many Requests")).
  left. reflexivity.
Defined.


Lemma processPluginOf_returns rev U W g wps s :
  fst (processPluginOf rev U W g wps s) = Returned tt.
Proof.
  destruct rev; [apply Sync_processPlugin_returns | apply Part000_processPlugin_returns].
Qed.

Lemma settleAll_returns (ps : list (M unit)) s :
  (forall p st, In p ps -> fst (p st) = Returned tt) ->
  settleAll ps s =
    (Returned (map (fun _ => Returned tt) ps),
     fold_left (fun st p => snd (p st)) ps s).
Proof.
  revert s. induction ps as [|p ps IH]; intros s Hret; [reflexivity|].
  cbn. unfold bind, settle.
  pose proof (Hret p s (or_introl eq_refl)) as Hp.
  destruct (p s) as [r s1] eqn:E. cbn in Hp. subst r.
  rewrite IH by (intros; apply Hret; right; assumption).
  reflexivity.
Qed.

Lemma firstThrown_all_returned {A} (l : list A) :
  firstThrown (map (fun _ => Returned tt) l) = None.
Proof. induction l; [reflexivity | assumption]. Qed.

Lemma fold_left_over_map {A B C} (f : A -> B -> A) (g : C -> B) (l : list C) (a : A) :
  fold_left f (map g l) a = fold_left (fun x c => f x (g c)) l a.
Proof. revert a. induction l as [|c l IH]; intros a; [reflexivity | apply IH]. Qed.

(** A batch of calls that all return normally: [Promise.all] resolves, and
    every one of them has run. *)
Lemma promiseAll_runAll (process : ManifestEntry -> M unit) batch s :
  (forall g st, fst (process g st) = Returned tt) ->
  promiseAll (map process batch) s = (Returned tt, runAll process batch s).
Proof.
  intros Hret. unfold promiseAll, bind.
  rewrite settleAll_returns.
  - rewrite firstThrown_all_returned. unfold runAll.
    rewrite fold_left_over_map. reflexivity.
  - intros p st Hin. apply in_map_iff in Hin as [g [<- _]]. apply Hret.
Qed.

Lemma body_throw_keeps_report rev U W g wps s :
  (exists err, fst (processPluginBodyOf rev U W g wps s) = Thrown err) ->
  let s1 := snd (processPluginBodyOf rev U W g wps s) in
  createdPlugins s1 = createdPlugins s /\
  updatedPlugins s1 = updatedPlugins s /\
  deletedPlugins s1 = deletedPlugins s /\
  failedPlugins s1 = failedPlugins s.
Proof.
  intros [err H]. destruct rev; cbn in *; revert H; unfold_js;
    case_js; cbn; intros; try discriminate; repeat split.
Qed.

(** C6 (counterexample): the entry has no README and a record in the
    catalogue; the content collection rejects the deletion.  The exception
    is raised while the entry is processed, yet the failed list holds the
    entry only with the no-content reason: no reason carries the error's
    message, and nothing is in the deleted list. *)
Lemma C6_rejected_deletion_not_recorded :
  let r := Sync.processPlugin Demo.utils Demo.worldDeleteRejected Demo.offline
             [Demo.offlineRecord] (initState [Demo.offlineRecord] 2 ∅) in
  fst r = Returned tt /\
  In (EvStore (DeleteWebflowItem 1) false) (trace (snd r)) /\
  failedPlugins (snd r) =
    [{| fp_name := "serverless-offline"; fp_reason := "No README content found" |}] /\
  deletedPlugins (snd r) = [].
Proof. vm_compute. repeat split. do 5 right. left. reflexivity. Qed.

(** ** Order of the two writes *)

(** C7: among the events [processPlugin] adds to the trace for one entry,
    the create and update calls are none at all, or one rejected write to
    the content collection, or one resolved write to the content collection
    followed by the matching write to the index.  The index is never
    written before the content collection, nor after a rejected write. *)
Theorem C7_content_store_before_index (rev : Revision) (U : Utils) (W : World)
    (githubPlugin : ManifestEntry) (webflowPlugins : list WebflowItem) (s : State) :
  exists new,
    trace (snd (processPluginOf rev U W githubPlugin webflowPlugins s)) = trace s ++ new /\
    WritesInOrder (storeWrites new).
Proof.
  destruct rev; cbn; unfold_js; case_js; cbn;
    rewrite <- ?app_assoc; cbn;
    (eexists; split; [reflexivity|]); cbn;
    first [ apply wio_none | apply wio_create | apply wio_update
          | apply wio_rejected; reflexivity ].
Qed.


(** ** The batch loop *)

(** One turn of the loop. *)
Lemma forBatches_step process pause githubPlugins i s :
  forBatches process pause githubPlugins i s =
    if Nat.ltb i (length githubPlugins)
    then (promiseAll (map process (slice i (i + BATCH_SIZE) githubPlugins)) ;;;
          (if Nat.ltb (i + BATCH_SIZE) (length githubPlugins) then pause else ret tt) ;;;
          forBatches process pause githubPlugins (i + BATCH_SIZE)) s
    else (Returned tt, s).
Proof.
  rewrite forBatches_equation_1.
  destruct (lt_dec i (length githubPlugins)) as [Hlt | Hge].
  - rewrite forBatches_clause_1_equation_1.
    rewrite (proj2 (Nat.ltb_lt _ _) Hlt). reflexivity.
  - rewrite (proj2 (Nat.ltb_nlt _ _) Hge). reflexivity.
Qed.

Lemma countSleeps_snoc tr ev :
  countSleeps (tr ++ [ev]) = countSleeps tr + (if isSleep ev then 1 else 0).
Proof.
  unfold countSleeps. rewrite List.filter_app, length_app. cbn.
  destruct (isSleep ev); reflexivity.
Qed.

Lemma processPluginOf_no_sleep rev U W g wps s :
  countSleeps (trace (snd (processPluginOf rev U W g wps s))) = countSleeps (trace s).
Proof.
  destruct rev; cbn; unfold_js; case_js; cbn -[countSleeps];
    rewrite ?countSleeps_snoc; cbn -[countSleeps]; lia.
Qed.

Lemma runAll_no_sleep rev U W wps entries s :
  countSleeps (trace (runAll (fun g => processPluginOf rev U W g wps) entries s))
    = countSleeps (trace s).
Proof.
  revert s. induction entries as [|g entries IH]; intros s; [reflexivity|].
  change (runAll (fun g => processPluginOf rev U W g wps) (g :: entries) s)
    with (runAll (fun g => processPluginOf rev U W g wps) entries
            (snd (processPluginOf rev U W g wps s))).
  rewrite IH. apply processPluginOf_no_sleep.
Qed.



(** ** An entry whose record exists *)

(** Rewriting with what is known about the helpers and the world. *)
Ltac use_outcomes :=
  repeat (cbn;
          match goal with
          | H : ?x = _ |- context [?x] => rewrite H
          end);
  cbn.

(** C1 (as amended): the entry has README content, [findPluginByName]
    finds its record, and neither update call is rejected.
    In [src/sync-plugins.js], [processPlugin] hands the manifest entry, the
    stored fields and the README content to [isPluginEqual] and names the
    answer [hasChanged]; the repository statistics and the author fields
    take no part in it.  When the answer is truthy, the record of that id
    gets the assembled fields, the index gets the assembled object, and the
    name is appended once to the updated list.  Otherwise no store call is
    made, both stores stay as they are and the updated list is unchanged.
    In [src/unnamed/part_000] nothing is compared: the record is updated.
    The created list is unchanged in every case. *)
Theorem C1_existing_record_update_or_skip (U : Utils) (W : World)
    (githubPlugin : ManifestEntry) (webflowPlugins : list WebflowItem) (s : State)
    (webflowPlugin : WebflowItem) (parsed : option RepoRef)
    (repoInfo : option RepoInfo) (npmDownloads : option Z)
    (readmeContent : option Readme) (content : string) :
  findPluginByName webflowName webflowPlugins (gp_name githubPlugin) = Some webflowPlugin ->
  gitUrlParse U (gp_githubUrl githubPlugin) = Returned parsed ->
  getRepoInfo W (default noRepoRef parsed) = Returned repoInfo ->
  getNpmDownloads W (gp_name githubPlugin) (repo (default noRepoRef parsed))
    = Returned npmDownloads ->
  getReadmeContent W (default noRepoRef parsed) = Returned readmeContent ->
  contentOf readmeContent = Some content ->
  let fieldData := assembleFieldData U githubPlugin repoInfo npmDownloads content in
  let algoliaItem := assembleAlgoliaItem U githubPlugin repoInfo npmDownloads in
  storeFault W (UpdateWebflowItem (wf_id webflowPlugin) fieldData) = None ->
  storeFault W (UpdateAlgoliaItem algoliaItem) = None ->
  let enrichment :=
    [EvGetRepoInfo (default noRepoRef parsed);
     EvGetNpmDownloads (gp_name githubPlugin) (repo (default noRepoRef parsed));
     EvGetReadmeContent (default noRepoRef parsed)] in
  let updated (s' : State) :=
    webflow s' =
      map (fun it => if Nat.eqb (wf_id it) (wf_id webflowPlugin)
                     then mkWebflowItem (wf_id it) (wf_name it) fieldData else it)
          (webflow s) /\
    algolia s' = <[objectID algoliaItem := algoliaItem]> (algolia s) /\
    updatedPlugins s' = updatedPlugins s ++ [gp_name githubPlugin] /\
    trace s' =
      trace s ++ enrichment ++
        [EvLog "UPDATING WEBFLOW ITEM";
         EvStore (UpdateWebflowItem (wf_id webflowPlugin) fieldData) true;
         EvStore (UpdateAlgoliaItem algoliaItem) true] in
  let skipped (s' : State) :=
    webflow s' = webflow s /\
    algolia s' = algolia s /\
    updatedPlugins s' = updatedPlugins s /\
    trace s' =
      trace s ++ enrichment ++
        [EvLog ("No changes detected for " +:+ gp_name githubPlugin
                +:+ ", skipping update.")] in
  let r := Sync.processPlugin U W githubPlugin webflowPlugins s in
  let r0 := Part000.processPlugin U W githubPlugin webflowPlugins s in
  fst r = Returned tt /\
  createdPlugins (snd r) = createdPlugins s /\
  (if isPluginEqual U githubPlugin (wf_fieldData webflowPlugin) content
   then updated (snd r) else skipped (snd r)) /\
  fst r0 = Returned tt /\
  createdPlugins (snd r0) = createdPlugins s /\
  updated (snd r0).
Proof.
  intros Hfind Hparse Hinfo Hnpm Hreadme Hcontent fieldData algoliaItem Hf1 Hf2
    enrichment updated skipped.
  subst fieldData algoliaItem enrichment updated skipped.
  unfold_js. use_outcomes.
  destruct (isPluginEqual U githubPlugin (wf_fieldData webflowPlugin) content) eqn:Hchk;
    use_outcomes; rewrite <- ?app_assoc; repeat split.
Qed.

Lemma C1_existing_record_update_or_skip_witness :
  let g := Demo.entry "serverless-offline" (Some "inactive") in
  let s := initState [Demo.offlineRecord] 2 ∅ in
  let fieldData := assembleFieldData Demo.utils g (Some (Demo.info 11)) (Some 1200%Z) "# Usage" in
  let algoliaItem := assembleAlgoliaItem Demo.utils g (Some (Demo.info 11)) (Some 1200%Z) in
  let enrichment :=
    [EvGetRepoInfo (mkRepoRef (Some "github.com") (Some "acme") (Some "serverless-offline"));
     EvGetNpmDownloads "serverless-offline" (Some "serverless-offline");
     EvGetReadmeContent (mkRepoRef (Some "github.com") (Some "acme") (Some "serverless-offline"))] in
  let r := Sync.processPlugin Demo.utils (Demo.world 11) g [Demo.offlineRecord] s in
  let r0 := Part000.processPlugin Demo.utils (Demo.world 11) g [Demo.offlineRecord] s in
  fst r = Returned tt /\
  createdPlugins (snd r) = [] /\
  (webflow (snd r) = [Demo.offlineRecord] /\
   algolia (snd r) = ∅ /\
   updatedPlugins (snd r) = [] /\
   trace (snd r) =
     enrichment ++ [EvLog "No changes detected for serverless-offline, skipping update."]) /\
  fst r0 = Returned tt /\
  createdPlugins (snd r0) = [] /\
  (webflow (snd r0) = [mkWebflowItem 1 None fieldData] /\
   algolia (snd r0) = <["serverless-offline" := algoliaItem]> ∅ /\
   updatedPlugins (snd r0) = ["serverless-offline"] /\
   trace (snd r0) =
     enrichment ++
       [EvLog "UPDATING WEBFLOW ITEM";
        EvStore (UpdateWebflowItem 1 fieldData) true;
        EvStore (UpdateAlgoliaItem algoliaItem) true]).
Proof.
  exact (C1_existing_record_update_or_skip Demo.utils (Demo.world 11)
           (Demo.entry "serverless-offline" (Some "inactive"))
           [Demo.offlineRecord] (initState [Demo.offlineRecord] 2 ∅)
           Demo.offlineRecord
           (Some (mkRepoRef (Some "github.com") (Some "acme") (Some "serverless-offline")))
           (Some (Demo.info 11)) (Some 1200%Z) (Some (mkReadme (Some "# Usage")))
           "# Usage"
           eq_refl eq_refl eq_refl eq_refl eq_refl eq_refl eq_refl eq_refl).
Defined.

(** C1 (counterexample).  In [src/unnamed/part_000] the stored fields are
    exactly the assembled ones, and the record is updated all the same and
    reported as updated.  In [src/sync-plugins.js] the same stored record is
    met once with the statistics it was stored with and once with one star
    more: whatever [isPluginEqual] computes, either both runs update or both
    skip, while the assembled fields equal the stored ones in the first run
    and differ from them in the second. *)
Lemma C1_comparison_is_not_on_assembled_fields :
  (let r := Part000.processPlugin Demo.utils (Demo.world 10) Demo.offline
              [Demo.offlineRecord] (initState [Demo.offlineRecord] 2 ∅) in
   assembleFieldData Demo.utils Demo.offline (Some (Demo.info 10)) (Some 1200%Z) "# Usage"
     = wf_fieldData Demo.offlineRecord /\
   updatedPlugins (snd r) = ["serverless-offline"] /\
   map (fun ev => match ev with EvStore c b => b | _ => false end)
       (storeWrites (trace (snd r))) = [true; true]) /\
  (forall check,
     let run stars :=
       snd (Sync.processPlugin (Demo.utilsWith check) (Demo.world stars) Demo.offline
              [Demo.offlineRecord] (initState [Demo.offlineRecord] 2 ∅)) in
     assembleFieldData (Demo.utilsWith check) Demo.offline
       (Some (Demo.info 10)) (Some 1200%Z) "# Usage" = wf_fieldData Demo.offlineRecord /\
     assembleFieldData (Demo.utilsWith check) Demo.offline
       (Some (Demo.info 11)) (Some 1200%Z) "# Usage" <> wf_fieldData Demo.offlineRecord /\
     updatedPlugins (run 10%Z) = updatedPlugins (run 11%Z)).
Proof.
  split.
  - vm_compute. repeat split.
  - intros check. repeat split.
    + intros H. apply (f_equal fd_github_stars) in H. vm_compute in H. discriminate.
    + unfold_js. cbn.
      destruct (check Demo.offline _ _); reflexivity.
Qed.


(** ** An entry without a record *)

(** In both revisions: the entry has README content, [findPluginByName]
    finds no record, and neither create call is rejected.  [processPlugin]
    creates the record with the assembled fields in the content collection,
    then saves the assembled object in the index, and appends the name once
    to the created list; the other report lists are unchanged. *)
Theorem new_entry_created_in_both_stores (rev : Revision) (U : Utils) (W : World)
    (githubPlugin : ManifestEntry) (webflowPlugins : list WebflowItem) (s : State)
    (parsed : option RepoRef) (repoInfo : option RepoInfo) (npmDownloads : option Z)
    (readmeContent : option Readme) (content : string) :
  findPluginByName webflowName webflowPlugins (gp_name githubPlugin) = None ->
  gitUrlParse U (gp_githubUrl githubPlugin) = Returned parsed ->
  getRepoInfo W (default noRepoRef parsed) = Returned repoInfo ->
  getNpmDownloads W (gp_name githubPlugin) (repo (default noRepoRef parsed))
    = Returned npmDownloads ->
  getReadmeContent W (default noRepoRef parsed) = Returned readmeContent ->
  contentOf readmeContent = Some content ->
  let fieldData := assembleFieldData U githubPlugin repoInfo npmDownloads content in
  let algoliaItem := assembleAlgoliaItem U githubPlugin repoInfo npmDownloads in
  storeFault W (CreateWebflowItem fieldData) = None ->
  storeFault W (CreateAlgoliaItem algoliaItem) = None ->
  let r := processPluginOf rev U W githubPlugin webflowPlugins s in
  fst r = Returned tt /\
  webflow (snd r) = webflow s ++ [mkWebflowItem (nextId s) None fieldData] /\
  algolia (snd r) = <[objectID algoliaItem := algoliaItem]> (algolia s) /\
  createdPlugins (snd r) = createdPlugins s ++ [gp_name githubPlugin] /\
  updatedPlugins (snd r) = updatedPlugins s /\
  deletedPlugins (snd r) = deletedPlugins s /\
  failedPlugins (snd r) = failedPlugins s /\
  storeWrites (skipn (length (trace s)) (trace (snd r))) =
    [EvStore (CreateWebflowItem fieldData) true;
     EvStore (CreateAlgoliaItem algoliaItem) true].
Proof.
  intros Hfind Hparse Hinfo Hnpm Hreadme Hcontent fieldData algoliaItem Hf1 Hf2.
  subst fieldData algoliaItem.
  destruct rev; cbn [processPluginOf]; unfold_js; use_outcomes;
    rewrite <- ?app_assoc; repeat split;
    rewrite drop_app_length; reflexivity.
Qed.

Lemma new_entry_created_in_both_stores_witness :
  let fieldData :=
    assembleFieldData Demo.utils Demo.offline (Some (Demo.info 10)) (Some 1200%Z) "# Usage" in
  let algoliaItem :=
    assembleAlgoliaItem Demo.utils Demo.offline (Some (Demo.info 10)) (Some 1200%Z) in
  let r := processPluginOf SyncPluginsJs Demo.utils (Demo.world 10) Demo.offline
             [Demo.orphanRecord] (initState [Demo.orphanRecord] 3 ∅) in
  fst r = Returned tt /\
  webflow (snd r) = [Demo.orphanRecord] ++ [mkWebflowItem 3 None fieldData] /\
  algolia (snd r) = <["serverless-offline" := algoliaItem]> ∅ /\
  createdPlugins (snd r) = [] ++ ["serverless-offline"] /\
  updatedPlugins (snd r) = [] /\
  deletedPlugins (snd r) = [] /\
  failedPlugins (snd r) = [] /\
  storeWrites (skipn 0 (trace (snd r))) =
    [EvStore (CreateWebflowItem fieldData) true;
     EvStore (CreateAlgoliaItem algoliaItem) true].
Proof.
  exact (new_entry_created_in_both_stores SyncPluginsJs Demo.utils (Demo.world 10)
           Demo.offline [Demo.orphanRecord] (initState [Demo.orphanRecord] 3 ∅)
           (Some (mkRepoRef (Some "github.com") (Some "acme") (Some "serverless-offline")))
           (Some (Demo.info 10)) (Some 1200%Z) (Some (mkReadme (Some "# Usage")))
           "# Usage"
           eq_refl eq_refl eq_refl eq_refl eq_refl eq_refl eq_refl eq_refl).
Defined.

(** ** An entry without README content *)





(** ** The set [webflowPluginIds] *)

Ltac same_observables :=
  match goal with
  | H : observe ?s = observe ?s' |- _ =>
      destruct s, s'; cbn in H; injection H as -> -> -> -> -> -> -> ->
  end.

Lemma simulates_ret {A} (a : A) : simulates (ret a) (ret a).
Proof. intros s s' H. split; [reflexivity | exact H]. Qed.

Lemma simulates_bind {A B} (c c' : M A) (k k' : A -> M B) :
  simulates c c' -> (forall a, simulates (k a) (k' a)) ->
  simulates (bind c k) (bind c' k').
Proof.
  intros Hc Hk s s' H. unfold bind.
  destruct (Hc s s' H) as [Hfst Hsnd].
  destruct (c s) as [[a|e] s1], (c' s') as [[a'|e'] s1']; cbn in *; try discriminate.
  - injection Hfst as <-. apply Hk, Hsnd.
  - injection Hfst as <-. split; [reflexivity | exact Hsnd].
Qed.

Lemma simulates_tryCatch {A} (c c' : M A) (h h' : JsError -> M A) :
  simulates c c' -> (forall e, simulates (h e) (h' e)) ->
  simulates (tryCatch c h) (tryCatch c' h').
Proof.
  intros Hc Hh s s' H. unfold tryCatch.
  destruct (Hc s s' H) as [Hfst Hsnd].
  destruct (c s) as [[a|e] s1], (c' s') as [[a'|e'] s1']; cbn in *; try discriminate.
  - injection Hfst as <-. split; [reflexivity | exact Hsnd].
  - injection Hfst as <-. apply Hh, Hsnd.
Qed.

Lemma simulates_settle {A} (c c' : M A) :
  simulates c c' -> simulates (settle c) (settle c').
Proof.
  intros Hc s s' H. unfold settle.
  destruct (Hc s s' H) as [Hfst Hsnd].
  destruct (c s) as [r s1], (c' s') as [r' s1']; cbn in *.
  split; [congruence | exact Hsnd].
Qed.

(** Dropping an operation on the set changes nothing else. *)
Lemma simulates_without_ids {A} f (c c' : M A) :
  simulates c c' -> simulates (modify (set_ids f) ;;; c) c'.
Proof.
  intros Hc s s' H. unfold bind, modify. cbn. apply Hc.
  rewrite <- H. destruct s; reflexivity.
Qed.

Lemma simulates_settleAll (ps ps' : list (M unit)) :
  Forall2 simulates ps ps' -> simulates (settleAll ps) (settleAll ps').
Proof.
  induction 1 as [|p p' ps ps' Hp _ IH]; cbn; [apply simulates_ret|].
  apply simulates_bind; [apply simulates_settle, Hp|]. intros r.
  apply simulates_bind; [exact IH|]. intros rs. apply simulates_ret.
Qed.

Lemma simulates_promiseAll (ps ps' : list (M unit)) :
  Forall2 simulates ps ps' -> simulates (promiseAll ps) (promiseAll ps').
Proof.
  intros H. unfold promiseAll.
  apply simulates_bind; [apply simulates_settleAll, H|]. intros rs.
  destruct (firstThrown rs); [|apply simulates_ret].
  intros s s' Hs. split; [reflexivity | exact Hs].
Qed.

Lemma simulates_forOf {A} (xs : list A) (body body' : A -> M unit) :
  (forall x, simulates (body x) (body' x)) ->
  simulates (forOf xs body) (forOf xs body').
Proof.
  intros Hb. induction xs as [|x xs IH]; cbn; [apply simulates_ret|].
  apply simulates_bind; [apply Hb | intros _; exact IH].
Qed.

Lemma simulates_forBatches (process process' : ManifestEntry -> M unit) pause
    githubPlugins :
  (forall g, simulates (process g) (process' g)) ->
  simulates pause pause ->
  forall n i, length githubPlugins - i <= n ->
    simulates (forBatches process pause githubPlugins i)
              (forBatches process' pause githubPlugins i).
Proof.
  intros Hp Hpause. induction n as [|n IH]; intros i Hn s s' Hs;
    rewrite !forBatches_step;
    destruct (Nat.ltb_spec i (length githubPlugins)) as [Hlt|Hge];
    try (split; [reflexivity | exact Hs]); [lia|].
  revert s s' Hs.
  apply simulates_bind.
  { apply simulates_promiseAll.
    induction (slice i (i + BATCH_SIZE) githubPlugins); cbn; constructor; auto. }
  intros _. apply simulates_bind.
  { destruct (Nat.ltb (i + BATCH_SIZE) (length githubPlugins));
      [exact Hpause | apply simulates_ret]. }
  intros _. apply IH. unfold BATCH_SIZE. lia.
Qed.

(** A computation that neither reads nor writes the set simulates itself. *)
Ltac simulates_self :=
  let s := fresh "s" in let s' := fresh "s'" in let H := fresh "H" in
  intros s s' H; same_observables; unfold_js; cbn; case_js; cbn; split; reflexivity.

Lemma simulates_sleep ms : simulates (sleep ms) (sleep ms).
Proof. simulates_self. Qed.

Lemma simulates_generateReadme W : simulates (generateReadme W) (generateReadme W).
Proof. unfold generateReadme. simulates_self. Qed.

Lemma simulates_listAlgoliaItems W : simulates (listAlgoliaItems W) (listAlgoliaItems W).
Proof. unfold listAlgoliaItems. simulates_self. Qed.

Lemma simulates_listWebflowCollectionItems W :
  simulates (listWebflowCollectionItems W) (listWebflowCollectionItems W).
Proof. unfold listWebflowCollectionItems. simulates_self. Qed.

Lemma simulates_processDeletePlugin U W wp :
  simulates (Sync.processDeletePlugin U W wp) (Sync.processDeletePlugin U W wp).
Proof. simulates_self. Qed.

Lemma simulates_Sync_deleteOrphans U W githubPlugins webflowPlugins :
  simulates (Sync.deleteOrphans U W githubPlugins webflowPlugins)
            (Sync.deleteOrphans U W githubPlugins webflowPlugins).
Proof.
  apply simulates_forOf. intros wp.
  destruct (findPluginByName gp_name githubPlugins (webflowName wp));
    [apply simulates_ret | apply simulates_processDeletePlugin].
Qed.

Lemma simulates_Part000_deleteOrphans W githubPlugins webflowPlugins :
  simulates (Part000.deleteOrphans W githubPlugins webflowPlugins)
            (Part000.deleteOrphans W githubPlugins webflowPlugins).
Proof.
  apply simulates_forOf. intros wp.
  destruct (findPluginByName gp_name githubPlugins (webflowName wp));
    [apply simulates_ret | simulates_self].
Qed.

(** [processPlugin] with and without [webflowPluginIds.delete]. *)
Lemma simulates_processPlugin rev U W g wps :
  simulates (processPluginOf rev U W g wps) (processPluginNoSetOf rev U W g wps).
Proof.
  intros s s' H. same_observables.
  destruct rev; cbn; unfold_js; cbn; case_js; cbn; split; reflexivity.
Qed.

Lemma simulates_syncPluginsBody rev U W githubPlugins :
  simulates
    (match rev with
     | SyncPluginsJs => Sync.syncPluginsBody U W githubPlugins
     | Part_000 => Part000.syncPluginsBody U W githubPlugins
     end)
    (match rev with
     | SyncPluginsJs => SyncNoSet.syncPluginsBody U W githubPlugins
     | Part_000 => Part000NoSet.syncPluginsBody U W githubPlugins
     end).
Proof.
  destruct rev;
    unfold Sync.syncPluginsBody, SyncNoSet.syncPluginsBody,
      Part000.syncPluginsBody, Part000NoSet.syncPluginsBody;
    (apply simulates_bind; [apply simulates_listAlgoliaItems | intros _]);
    (apply simulates_bind; [apply simulates_listWebflowCollectionItems | intros wps]);
    apply simulates_without_ids;
    (apply simulates_bind;
       [ apply simulates_forBatches with (n := length githubPlugins);
           [ intros g | apply simulates_sleep | lia ]
       | intros _ ]);
    try (apply simulates_bind; [ | intros _; apply simulates_generateReadme]).
  - apply (simulates_processPlugin SyncPluginsJs).
  - apply simulates_Sync_deleteOrphans.
  - apply (simulates_processPlugin Part_000).
  - apply simulates_Part000_deleteOrphans.
Qed.

(** C9: [webflowPluginIds] is dead.  Whatever the set holds when
    [processPlugin] starts, [processPlugin] ends with the outcome, stores,
    report lists and trace of the function without
    [webflowPluginIds.delete]; and [syncPlugins] ends with the exit status,
    stores, report lists and trace of the script without the set. *)
Theorem C9_webflowPluginIds_is_dead (rev : Revision) (U : Utils) (W : World)
    (githubPlugins : list ManifestEntry) (githubPlugin : ManifestEntry)
    (webflowPlugins : list WebflowItem) (s : State) :
  (forall ids,
     let r := processPluginOf rev U W githubPlugin webflowPlugins
                (set_ids (fun _ => ids) s) in
     let r' := processPluginNoSetOf rev U W githubPlugin webflowPlugins s in
     fst r = fst r' /\ observe (snd r) = observe (snd r')) /\
  fst (syncPluginsOf rev U W githubPlugins s)
    = fst (syncPluginsNoSetOf rev U W githubPlugins s) /\
  observe (snd (syncPluginsOf rev U W githubPlugins s))
    = observe (snd (syncPluginsNoSetOf rev U W githubPlugins s)).
Proof.
  split.
  - intros ids. apply simulates_processPlugin. destruct s; reflexivity.
  - pose proof (simulates_syncPluginsBody rev U W githubPlugins s s eq_refl) as [Hfst Hsnd].
    destruct rev; cbn in *;
      unfold Sync.syncPlugins, SyncNoSet.syncPlugins,
        Part000.syncPlugins, Part000NoSet.syncPlugins, orExit;
      match goal with
      | |- context [match ?b s with _ => _ end] =>
          destruct (b s) as [[[]|e] s1]
      end;
      match goal with
      | |- context [match ?b s with _ => _ end] =>
          destruct (b s) as [[[]|e'] s1']
      end;
      cbn in *; try discriminate;
      try (injection Hfst as <-); split; try reflexivity; try exact Hsnd;
      destruct s1, s1'; cbn in *; injection Hsnd as -> -> -> -> -> -> -> ->; reflexivity.
Qed.


(** ** Lookups, report lists and stores *)

Lemma findPluginByName_Some {A} (nameOf : A -> string) plugins n p :
  findPluginByName nameOf plugins n = Some p -> In p plugins /\ nameOf p = n.
Proof.
  unfold findPluginByName. intros H. apply List.find_some in H as [Hin Heq].
  split; [exact Hin | apply String.eqb_eq, Heq].
Qed.

Lemma findPluginByName_None {A} (nameOf : A -> string) plugins n :
  findPluginByName nameOf plugins n = None ->
  forall p, In p plugins -> nameOf p <> n.
Proof.
  unfold findPluginByName. intros H p Hin Heq.
  pose proof (List.find_none _ _ H p Hin) as Hp. cbn in Hp.
  apply String.eqb_neq in Hp. contradiction.
Qed.

Lemma occurrences_snoc n l x :
  occurrences n (l ++ [x]) = occurrences n l + (if String.eqb n x then 1 else 0).
Proof.
  unfold occurrences. rewrite List.filter_app, length_app. cbn.
  destruct (String.eqb n x); reflexivity.
Qed.


Lemma hasId_filter_out i items :
  hasId i (List.filter (fun it => negb (Nat.eqb (wf_id it) i)) items) = false.
Proof.
  unfold hasId. induction items as [|it items IH]; [reflexivity|].
  cbn. destruct (Nat.eqb (wf_id it) i) eqn:E; cbn; [exact IH|].
  rewrite E. exact IH.
Qed.





Lemma In_slice {A} (x : A) i j l : In x (slice i j l) -> In x l.
Proof.
  unfold slice. intros H.
  rewrite <- (firstn_skipn i l). apply in_or_app. right.
  rewrite <- (firstn_skipn (j - i) (skipn i l)). apply in_or_app. left. exact H.
Qed.

(** Whatever holds before the batch loop and survives one entry and one
    pause holds after the loop, and the loop returns normally. *)
Lemma forBatches_invariant (P : State -> Prop) process pause githubPlugins :
  (forall g st, fst (process g st) = Returned tt) ->
  (forall st, fst (pause st) = Returned tt) ->
  (forall g st, In g githubPlugins -> P st -> P (snd (process g st))) ->
  (forall st, P st -> P (snd (pause st))) ->
  forall n i s, length githubPlugins - i <= n -> P s ->
    fst (forBatches process pause githubPlugins i s) = Returned tt /\
    P (snd (forBatches process pause githubPlugins i s)).
Proof.
  intros Hret Hpret Hstep Hpause. induction n as [|n IH]; intros i s Hn HP;
    rewrite forBatches_step;
    destruct (Nat.ltb_spec i (length githubPlugins)) as [Hlt|Hge];
    try (split; [reflexivity | exact HP]); [lia|].
  assert (HP1 : P (runAll process (slice i (i + BATCH_SIZE) githubPlugins) s)).
  { assert (Hin : forall g, In g (slice i (i + BATCH_SIZE) githubPlugins) ->
                            In g githubPlugins).
    { intros g Hg. apply In_slice in Hg. exact Hg. }
    revert s HP Hin. generalize (slice i (i + BATCH_SIZE) githubPlugins).
    induction l as [|g l IHl]; intros s HP Hin; [exact HP|].
    cbn. apply IHl; [apply Hstep; [apply Hin; left; reflexivity | exact HP]|].
    intros g' Hg'. apply Hin. right. exact Hg'. }
  cbv iota.
  match goal with
  | |- fst ?c = _ /\ _ =>
      assert (E : exists s2, P s2 /\
                c = forBatches process pause githubPlugins (i + BATCH_SIZE) s2)
  end.
  { unfold bind. rewrite promiseAll_runAll by exact Hret.
    destruct (Nat.ltb (i + BATCH_SIZE) (length githubPlugins)).
    - pose proof (Hpret (runAll process (slice i (i + BATCH_SIZE) githubPlugins) s)) as Hp.
      pose proof (Hpause _ HP1) as HP2.
      destruct (pause _) as [r s2]. cbn in Hp, HP2. subst r.
      exists s2. split; [exact HP2 | reflexivity].
    - eexists. split; [exact HP1 | reflexivity]. }
  destruct E as (s2 & HP2 & E). rewrite E.
  apply IH; [unfold BATCH_SIZE; lia | exact HP2].
Qed.


(** ** The orphan pass *)






(** ** One entry, store calls never rejected *)

(** The stores and report lists after [processPlugin], by the entry's plan
    and by what [findPluginByName] finds in the listing. *)
Lemma Sync_processPlugin_cases U W g wps s :
  (forall c, storeFault W c = None) ->
  let s' := snd (Sync.processPlugin U W g wps s) in
  match planOf U W g, findPluginByName webflowName wps (gp_name g) with
  | PlanThrow, _ | PlanNoContent, None =>
      webflow s' = webflow s /\ nextId s' = nextId s /\
      createdPlugins s' = createdPlugins s /\ updatedPlugins s' = updatedPlugins s /\
      deletedPlugins s' = deletedPlugins s
  | PlanNoContent, Some wp =>
      webflow s' = List.filter (fun it => negb (Nat.eqb (wf_id it) (wf_id wp))) (webflow s) /\
      nextId s' = nextId s /\
      createdPlugins s' = createdPlugins s /\ updatedPlugins s' = updatedPlugins s /\
      deletedPlugins s' = deletedPlugins s ++ [webflowName wp]
  | PlanContent fd ai c, Some wp =>
      if isPluginEqual U g (wf_fieldData wp) c
      then
        webflow s' =
          map (fun it => if Nat.eqb (wf_id it) (wf_id wp)
                         then mkWebflowItem (wf_id it) (wf_name it) fd else it) (webflow s) /\
        nextId s' = nextId s /\
        createdPlugins s' = createdPlugins s /\
        updatedPlugins s' = updatedPlugins s ++ [gp_name g] /\
        deletedPlugins s' = deletedPlugins s
      else
        webflow s' = webflow s /\ nextId s' = nextId s /\
        createdPlugins s' = createdPlugins s /\ updatedPlugins s' = updatedPlugins s /\
        deletedPlugins s' = deletedPlugins s
  | PlanContent fd ai c, None =>
      webflow s' = webflow s ++ [mkWebflowItem (nextId s) None fd] /\
      nextId s' = S (nextId s) /\
      createdPlugins s' = createdPlugins s ++ [gp_name g] /\
      updatedPlugins s' = updatedPlugins s /\
      deletedPlugins s' = deletedPlugins s
  end.
Proof.
  intros Hok. unfold planOf. unfold_js. cbn.
  destruct (gitUrlParse U (gp_githubUrl g)) as [parsed|e]; cbn; [|repeat split].
  destruct (getRepoInfo W (default noRepoRef parsed)) as [info|e];
    destruct (getNpmDownloads W (gp_name g) (repo (default noRepoRef parsed))) as [npm|e'];
    destruct (getReadmeContent W (default noRepoRef parsed)) as [readme|e''];
    cbn; try (repeat split; fail).
  destruct (contentOf readme) as [c|]; cbn;
    destruct (findPluginByName webflowName wps (gp_name g)) as [wp|]; cbn;
    rewrite ?Hok; cbn; try (repeat split; fail).
  destruct (isPluginEqual U g (wf_fieldData wp) c); cbn; rewrite ?Hok; cbn; repeat split.
Qed.


(** ** The first run reconciles the content collection *)

Lemma NoDup_map_unique {A B} (f : A -> B) (l : list A) x y :
  List.NoDup (map f l) -> In x l -> In y l -> f x = f y -> x = y.
Proof.
  induction l as [|a l IH]; cbn; [contradiction|].
  intros Hnd Hx Hy Hf. apply List.NoDup_cons_iff in Hnd as [Hnotin Hnd].
  destruct Hx as [<- | Hx], Hy as [<- | Hy]; auto.
  - exfalso. apply Hnotin. rewrite Hf. apply in_map, Hy.
  - exfalso. apply Hnotin. rewrite <- Hf. apply in_map, Hx.
Qed.

Lemma planOf_content_name U W g fd ai c :
  planOf U W g = PlanContent fd ai c -> fd_name fd = gp_name g.
Proof.
  unfold planOf. destruct (gitUrlParse U (gp_githubUrl g)); [|discriminate].
  destruct (getRepoInfo W _); [|discriminate].
  destruct (getNpmDownloads W _ _); [|discriminate].
  destruct (getReadmeContent W _); [|discriminate].
  destruct (contentOf _); [|discriminate].
  intros [= <- _ _]. reflexivity.
Qed.

Lemma in_names_snoc n done (g : ManifestEntry) :
  In n (map gp_name (done ++ [g])) <-> In n (map gp_name done) \/ n = gp_name g.
Proof.
  rewrite map_app, in_app_iff. cbn. intuition congruence.
Qed.

Section FirstRun.

Variable U : Utils.
Variable W : World.
Variable listing : list WebflowItem.
Variable next : nat.

Hypothesis listing_ids : List.NoDup (map wf_id listing).
Hypothesis listing_names : List.NoDup (map webflowName listing).
Hypothesis listing_below : forall it, In it listing -> wf_id it < next.

Lemma BatchInv_start : BatchInv U W listing next [] listing next.
Proof.
  constructor; auto; try contradiction.
  intros it it0 Hit Hit0 Hid.
  rewrite (NoDup_map_unique wf_id listing it it0); auto.
Qed.

(** The entry leaves the collection as it is. *)
Lemma BatchInv_idle done wf nx g :
  ~ In (gp_name g) (map gp_name done) ->
  match planOf U W g, findPluginByName webflowName listing (gp_name g) with
  | PlanThrow, _ => True
  | PlanNoContent, found => found = None
  | PlanContent fd ai c, Some wp => isPluginEqual U g (wf_fieldData wp) c = false
  | PlanContent fd ai c, None => False
  end ->
  BatchInv U W listing next done wf nx ->
  BatchInv U W listing next (done ++ [g]) wf nx.
Proof.
  intros Hnew Hidle [Hn Hids Hold Hkept Hcont Hnoc].
  assert (Hnamed : forall it, In it wf -> webflowName it = gp_name g -> In it listing).
  { intros it Hit Hname. apply Hold; [exact Hit | rewrite Hname; exact Hnew]. }
  constructor; auto.
  - intros it Hit Hnot. apply Hold; [exact Hit|].
    intros Hin. apply Hnot, in_names_snoc. left. exact Hin.
  - intros it0 Hit0 Hnot. apply Hkept; [exact Hit0|].
    intros Hin. apply Hnot, in_names_snoc. left. exact Hin.
  - intros g' fd ai c Hg' Hplan. apply in_app_iff in Hg' as [Hg' | [<- | []]];
      [apply (Hcont g' fd ai c Hg' Hplan)|].
    rewrite Hplan in Hidle.
    destruct (findPluginByName webflowName listing (gp_name g)) as [wp|] eqn:Hfind;
      [|contradiction].
    apply findPluginByName_Some in Hfind as [Hwp Hwpn].
    split.
    + exists wp. split; [|exact Hwpn]. apply Hkept; [exact Hwp | rewrite Hwpn; exact Hnew].
    + intros it Hit Hname. right.
      rewrite (NoDup_map_unique webflowName listing it wp); auto; congruence.
  - intros g' Hg' Hplan it Hit Hname. apply in_app_iff in Hg' as [Hg' | [<- | []]];
      [apply (Hnoc g' Hg' Hplan it Hit Hname)|].
    rewrite Hplan in Hidle.
    apply (findPluginByName_None _ _ _ Hidle it (Hnamed it Hit Hname) Hname).
Qed.

(** The entry has no content and its record is deleted. *)
Lemma BatchInv_delete done wf nx g wp :
  ~ In (gp_name g) (map gp_name done) ->
  planOf U W g = PlanNoContent ->
  findPluginByName webflowName listing (gp_name g) = Some wp ->
  BatchInv U W listing next done wf nx ->
  BatchInv U W listing next (done ++ [g])
    (List.filter (fun it => negb (Nat.eqb (wf_id it) (wf_id wp))) wf) nx.
Proof.
  intros Hnew Hplan Hfind [Hn Hids Hold Hkept Hcont Hnoc].
  apply findPluginByName_Some in Hfind as [Hwp Hwpn].
  assert (Hin : forall it, In it (List.filter (fun it => negb (Nat.eqb (wf_id it) (wf_id wp))) wf)
                  <-> In it wf /\ wf_id it <> wf_id wp).
  { intros it. rewrite List.filter_In, negb_true_iff, Nat.eqb_neq. reflexivity. }
  constructor; auto.
  - intros it it0 Hit. apply Hin in Hit as [Hit _]. apply Hids, Hit.
  - intros it Hit Hnot. apply Hin in Hit as [Hit _]. apply Hold; [exact Hit|].
    intros Hi. apply Hnot, in_names_snoc. left. exact Hi.
  - intros it0 Hit0 Hnot. apply Hin. split.
    + apply Hkept; [exact Hit0|]. intros Hi. apply Hnot, in_names_snoc. left. exact Hi.
    + intros Hid. apply Hnot, in_names_snoc. right.
      rewrite (NoDup_map_unique wf_id listing it0 wp); auto.
  - intros g' fd ai c Hg' Hplan'. apply in_app_iff in Hg' as [Hg' | [<- | []]];
      [|congruence].
    destruct (Hcont g' fd ai c Hg' Hplan') as [[it [Hit Hname]] Hall]. split.
    + exists it. split; [|exact Hname]. apply Hin. split; [exact Hit|].
      intros Hid. apply Hnew. rewrite <- Hwpn, <- (Hids it wp Hit Hwp Hid), Hname.
      apply in_map, Hg'.
    + intros it' Hit'. apply Hin in Hit' as [Hit' _]. apply Hall, Hit'.
  - intros g' Hg' Hplan' it Hit Hname. apply Hin in Hit as [Hit Hid].
    apply in_app_iff in Hg' as [Hg' | [<- | []]];
      [apply (Hnoc g' Hg' Hplan' it Hit Hname)|].
    apply Hid. f_equal. apply (NoDup_map_unique webflowName listing); auto; [|congruence].
    apply Hold; [exact Hit | rewrite Hname; exact Hnew].
Qed.

(** The entry has content and no record: one is created. *)
Lemma BatchInv_create done wf nx g fd ai c :
  ~ In (gp_name g) (map gp_name done) ->
  planOf U W g = PlanContent fd ai c ->
  findPluginByName webflowName listing (gp_name g) = None ->
  BatchInv U W listing next done wf nx ->
  BatchInv U W listing next (done ++ [g]) (wf ++ [mkWebflowItem nx None fd]) (S nx).
Proof.
  intros Hnew Hplan Hfind [Hn Hids Hold Hkept Hcont Hnoc].
  pose proof (planOf_content_name U W g fd ai c Hplan) as Hfdn.
  constructor; auto.
  - intros it it0 Hit Hit0 Hid. apply in_app_iff in Hit as [Hit | [<- | []]];
      [apply Hids; assumption|].
    cbn in Hid. pose proof (listing_below it0 Hit0). lia.
  - intros it Hit Hnot. apply in_app_iff in Hit as [Hit | [<- | []]].
    + apply Hold; [exact Hit|]. intros Hi. apply Hnot, in_names_snoc. left. exact Hi.
    + exfalso. apply Hnot, in_names_snoc. right. exact Hfdn.
  - intros it0 Hit0 Hnot. apply in_app_iff. left. apply Hkept; [exact Hit0|].
    intros Hi. apply Hnot, in_names_snoc. left. exact Hi.
  - intros g' fd' ai' c' Hg' Hplan'. apply in_app_iff in Hg' as [Hg' | [<- | []]].
    + destruct (Hcont g' fd' ai' c' Hg' Hplan') as [[it [Hit Hname]] Hall]. split.
      * exists it. split; [apply in_app_iff; left; exact Hit | exact Hname].
      * intros it' Hit' Hname'. apply in_app_iff in Hit' as [Hit' | [<- | []]];
          [apply Hall; assumption|].
        exfalso. apply Hnew. unfold webflowName in Hname'. cbn in Hname'.
        rewrite <- Hfdn, Hname'. apply in_map, Hg'.
    + rewrite Hplan in Hplan'. injection Hplan' as <- <- <-. split.
      * eexists. split; [apply in_app_iff; right; left; reflexivity | exact Hfdn].
      * intros it Hit Hname. apply in_app_iff in Hit as [Hit | [<- | []]];
          [|left; reflexivity].
        exfalso. apply (findPluginByName_None _ _ _ Hfind it); [|exact Hname].
        apply Hold; [exact Hit | rewrite Hname; exact Hnew].
  - intros g' Hg' Hplan' it Hit Hname. apply in_app_iff in Hg' as [Hg' | [<- | []]];
      [|congruence].
    apply in_app_iff in Hit as [Hit | [<- | []]];
      [apply (Hnoc g' Hg' Hplan' it Hit Hname)|].
    apply Hnew. unfold webflowName in Hname. cbn in Hname.
    rewrite <- Hfdn, Hname. apply in_map, Hg'.
Qed.

(** The entry has content and its record is updated. *)
Lemma BatchInv_update done wf nx g fd ai c wp :
  ~ In (gp_name g) (map gp_name done) ->
  planOf U W g = PlanContent fd ai c ->
  findPluginByName webflowName listing (gp_name g) = Some wp ->
  BatchInv U W listing next done wf nx ->
  BatchInv U W listing next (done ++ [g])
    (map (fun it => if Nat.eqb (wf_id it) (wf_id wp)
                    then mkWebflowItem (wf_id it) (wf_name it) fd else it) wf) nx.
Proof.
  intros Hnew Hplan Hfind [Hn Hids Hold Hkept Hcont Hnoc].
  pose proof (planOf_content_name U W g fd ai c Hplan) as Hfdn.
  apply findPluginByName_Some in Hfind as [Hwp Hwpn].
  set (upd := fun it => if Nat.eqb (wf_id it) (wf_id wp)
                        then mkWebflowItem (wf_id it) (wf_name it) fd else it).
  assert (Hupd : forall it, In it wf ->
            wf_id (upd it) = wf_id it /\ webflowName (upd it) = webflowName it /\
            (wf_id it <> wf_id wp -> upd it = it) /\
            (wf_id it = wf_id wp -> wf_fieldData (upd it) = fd)).
  { intros it Hit. unfold upd. destruct (Nat.eqb_spec (wf_id it) (wf_id wp)) as [Hid|Hid].
    - repeat split; try contradiction. unfold webflowName at 1. cbn.
      rewrite Hfdn, (Hids it wp Hit Hwp Hid). symmetry. exact Hwpn.
    - repeat split; congruence. }
  assert (Hother : forall it, In it wf -> webflowName it <> gp_name g -> upd it = it).
  { intros it Hit Hname. apply (Hupd it Hit). intros Hid. apply Hname.
    rewrite (Hids it wp Hit Hwp Hid). exact Hwpn. }
  constructor; auto.
  - intros it' it0 Hit' Hit0 Hid. apply in_map_iff in Hit' as [it [<- Hit]].
    destruct (Hupd it Hit) as (Ei & En & _). rewrite En. apply Hids; congruence.
  - intros it' Hit' Hnot. apply in_map_iff in Hit' as [it [<- Hit]].
    destruct (Hupd it Hit) as (_ & En & _). rewrite En in Hnot.
    rewrite Hother; [|exact Hit|].
    + apply Hold; [exact Hit|]. intros Hi. apply Hnot, in_names_snoc. left. exact Hi.
    + intros Hname. apply Hnot, in_names_snoc. right. exact Hname.
  - intros it0 Hit0 Hnot. apply in_map_iff. exists it0. split.
    + apply Hother.
      * apply Hkept; [exact Hit0|]. intros Hi. apply Hnot, in_names_snoc. left. exact Hi.
      * intros Hname. apply Hnot, in_names_snoc. right. exact Hname.
    + apply Hkept; [exact Hit0|]. intros Hi. apply Hnot, in_names_snoc. left. exact Hi.
  - intros g' fd' ai' c' Hg' Hplan'. apply in_app_iff in Hg' as [Hg' | [<- | []]].
    + assert (Hne : gp_name g' <> gp_name g).
      { intros Heq. apply Hnew. rewrite <- Heq. apply in_map, Hg'. }
      destruct (Hcont g' fd' ai' c' Hg' Hplan') as [[it [Hit Hname]] Hall]. split.
      * exists it. split; [|exact Hname]. apply in_map_iff. exists it. split; [|exact Hit].
        apply Hother; [exact Hit | congruence].
      * intros it' Hit' Hname'. apply in_map_iff in Hit' as [it0 [<- Hit0]].
        destruct (Hupd it0 Hit0) as (_ & En & _). rewrite En in Hname'.
        rewrite Hother; [apply Hall; assumption | exact Hit0 | congruence].
    + rewrite Hplan in Hplan'. injection Hplan' as <- <- <-.
      assert (Hwf : In wp wf) by (apply Hkept; [exact Hwp | rewrite Hwpn; exact Hnew]).
      split.
      * exists (upd wp). split; [apply in_map, Hwf|].
        destruct (Hupd wp Hwf) as (_ & En & _). rewrite En. exact Hwpn.
      * intros it' Hit' Hname'. apply in_map_iff in Hit' as [it0 [<- Hit0]].
        destruct (Hupd it0 Hit0) as (_ & En & _ & Efd). rewrite En in Hname'.
        left. apply Efd. f_equal.
        apply (NoDup_map_unique webflowName listing); auto; [|congruence].
        apply Hold; [exact Hit0 | rewrite Hname'; exact Hnew].
  - intros g' Hg' Hplan' it' Hit' Hname'. apply in_app_iff in Hg' as [Hg' | [<- | []]];
      [|congruence].
    apply in_map_iff in Hit' as [it0 [<- Hit0]].
    destruct (Hupd it0 Hit0) as (_ & En & _). rewrite En in Hname'.
    apply (Hnoc g' Hg' Hplan' it0 Hit0 Hname').
Qed.

(** One entry of the manifest, whatever its case. *)
Lemma BatchInv_step done g s :
  (forall c, storeFault W c = None) ->
  ~ In (gp_name g) (map gp_name done) ->
  BatchInv U W listing next done (webflow s) (nextId s) ->
  let s' := snd (Sync.processPlugin U W g listing s) in
  BatchInv U W listing next (done ++ [g]) (webflow s') (nextId s').
Proof.
  intros Hok Hnew Hinv.
  pose proof (Sync_processPlugin_cases U W g listing s Hok) as H. cbn zeta in *.
  destruct (planOf U W g) as [| |fd ai c] eqn:Hplan;
    destruct (findPluginByName webflowName listing (gp_name g)) as [wp|] eqn:Hfind.
  - destruct H as (-> & -> & _). apply BatchInv_idle; [exact Hnew | rewrite Hplan; exact I | exact Hinv].
  - destruct H as (-> & -> & _). apply BatchInv_idle; [exact Hnew | rewrite Hplan; exact I | exact Hinv].
  - destruct H as (-> & -> & _). apply BatchInv_delete; assumption.
  - destruct H as (-> & -> & _).
    apply BatchInv_idle; [exact Hnew | rewrite Hplan, Hfind; reflexivity | exact Hinv].
  - destruct (isPluginEqual U g (wf_fieldData wp) c) eqn:Hchk; destruct H as (-> & -> & _).
    + apply (BatchInv_update done _ _ g fd ai c wp); assumption.
    + apply BatchInv_idle; [exact Hnew | rewrite Hplan, Hfind; exact Hchk | exact Hinv].
  - destruct H as (-> & -> & _). apply (BatchInv_create done _ _ g fd ai c); assumption.
Qed.

End FirstRun.


(** The entries of a batch in their order: what holds of the entries
    processed so far is carried through the batch. *)
Lemma runAll_prefixes (Q : list ManifestEntry -> State -> Prop) process githubPlugins :
  (forall done g todo st,
      githubPlugins = done ++ g :: todo -> Q done st ->
      Q (done ++ [g]) (snd (process g st))) ->
  forall batch done todo s,
    githubPlugins = done ++ batch ++ todo -> Q done s ->
    Q (done ++ batch) (runAll process batch s).
Proof.
  intros Hstep. induction batch as [|g batch IH]; intros done todo s Hm HQ.
  - rewrite app_nil_r. exact HQ.
  - change (runAll process (g :: batch) s)
      with (runAll process batch (snd (process g s))).
    replace (done ++ g :: batch) with ((done ++ [g]) ++ batch)
      by (rewrite <- app_assoc; reflexivity).
    apply (IH _ todo).
    + rewrite Hm, <- app_assoc. reflexivity.
    + apply (Hstep done g (batch ++ todo)); [exact Hm | exact HQ].
Qed.

(** The batch loop takes the manifest in its order: what holds of the
    empty prefix before the loop and is carried by every entry and every
    pause holds of the whole manifest after it. *)
Lemma forBatches_prefixes (Q : list ManifestEntry -> State -> Prop)
    process pause githubPlugins :
  (forall g st, fst (process g st) = Returned tt) ->
  (forall st, fst (pause st) = Returned tt) ->
  (forall done g todo st,
      githubPlugins = done ++ g :: todo -> Q done st ->
      Q (done ++ [g]) (snd (process g st))) ->
  (forall done st, Q done st -> Q done (snd (pause st))) ->
  forall n i s, length githubPlugins - i <= n -> Q (firstn i githubPlugins) s ->
    fst (forBatches process pause githubPlugins i s) = Returned tt /\
    Q githubPlugins (snd (forBatches process pause githubPlugins i s)).
Proof.
  intros Hret Hpret Hstep Hpause.
  assert (Hall : forall i s, length githubPlugins <= i ->
            Q (firstn i githubPlugins) s -> Q githubPlugins s).
  { intros i s Hi HQ. rewrite firstn_all2 in HQ; assumption. }
  induction n as [|n IH]; intros i s Hn HQ;
    rewrite forBatches_step;
    destruct (Nat.ltb_spec i (length githubPlugins)) as [Hlt|Hge];
    try (split; [reflexivity | apply (Hall i); assumption]); [lia|].
  cbv iota.
  match goal with
  | |- fst ?c = _ /\ _ =>
      assert (E : exists s2, Q (firstn (i + BATCH_SIZE) githubPlugins) s2 /\
                c = forBatches process pause githubPlugins (i + BATCH_SIZE) s2)
  end.
  { unfold bind. rewrite promiseAll_runAll by exact Hret.
    assert (HQ1 : Q (firstn (i + BATCH_SIZE) githubPlugins)
                    (runAll process (slice i (i + BATCH_SIZE) githubPlugins) s)).
    { unfold slice. replace (i + BATCH_SIZE - i) with BATCH_SIZE by lia.
      rewrite <- (take_take_drop githubPlugins i BATCH_SIZE).
      apply (runAll_prefixes Q process githubPlugins Hstep _ _
               (skipn BATCH_SIZE (skipn i githubPlugins))); [|exact HQ].
      rewrite (firstn_skipn BATCH_SIZE), (firstn_skipn i). reflexivity. }
    destruct (Nat.ltb (i + BATCH_SIZE) (length githubPlugins)).
    - pose proof (Hpret (runAll process (slice i (i + BATCH_SIZE) githubPlugins) s)) as Hp.
      pose proof (Hpause _ _ HQ1) as HQ2.
      destruct (pause _) as [r s2]. cbn in Hp, HQ2. subst r.
      exists s2. split; [exact HQ2 | reflexivity].
    - eexists. split; [exact HQ1 | reflexivity]. }
  destruct E as (s2 & HQ2 & E). rewrite E.
  apply IH; [unfold BATCH_SIZE; lia | exact HQ2].
Qed.

(** The content collection after the orphan pass, store calls never
    rejected: the records that do not have the id of a listed orphan. *)
Lemma deleteOrphans_webflow U W githubPlugins :
  (forall c, storeFault W c = None) ->
  forall listing s,
    let r := Sync.deleteOrphans U W githubPlugins listing s in
    fst r = Returned tt /\
    forall it, In it (webflow (snd r)) <->
      In it (webflow s) /\
      forall p, In p listing ->
        findPluginByName gp_name githubPlugins (webflowName p) = None ->
        wf_id p <> wf_id it.
Proof.
  intros Hok. unfold Sync.deleteOrphans.
  induction listing as [|x l IH]; intros s.
  - cbn. split; [reflexivity|]. intros it. split; [intros H; split; [exact H | intros p []]|tauto].
  - pose (body := match findPluginByName gp_name githubPlugins (webflowName x) with
                  | Some _ => ret tt
                  | None => Sync.processDeletePlugin U W x
                  end).
    assert (Hbody : fst (body s) = Returned tt /\
              forall it, In it (webflow (snd (body s))) <->
                In it (webflow s) /\
                (findPluginByName gp_name githubPlugins (webflowName x) = None ->
                 wf_id x <> wf_id it)).
    { unfold body.
      destruct (findPluginByName gp_name githubPlugins (webflowName x)) as [g|].
      - split; [reflexivity|]. intros it. cbn. split; [intros H; split; [exact H|discriminate]|tauto].
      - unfold_js. rewrite !Hok. cbn. split; [reflexivity|]. intros it.
        rewrite List.filter_In, negb_true_iff, Nat.eqb_neq.
        split; intros [H1 H2]; (split; [exact H1|]);
          [intros _ Hid; apply H2; congruence | intros Hid; apply (H2 eq_refl); congruence]. }
    destruct (body s) as [r s1] eqn:Ebody. cbn in Hbody. destruct Hbody as [-> Hs1].
    match goal with
    | |- context [forOf (x :: l) ?F s] =>
        assert (E : forOf (x :: l) F s = forOf l F s1)
          by (cbn [forOf]; unfold bind at 1; fold body; rewrite Ebody; reflexivity);
        rewrite E; clear E
    end.
    destruct (IH s1) as [R Hin]. cbn zeta in *. split; [exact R|].
    intros it. rewrite Hin, Hs1. split.
    + intros [[H1 H2] H3]. split; [exact H1|].
      intros p [<- | Hp] Hp'; [apply H2, Hp' | apply (H3 p Hp Hp')].
    + intros [H1 H2]. split; [split; [exact H1|]|].
      * intros Hx. apply (H2 x (or_introl eq_refl) Hx).
      * intros p Hp Hp'. apply (H2 p (or_intror Hp) Hp').
Qed.

Lemma findPluginByName_names (githubPlugins : list ManifestEntry) n :
  findPluginByName gp_name githubPlugins n = None <->
  ~ In n (map gp_name githubPlugins).
Proof.
  split.
  - intros H Hin. apply in_map_iff in Hin as [g [Hg Hin]].
    apply (findPluginByName_None _ _ _ H g Hin Hg).
  - intros H. destruct (findPluginByName gp_name githubPlugins n) as [g|] eqn:E;
      [|reflexivity].
    apply findPluginByName_Some in E as [Hin <-]. exfalso. apply H, in_map, Hin.
Qed.

(** A listing without orphans: the orphan pass does nothing. *)
Lemma deleteOrphans_nothing U W githubPlugins listing s :
  (forall it, In it listing -> In (webflowName it) (map gp_name githubPlugins)) ->
  Sync.deleteOrphans U W githubPlugins listing s = (Returned tt, s).
Proof.
  unfold Sync.deleteOrphans. revert s.
  induction listing as [|x l IH]; intros s Hall; [reflexivity|].
  cbn [forOf]. unfold bind.
  destruct (findPluginByName gp_name githubPlugins (webflowName x)) as [g|] eqn:E.
  - cbn. apply IH. intros it Hit. apply Hall. right. exact Hit.
  - exfalso. apply findPluginByName_names in E. apply E, Hall. left. reflexivity.
Qed.


Lemma NoDup_names_prefix (done : list ManifestEntry) g todo :
  List.NoDup (map gp_name (done ++ g :: todo)) ->
  ~ In (gp_name g) (map gp_name done).
Proof.
  rewrite map_app. cbn. intros Hnd Hin.
  apply List.NoDup_remove_2 in Hnd. apply Hnd, in_app_iff. left. exact Hin.
Qed.

(** The first run leaves the content collection reconciled with the
    manifest. *)
Lemma firstRun_reconciles U W githubPlugins items next index :
  List.NoDup (map gp_name githubPlugins) ->
  List.NoDup (map wf_id items) ->
  List.NoDup (map webflowName items) ->
  (forall it, In it items -> wf_id it < next) ->
  (forall c, storeFault W c = None) ->
  listAlgoliaFault W = None ->
  listWebflowFault W = None ->
  Reconciled U W githubPlugins
    (webflow (snd (Sync.syncPlugins U W githubPlugins (initState items next index)))).
Proof.
  intros Hnames Hids Hwnames Hbelow Hok HlA HlW.
  assert (E : exists s4,
            Sync.syncPluginsBody U W githubPlugins (initState items next index)
              = generateReadme W s4 /\
            Reconciled U W githubPlugins (webflow s4)).
  { unfold Sync.syncPluginsBody, bind, listAlgoliaItems, listWebflowCollectionItems, modify.
    rewrite HlA, HlW. cbn [webflow record initState].
    set (s2 := set_ids _ _).
    pose (Q := fun done st => BatchInv U W items next done (webflow st) (nextId st)).
    destruct (forBatches_prefixes Q
                (fun g => Sync.processPlugin U W g items) (sleep DELAY_MS) githubPlugins)
      with (n := length githubPlugins) (i := 0) (s := s2) as [Hret HQ].
    { intros. apply Sync_processPlugin_returns. }
    { reflexivity. }
    { intros done g todo st Hm Hst. unfold Q in *.
      apply BatchInv_step; auto.
      apply (NoDup_names_prefix done g todo). rewrite <- Hm. exact Hnames. }
    { intros done st Hst. exact Hst. }
    { lia. }
    { unfold Q. cbn. apply BatchInv_start; assumption. }
    destruct (forBatches _ _ _ _ s2) as [r3 s3]. cbn in Hret, HQ. subst r3.
    destruct (deleteOrphans_webflow U W githubPlugins Hok items s3) as [R Hin].
    destruct (Sync.deleteOrphans U W githubPlugins items s3) as [r4 s4].
    cbn in R, Hin. subst r4.
    exists s4. split; [reflexivity|].
    destruct HQ as [Hn Hi Hold Hkept Hcont Hnoc].
    constructor.
    - intros g fd ai c Hg Hplan.
      destruct (Hcont g fd ai c Hg Hplan) as [[it [Hit Hname]] Hall]. split.
      + exists it. split; [|exact Hname]. apply Hin. split; [exact Hit|].
        intros p Hp Horphan Hid. apply findPluginByName_names in Horphan.
        apply Horphan. rewrite <- (Hi it p Hit Hp (eq_sym Hid)), Hname.
        apply in_map, Hg.
      + intros it' Hit'. apply Hin in Hit' as [Hit' _]. apply Hall, Hit'.
    - intros g Hg Hplan it Hit. apply Hin in Hit as [Hit _]. apply (Hnoc g Hg Hplan it Hit).
    - intros it Hit. apply Hin in Hit as [Hit Hnot].
      destruct (in_dec string_dec (webflowName it) (map gp_name githubPlugins))
        as [Hyes|Hno]; [exact Hyes|].
      exfalso. apply (Hnot it); [|apply findPluginByName_names, Hno | reflexivity].
      apply Hold; [exact Hit | exact Hno]. }
  destruct E as (s4 & E & Hrec).
  unfold Sync.syncPlugins, orExit. rewrite E. unfold generateReadme.
  destruct (generateReadmeFault W); cbn; exact Hrec.
Qed.

Lemma planOf_content_fields U W g fd ai c :
  planOf U W g = PlanContent fd ai c ->
  exists repoInfo npmDownloads, fd = assembleFieldData U g repoInfo npmDownloads c.
Proof.
  unfold planOf. destruct (gitUrlParse U (gp_githubUrl g)); [|discriminate].
  destruct (getRepoInfo W _) as [info|]; [|discriminate].
  destruct (getNpmDownloads W _ _) as [npm|]; [|discriminate].
  destruct (getReadmeContent W _); [|discriminate].
  destruct (contentOf _); [|discriminate].
  intros [= <- _ <-]. exists info, npm. reflexivity.
Qed.

(** A run on a reconciled content collection, store calls never rejected:
    nothing is created and nothing is deleted, and nothing is updated when
    the change check finds nothing to do on the fields the script itself
    assembles. *)
Lemma reconciled_run_is_quiet U W githubPlugins wf nx index :
  Reconciled U W githubPlugins wf ->
  (forall c, storeFault W c = None) ->
  let s' := snd (Sync.syncPlugins U W githubPlugins (initState wf nx index)) in
  createdPlugins s' = [] /\
  deletedPlugins s' = [] /\
  ((forall g repoInfo npmDownloads c,
       isPluginEqual U g (assembleFieldData U g repoInfo npmDownloads c) c = false) ->
   updatedPlugins s' = []).
Proof.
  intros [Hcont Hnoc Hnorph] Hok.
  pose (P := fun st : State =>
    createdPlugins st = [] /\ deletedPlugins st = [] /\
    ((forall g repoInfo npmDownloads c,
         isPluginEqual U g (assembleFieldData U g repoInfo npmDownloads c) c = false) ->
     updatedPlugins st = [])).
  assert (E : P (snd (Sync.syncPluginsBody U W githubPlugins (initState wf nx index)))).
  { unfold Sync.syncPluginsBody, bind, listAlgoliaItems, listWebflowCollectionItems, modify.
    destruct (listAlgoliaFault W); [cbn; repeat split|].
    destruct (listWebflowFault W); [cbn; repeat split|].
    cbn [webflow record initState].
    set (s2 := set_ids _ _).
    destruct (forBatches_invariant P
                (fun g => Sync.processPlugin U W g wf) (sleep DELAY_MS) githubPlugins)
      with (n := length githubPlugins) (i := 0) (s := s2) as [Hret HP].
    { intros. apply Sync_processPlugin_returns. }
    { reflexivity. }
    { intros g st Hg (Hc & Hd & Hu).
      pose proof (Sync_processPlugin_cases U W g wf st Hok) as H. cbn zeta in H.
      unfold P.
      destruct (planOf U W g) as [| |fd ai c] eqn:Hplan.
      - assert (H' : webflow (snd (Sync.processPlugin U W g wf st)) = webflow st /\
                     nextId (snd (Sync.processPlugin U W g wf st)) = nextId st /\
                     createdPlugins (snd (Sync.processPlugin U W g wf st)) = createdPlugins st /\
                     updatedPlugins (snd (Sync.processPlugin U W g wf st)) = updatedPlugins st /\
                     deletedPlugins (snd (Sync.processPlugin U W g wf st)) = deletedPlugins st)
          by (destruct (findPluginByName webflowName wf (gp_name g)); exact H).
        destruct H' as (_ & _ & -> & -> & ->). auto.
      - destruct (findPluginByName webflowName wf (gp_name g)) as [wp|] eqn:Hfind.
        + exfalso. apply findPluginByName_Some in Hfind as [Hwp Hn].
          apply (Hnoc g Hg Hplan wp Hwp Hn).
        + destruct H as (_ & _ & -> & -> & ->). auto.
      - destruct (Hcont g fd ai c Hg Hplan) as [[it [Hit Hname]] Hall].
        destruct (findPluginByName webflowName wf (gp_name g)) as [wp|] eqn:Hfind.
        + apply findPluginByName_Some in Hfind as [Hwp Hn].
          destruct (isPluginEqual U g (wf_fieldData wp) c) eqn:Hchk;
            destruct H as (_ & _ & -> & -> & ->); repeat split; auto.
          intros Hquiet. exfalso.
          destruct (Hall wp Hwp Hn) as [Hfd | Hno]; [|congruence].
          destruct (planOf_content_fields U W g fd ai c Hplan) as (info & npm & ->).
          rewrite Hfd, Hquiet in Hchk. discriminate.
        + exfalso. apply (findPluginByName_None _ _ _ Hfind it Hit Hname). }
    { intros st Hst. exact Hst. }
    { lia. }
    { unfold P. cbn. auto. }
    destruct (forBatches _ _ _ _ s2) as [r3 s3]. cbn in Hret, HP. subst r3.
    rewrite deleteOrphans_nothing by exact Hnorph.
    unfold generateReadme. destruct (generateReadmeFault W); exact HP. }
  unfold Sync.syncPlugins, orExit.
  destruct (Sync.syncPluginsBody U W githubPlugins (initState wf nx index)) as [[[]|e] s4];
    exact E.
Qed.


(** ** Two runs in succession *)

(** C3 (as amended), for [src/sync-plugins.js]: names are unique in the
    manifest and in the content collection, the ids of the collection are
    unique and below its next id, no listing and no store call is rejected,
    and [isPluginEqual] answers falsy when an entry is checked against the
    fields the script assembles for it.  Then the run that follows a run,
    with the manifest and the enrichment results unchanged, reports nothing
    as created, nothing as updated and nothing as deleted. *)
Theorem C3_second_run_changes_nothing (U : Utils) (W : World)
    (githubPlugins : list ManifestEntry) (items : list WebflowItem) (next : nat)
    (index : gmap string AlgoliaItem) :
  List.NoDup (map gp_name githubPlugins) ->
  List.NoDup (map wf_id items) ->
  List.NoDup (map webflowName items) ->
  (forall it, In it items -> wf_id it < next) ->
  (forall c, storeFault W c = None) ->
  listAlgoliaFault W = None ->
  listWebflowFault W = None ->
  (forall g repoInfo npmDownloads c,
      isPluginEqual U g (assembleFieldData U g repoInfo npmDownloads c) c = false) ->
  let first := snd (Sync.syncPlugins U W githubPlugins (initState items next index)) in
  let second := snd (Sync.syncPlugins U W githubPlugins (nextProcess first)) in
  createdPlugins second = [] /\
  updatedPlugins second = [] /\
  deletedPlugins second = [].
Proof.
  intros Hnames Hids Hwnames Hbelow Hok HlA HlW Hquiet first second.
  pose proof (firstRun_reconciles U W githubPlugins items next index
                Hnames Hids Hwnames Hbelow Hok HlA HlW) as Hrec.
  fold first in Hrec.
  destruct (reconciled_run_is_quiet U W githubPlugins (webflow first) (nextId first)
              (algolia first) Hrec Hok) as (Hc & Hd & Hu).
  repeat split; [exact Hc | apply Hu, Hquiet | exact Hd].
Qed.

Lemma C3_second_run_changes_nothing_witness :
  let first := snd (Sync.syncPlugins Demo.utils (Demo.world 10)
                      [Demo.offline; Demo.entry "serverless-webpack" None]
                      (initState [Demo.orphanRecord] 3 ∅)) in
  let second := snd (Sync.syncPlugins Demo.utils (Demo.world 10)
                       [Demo.offline; Demo.entry "serverless-webpack" None]
                       (nextProcess first)) in
  createdPlugins second = [] /\
  updatedPlugins second = [] /\
  deletedPlugins second = [].
Proof.
  apply (C3_second_run_changes_nothing Demo.utils (Demo.world 10)
           [Demo.offline; Demo.entry "serverless-webpack" None]
           [Demo.orphanRecord] 3 ∅).
  - repeat constructor; cbn; intuition discriminate.
  - repeat constructor; cbn; intuition discriminate.
  - repeat constructor; cbn; intuition discriminate.
  - intros it [<- | []]. cbn. lia.
  - reflexivity.
  - reflexivity.
  - reflexivity.
  - intros g repoInfo npmDownloads c. cbn. unfold Demo.differs. cbn.
    rewrite !String.eqb_refl. reflexivity.
Defined.

(** C3 (counterexample): [src/unnamed/part_000], one manifest entry, empty
    stores.  The first run creates the record; the second run, with the
    same manifest and the same enrichment results, updates it and reports
    it as updated. *)
Lemma C3_part000_second_run_updates :
  let first := snd (Part000.syncPlugins Demo.utils (Demo.world 10) [Demo.offline]
                      (initState [] 1 ∅)) in
  let second := snd (Part000.syncPlugins Demo.utils (Demo.world 10) [Demo.offline]
                       (nextProcess first)) in
  createdPlugins first = ["serverless-offline"] /\
  updatedPlugins second = ["serverless-offline"].
Proof. vm_compute. split; reflexivity. Qed.

(** In [src/sync-plugins.js], whatever [isPluginEqual] answers: names are
    unique in the manifest and in the content collection, the ids of the
    collection are unique and below its next id, and no listing and no
    store call is rejected.  Then the run that follows a run, with the
    manifest and the enrichment results unchanged, reports nothing as
    created and nothing as deleted. *)
Theorem second_run_creates_and_deletes_nothing (U : Utils) (W : World)
    (githubPlugins : list ManifestEntry) (items : list WebflowItem) (next : nat)
    (index : gmap string AlgoliaItem) :
  List.NoDup (map gp_name githubPlugins) ->
  List.NoDup (map wf_id items) ->
  List.NoDup (map webflowName items) ->
  (forall it, In it items -> wf_id it < next) ->
  (forall c, storeFault W c = None) ->
  listAlgoliaFault W = None ->
  listWebflowFault W = None ->
  let first := snd (Sync.syncPlugins U W githubPlugins (initState items next index)) in
  let second := snd (Sync.syncPlugins U W githubPlugins (nextProcess first)) in
  createdPlugins second = [] /\
  deletedPlugins second = [].
Proof.
  intros Hnames Hids Hwnames Hbelow Hok HlA HlW first second.
  pose proof (firstRun_reconciles U W githubPlugins items next index
                Hnames Hids Hwnames Hbelow Hok HlA HlW) as Hrec.
  fold first in Hrec.
  destruct (reconciled_run_is_quiet U W githubPlugins (webflow first) (nextId first)
              (algolia first) Hrec Hok) as (Hc & Hd & _).
  split; [exact Hc | exact Hd].
Qed.

Lemma second_run_creates_and_deletes_nothing_witness :
  let always := Demo.utilsWith (fun _ _ _ => true) in
  let first := snd (Sync.syncPlugins always (Demo.world 10)
                      [Demo.offline; Demo.entry "serverless-webpack" None]
                      (initState [Demo.orphanRecord] 3 ∅)) in
  let second := snd (Sync.syncPlugins always (Demo.world 10)
                       [Demo.offline; Demo.entry "serverless-webpack" None]
                       (nextProcess first)) in
  createdPlugins second = [] /\
  deletedPlugins second = [].
Proof.
  apply (second_run_creates_and_deletes_nothing
           (Demo.utilsWith (fun _ _ _ => true)) (Demo.world 10)
           [Demo.offline; Demo.entry "serverless-webpack" None]
           [Demo.orphanRecord] 3 ∅).
  - repeat constructor; cbn; intuition discriminate.
  - repeat constructor; cbn; intuition discriminate.
  - repeat constructor; cbn; intuition discriminate.
  - intros it [<- | []]. cbn. lia.
  - reflexivity.
  - reflexivity.
  - reflexivity.
Defined.


(** * Further properties of the scripts *)

(** ** The batch loop on any manifest *)

(** The number of pauses of the loop started at index [i]. *)
Lemma forBatches_sleeps rev U W wps githubPlugins :
  forall n i s, length githubPlugins - i <= n ->
    countSleeps (trace (snd (forBatches (fun g => processPluginOf rev U W g wps)
                               (sleep DELAY_MS) githubPlugins i s)))
      = countSleeps (trace s) + (length githubPlugins - i - 1) / BATCH_SIZE.
Proof.
  assert (Hdone : forall i s, length githubPlugins <= i ->
            countSleeps (trace s) =
            countSleeps (trace s) + (length githubPlugins - i - 1) / BATCH_SIZE).
  { intros i s Hi. replace (length githubPlugins - i - 1) with 0 by lia.
    rewrite Nat.Div0.div_0_l. lia. }
  induction n as [|n IH]; intros i s Hn; rewrite forBatches_step;
    destruct (Nat.ltb_spec i (length githubPlugins)) as [Hlt|Hge];
    [lia | apply Hdone, Hge | | apply Hdone, Hge].
  unfold bind at 1. rewrite promiseAll_runAll by (intros; apply processPluginOf_returns).
  unfold bind at 1.
  destruct (Nat.ltb_spec (i + BATCH_SIZE) (length githubPlugins)) as [Hmore|Hlast].
  - cbn [sleep modify]. rewrite IH by (unfold BATCH_SIZE; lia).
    rewrite trace_record, countSleeps_snoc, runAll_no_sleep. cbn [isSleep].
    unfold BATCH_SIZE in *.
    replace (length githubPlugins - i - 1) with (length githubPlugins - (i + 5) - 1 + 1 * 5) by lia.
    rewrite Nat.div_add by lia. lia.
  - cbn [ret]. rewrite IH by (unfold BATCH_SIZE; lia).
    rewrite runAll_no_sleep. unfold BATCH_SIZE in *.
    replace (length githubPlugins - (i + 5) - 1) with 0 by lia.
    rewrite (Nat.div_small (length githubPlugins - i - 1)) by lia. cbn. lia.
Qed.

Lemma forBatches_returns rev U W wps githubPlugins s :
  fst (forBatches (fun g => processPluginOf rev U W g wps) (sleep DELAY_MS)
         githubPlugins 0 s) = Returned tt.
Proof.
  apply (forBatches_invariant (fun _ => True)) with (n := length githubPlugins);
    auto; try lia.
  intros. apply processPluginOf_returns.
Qed.

(** ** Every entry is dealt with once *)

Lemma list_ascii_of_string_app a b :
  list_ascii_of_string (a +:+ b) = list_ascii_of_string a ++ list_ascii_of_string b.
Proof. induction a as [|c a IH]; [reflexivity|]. simpl. rewrite IH. reflexivity. Qed.

Lemma append_inv_tail a b t : a +:+ t = b +:+ t -> a = b.
Proof.
  intros H. apply (f_equal list_ascii_of_string) in H.
  rewrite !list_ascii_of_string_app in H. apply app_inv_tail in H.
  apply (f_equal string_of_list_ascii) in H.
  rewrite !string_of_list_ascii_of_string in H. exact H.
Qed.

Lemma skipMessage_eqb x n : String.eqb (skipMessage x) (skipMessage n) = String.eqb n x.
Proof.
  destruct (String.eqb_spec n x) as [->|Hne].
  - apply String.eqb_refl.
  - apply String.eqb_neq. intros H. apply Hne. unfold skipMessage in H.
    simpl in H. repeat (injection H as H). symmetry.
    apply (append_inv_tail x n ", skipping update."). exact H.
Qed.

Lemma skipMessage_noReadme x n :
  String.eqb ("No README content found for " +:+ x) (skipMessage n) = false.
Proof. reflexivity. Qed.

Lemma skips_snoc n tr ev :
  skips n (tr ++ [ev]) = skips n tr + (if isSkipOf n ev then 1 else 0).
Proof.
  unfold skips. rewrite List.filter_app, length_app. cbn.
  destruct (isSkipOf n ev); reflexivity.
Qed.

Lemma occurrences_cons n x l :
  occurrences n (x :: l) = (if String.eqb n x then 1 else 0) + occurrences n l.
Proof. unfold occurrences. cbn. destruct (String.eqb n x); reflexivity. Qed.

Ltac count_handled n :=
  unfold handled;
  cbn [createdPlugins updatedPlugins failedPlugins deletedPlugins trace record
       set_failed set_created set_updated set_deleted set_ids set_webflow set_algolia
       set_nextId applyStore webflow nextId algolia webflowPluginIds];
  rewrite ?map_app; cbn [map fp_name];
  rewrite ?occurrences_snoc, ?skips_snoc; cbn [isSkipOf];
  rewrite ?skipMessage_eqb, ?skipMessage_noReadme;
  repeat match goal with
  | |- context [String.eqb ?a (skipMessage n)] =>
      change (String.eqb a (skipMessage n)) with false
  end;
  destruct (String.eqb n _); lia.

(** One call of [processPlugin] deals with its entry once, on every
    path. *)
Lemma processPluginOf_handled rev U W g wps s n :
  handled n (snd (processPluginOf rev U W g wps s))
    = handled n s + (if String.eqb n (gp_name g) then 1 else 0).
Proof.
  destruct rev; cbn [processPluginOf]; unfold_js; case_js; cbn [snd];
    fold (skipMessage (gp_name g)); count_handled n.
Qed.

Lemma Older_processPlugin_handled U W g wps s n :
  handled n (snd (Older.processPlugin U W g wps s))
    = handled n s + (if String.eqb n (gp_name g) then 1 else 0).
Proof.
  unfold Older.processPlugin. unfold_js. case_js; cbn [snd]; count_handled n.
Qed.

Lemma runAll_handled (process : ManifestEntry -> M unit) n :
  (forall g st, handled n (snd (process g st))
                = handled n st + (if String.eqb n (gp_name g) then 1 else 0)) ->
  forall batch s,
    handled n (runAll process batch s) = handled n s + occurrences n (map gp_name batch).
Proof.
  intros Hstep. induction batch as [|g batch IH]; intros s.
  - cbn [runAll fold_left map]. change (occurrences n []) with 0. lia.
  - change (runAll process (g :: batch) s) with (runAll process batch (snd (process g s))).
    rewrite IH, Hstep. cbn [map]. rewrite occurrences_cons. lia.
Qed.

Lemma forBatches_handled (process : ManifestEntry -> M unit) githubPlugins n :
  (forall g st, fst (process g st) = Returned tt) ->
  (forall g st, handled n (snd (process g st))
                = handled n st + (if String.eqb n (gp_name g) then 1 else 0)) ->
  forall s,
    handled n (snd (forBatches process (sleep DELAY_MS) githubPlugins 0 s))
      = handled n s + occurrences n (map gp_name githubPlugins).
Proof.
  intros Hret Hstep s.
  pose (Q := fun (done : list ManifestEntry) st =>
               handled n st = handled n s + occurrences n (map gp_name done)).
  destruct (forBatches_prefixes Q process (sleep DELAY_MS) githubPlugins)
    with (n := length githubPlugins) (i := 0) (s := s) as [_ HQ].
  - exact Hret.
  - reflexivity.
  - intros done g todo st _ Hst. unfold Q in *.
    rewrite Hstep, Hst, map_app. cbn [map]. rewrite occurrences_snoc. lia.
  - intros done st Hst. unfold Q in *. rewrite <- Hst.
    unfold handled, sleep, modify. cbn [snd].
    cbn [createdPlugins updatedPlugins failedPlugins trace record].
    rewrite skips_snoc. cbn [isSkipOf]. lia.
  - lia.
  - unfold Q. change (firstn 0 githubPlugins) with (@nil ManifestEntry).
    change (occurrences n (map gp_name [])) with 0. lia.
  - exact HQ.
Qed.

(** The batch loop deals with every entry once, whatever fails. *)
Lemma forBatches_deals_with_all rev U W wps githubPlugins s :
  let r := forBatches (fun g => processPluginOf rev U W g wps) (sleep DELAY_MS)
             githubPlugins 0 s in
  fst r = Returned tt /\
  forall n, handled n (snd r) = handled n s + occurrences n (map gp_name githubPlugins).
Proof.
  cbv zeta. split.
  - apply forBatches_returns.
  - intros n. apply forBatches_handled.
    + intros. apply processPluginOf_returns.
    + intros. apply processPluginOf_handled.
Qed.


(** The loop on a manifest of 12 entries, written out. *)
Lemma forBatches_twelve (process : ManifestEntry -> M unit) (pause : M unit)
    (githubPlugins : list ManifestEntry) (s : State) :
  length githubPlugins = 12 ->
  forBatches process pause githubPlugins 0 s =
    (promiseAll (map process (slice 0 5 githubPlugins)) ;;;
     pause ;;;
     promiseAll (map process (slice 5 10 githubPlugins)) ;;;
     pause ;;;
     promiseAll (map process (slice 10 15 githubPlugins))) s.
Proof.
  intros Hlen.
  assert (H15 : forall st, forBatches process pause githubPlugins 15 st = (Returned tt, st)).
  { intros st. rewrite forBatches_step, Hlen. reflexivity. }
  assert (H10 : forall st, forBatches process pause githubPlugins 10 st =
                           promiseAll (map process (slice 10 15 githubPlugins)) st).
  { intros st. rewrite forBatches_step, Hlen.
    change (Nat.ltb 10 12) with true. change (10 + BATCH_SIZE) with 15.
    change (Nat.ltb 15 12) with false. cbv iota. unfold bind.
    destruct (promiseAll (map process (slice 10 15 githubPlugins)) st) as [[[]|e] s1];
      [cbn [ret]; apply H15 | reflexivity]. }
  assert (H5 : forall st, forBatches process pause githubPlugins 5 st =
                          (promiseAll (map process (slice 5 10 githubPlugins)) ;;;
                           pause ;;;
                           promiseAll (map process (slice 10 15 githubPlugins))) st).
  { intros st. rewrite forBatches_step, Hlen.
    change (Nat.ltb 5 12) with true. change (5 + BATCH_SIZE) with 10.
    change (Nat.ltb 10 12) with true. cbv iota. unfold bind.
    destruct (promiseAll (map process (slice 5 10 githubPlugins)) st) as [[[]|e] s1];
      [|reflexivity].
    destruct (pause s1) as [[[]|e] s2]; [apply H10 | reflexivity]. }
  rewrite forBatches_step, Hlen.
  change (Nat.ltb 0 12) with true. change (0 + BATCH_SIZE) with 5.
  change (Nat.ltb 5 12) with true. cbv iota. unfold bind at 1 2 3 4.
  destruct (promiseAll (map process (slice 0 5 githubPlugins)) s) as [[[]|e] s1];
    [|reflexivity].
  destruct (pause s1) as [[[]|e] s2]; [apply H5 | reflexivity].
Qed.

(** C4: for a manifest of 12 entries the batches are [slice(0,5)],
    [slice(5,10)] and [slice(10,15)], of 5, 5 and 2 entries, which together
    are the manifest in its order.  The loop is [Promise.all] over the
    first batch, a pause, [Promise.all] over the second, a pause, and
    [Promise.all] over the third, with no pause after it.  It returns
    normally whatever the world lets fail, the trace gains exactly two
    pauses, and every entry is dealt with once: for every name, the number
    of times it was reported as created, updated or failed or had its
    update skipped grows by the number of manifest entries of that name. *)
Theorem C4_twelve_entries_three_batches (rev : Revision) (U : Utils) (W : World)
    (webflowPlugins : list WebflowItem) (githubPlugins : list ManifestEntry)
    (s : State) :
  length githubPlugins = 12 ->
  let process := fun g => processPluginOf rev U W g webflowPlugins in
  let batch1 := slice 0 5 githubPlugins in
  let batch2 := slice 5 10 githubPlugins in
  let batch3 := slice 10 15 githubPlugins in
  let r := forBatches process (sleep DELAY_MS) githubPlugins 0 s in
  length batch1 = 5 /\ length batch2 = 5 /\ length batch3 = 2 /\
  batch1 ++ batch2 ++ batch3 = githubPlugins /\
  r = (promiseAll (map process batch1) ;;;
       sleep DELAY_MS ;;;
       promiseAll (map process batch2) ;;;
       sleep DELAY_MS ;;;
       promiseAll (map process batch3)) s /\
  fst r = Returned tt /\
  (forall n, handled n (snd r) = handled n s + occurrences n (map gp_name githubPlugins)) /\
  countSleeps (trace (snd r)) = countSleeps (trace s) + 2.
Proof.
  intros Hlen process batch1 batch2 batch3 r.
  destruct (forBatches_deals_with_all rev U W webflowPlugins githubPlugins s) as [Hret Hall].
  split; [|split; [|split; [|split; [|split; [|split; [|split]]]]]].
  - unfold batch1, slice. rewrite length_firstn, length_skipn. lia.
  - unfold batch2, slice. rewrite length_firstn, length_skipn. lia.
  - unfold batch3, slice. rewrite length_firstn, length_skipn. lia.
  - do 13 (destruct githubPlugins as [|? githubPlugins]; try discriminate).
    reflexivity.
  - apply forBatches_twelve, Hlen.
  - exact Hret.
  - exact Hall.
  - subst r process.
    rewrite (forBatches_sleeps rev U W webflowPlugins githubPlugins
               (length githubPlugins) 0 s) by lia.
    rewrite Hlen. reflexivity.
Qed.

Lemma C4_twelve_entries_three_batches_witness :
  let s := initState [] 1 ∅ in
  let process := fun g => processPluginOf SyncPluginsJs Demo.utils (Demo.world 10) g [] in
  let batch1 := slice 0 5 Demo.twelve in
  let batch2 := slice 5 10 Demo.twelve in
  let batch3 := slice 10 15 Demo.twelve in
  let r := forBatches process (sleep DELAY_MS) Demo.twelve 0 s in
  length batch1 = 5 /\ length batch2 = 5 /\ length batch3 = 2 /\
  batch1 ++ batch2 ++ batch3 = Demo.twelve /\
  r = (promiseAll (map process batch1) ;;;
       sleep DELAY_MS ;;;
       promiseAll (map process batch2) ;;;
       sleep DELAY_MS ;;;
       promiseAll (map process batch3)) s /\
  fst r = Returned tt /\
  (forall n, handled n (snd r) = handled n s + occurrences n (map gp_name Demo.twelve)) /\
  countSleeps (trace (snd r)) = countSleeps (trace s) + 2.
Proof.
  apply (C4_twelve_entries_three_batches SyncPluginsJs Demo.utils (Demo.world 10)
           [] Demo.twelve (initState [] 1 ∅)).
  reflexivity.
Defined.

(** A batch, whatever fails in it: [Promise.all] resolves and every entry
    of the batch is dealt with once. *)
Lemma promiseAll_deals_with_all rev U W wps batch st :
  let r := promiseAll (map (fun g => processPluginOf rev U W g wps) batch) st in
  fst r = Returned tt /\
  forall n, handled n (snd r) = handled n st + occurrences n (map gp_name batch).
Proof.
  cbv zeta.
  rewrite promiseAll_runAll by (intros; apply processPluginOf_returns).
  split; [reflexivity|]. intros n. cbn [snd].
  apply runAll_handled. intros. apply processPluginOf_handled.
Qed.

(** C6 (as amended): an exception that leaves the [try] block of
    [processPlugin] (thrown by [gitUrlParse], by an enrichment call or by a
    create or update call) is caught there.  [processPlugin] returns
    normally; the failed list gains exactly one pair, of the entry's name
    and 'Webflow or Algolia error: ' followed by [getErrorMessage] of the
    error caught, which is the one thrown or, when more than one enrichment
    call is rejected, one of those; the other three lists are as before.
    [Promise.all] over a batch of such calls resolves, and every entry of
    the batch is dealt with once.  (A rejected delete call of the
    no-content path never leaves [processDeletePlugin]; see C10.) *)
Theorem C6_exception_caught_and_recorded (rev : Revision) (U : Utils) (W : World)
    (githubPlugin : ManifestEntry) (webflowPlugins : list WebflowItem)
    (s : State) (err : JsError) :
  fst (processPluginBodyOf rev U W githubPlugin webflowPlugins s) = Thrown err ->
  let process := fun g => processPluginOf rev U W g webflowPlugins in
  let r := process githubPlugin s in
  fst r = Returned tt /\
  (exists caught,
     In caught (err :: enrichmentErrors U W githubPlugin) /\
     failedPlugins (snd r) =
       failedPlugins s ++
         [{| fp_name := gp_name githubPlugin;
             fp_reason := "Webflow or Algolia error: " +:+ getErrorMessage U caught |}]) /\
  createdPlugins (snd r) = createdPlugins s /\
  updatedPlugins (snd r) = updatedPlugins s /\
  deletedPlugins (snd r) = deletedPlugins s /\
  forall batch st,
    fst (promiseAll (map process batch) st) = Returned tt /\
    forall n, handled n (snd (promiseAll (map process batch) st))
              = handled n st + occurrences n (map gp_name batch).
Proof.
  intros H process r. subst r process.
  destruct (body_throw_keeps_report rev U W githubPlugin webflowPlugins s
              (ex_intro _ err H)) as (Hc & Hu & Hd & Hf).
  assert (processPluginOf rev U W githubPlugin webflowPlugins s =
          processPluginCatch U githubPlugin err
            (snd (processPluginBodyOf rev U W githubPlugin webflowPlugins s))) as E.
  { destruct rev; cbn in *;
      unfold Sync.processPlugin, Part000.processPlugin, tryCatch;
      match goal with |- context [match ?b with _ => _ end] => destruct b as [[?|?] ?] end;
      cbn in *; congruence. }
  rewrite E. unfold processPluginCatch, consoleError, pushFailed, modify, bind. cbn.
  rewrite Hc, Hu, Hd, Hf.
  split; [reflexivity|]. split; [exists err; split; [left; reflexivity | reflexivity]|].
  split; [reflexivity|]. split; [reflexivity|]. split; [reflexivity|].
  intros batch st. apply promiseAll_deals_with_all.
Qed.

Lemma C6_exception_caught_and_recorded_witness :
  let process := fun g => processPluginOf SyncPluginsJs Demo.utils
                            Demo.worldIndexRejected g [] in
  let r := process Demo.offline (initState [] 1 ∅) in
  fst r = Returned tt /\
  (exists caught,
     In caught (mkJsError "index unavailable"
                  :: enrichmentErrors Demo.utils Demo.worldIndexRejected Demo.offline) /\
     failedPlugins (snd r) =
       [] ++ [{| fp_name := "serverless-offline";
                 fp_reason := "Webflow or Algolia error: " +:+ message caught |}]) /\
  createdPlugins (snd r) = [] /\
  updatedPlugins (snd r) = [] /\
  deletedPlugins (snd r) = [] /\
  forall batch st,
    fst (promiseAll (map process batch) st) = Returned tt /\
    forall n, handled n (snd (promiseAll (map process batch) st))
              = handled n st + occurrences n (map gp_name batch).
Proof.
  apply (C6_exception_caught_and_recorded SyncPluginsJs Demo.utils
           Demo.worldIndexRejected Demo.offline [] (initState [] 1 ∅)
           (mkJsError "index unavailable")).
  vm_compute. reflexivity.
Defined.

(** ** How a run ends *)

Lemma Sync_deleteOrphans_returns U W githubPlugins webflowPlugins s :
  fst (Sync.deleteOrphans U W githubPlugins webflowPlugins s) = Returned tt.
Proof.
  unfold Sync.deleteOrphans. revert s.
  induction webflowPlugins as [|x l IH]; intros s; [reflexivity|].
  cbn [forOf]. unfold bind.
  destruct (findPluginByName gp_name githubPlugins (webflowName x)).
  - cbn. apply IH.
  - pose proof (processDeletePlugin_returns U W x s) as H.
    destruct (Sync.processDeletePlugin U W x s) as [r s1]. cbn in H. subst r. apply IH.
Qed.

(** In [src/sync-plugins.js], whatever the world rejects and whatever the
    manifest and the listing hold: the batch loop and the orphan pass after
    it return normally.  Every enrichment call and every create, update or
    delete call is made inside the [try] of [processPlugin] or of
    [processDeletePlugin]; none of their rejections reaches the outer
    [catch] of [syncPlugins]. *)
Theorem sync_loops_never_reach_the_outer_catch (U : Utils) (W : World)
    (githubPlugins : list ManifestEntry) (webflowPlugins : list WebflowItem)
    (s : State) :
  fst ((forBatches (fun githubPlugin => Sync.processPlugin U W githubPlugin webflowPlugins)
          (sleep DELAY_MS) githubPlugins 0 ;;;
        Sync.deleteOrphans U W githubPlugins webflowPlugins) s) = Returned tt.
Proof.
  unfold bind.
  pose proof (forBatches_returns SyncPluginsJs U W webflowPlugins githubPlugins s) as Hret.
  cbn [processPluginOf] in Hret.
  destruct (forBatches _ _ githubPlugins 0 s) as [r3 s3]. cbn in Hret. subst r3.
  apply Sync_deleteOrphans_returns.
Qed.

(** In both revisions, a rejected listing ends the run at once: exit code
    1, both stores and the four report lists as they were, and no
    enrichment call and no store call in the trace, which gains only the
    listing calls made and the error printed. *)
Theorem rejected_listing_stops_the_run (rev : Revision) (U : Utils) (W : World)
    (githubPlugins : list ManifestEntry) (s : State) (err : JsError) :
  listAlgoliaFault W = Some err \/
  (listAlgoliaFault W = None /\ listWebflowFault W = Some err) ->
  let r := syncPluginsOf rev U W githubPlugins s in
  fst r = Exit1 /\
  webflow (snd r) = webflow s /\ nextId (snd r) = nextId s /\
  algolia (snd r) = algolia s /\
  createdPlugins (snd r) = createdPlugins s /\
  updatedPlugins (snd r) = updatedPlugins s /\
  deletedPlugins (snd r) = deletedPlugins s /\
  failedPlugins (snd r) = failedPlugins s /\
  exists listings,
    (listings = [EvListAlgolia] \/ listings = [EvListAlgolia; EvListWebflow]) /\
    trace (snd r) =
      trace s ++ listings ++
        [EvError "An error occurred during the sync process:" (message err)].
Proof.
  intros H.
  destruct rev; cbn [syncPluginsOf];
    unfold Sync.syncPlugins, Part000.syncPlugins, orExit,
      Sync.syncPluginsBody, Part000.syncPluginsBody, bind,
      listAlgoliaItems, listWebflowCollectionItems;
    (destruct H as [H | [H1 H2]];
     [ rewrite H; cbn; repeat split;
       exists [EvListAlgolia]; split; [left; reflexivity|];
       rewrite <- app_assoc; reflexivity
     | rewrite H1, H2; cbn; repeat split;
       exists [EvListAlgolia; EvListWebflow]; split; [right; reflexivity|];
       rewrite <- !app_assoc; reflexivity ]).
Qed.

Lemma rejected_listing_stops_the_run_witness :
  let s := initState [Demo.orphanRecord] 3 ∅ in
  let r := syncPluginsOf SyncPluginsJs Demo.utils Samples.worldListingRejected
             [Demo.offline] s in
  fst r = Exit1 /\
  webflow (snd r) = [Demo.orphanRecord] /\ nextId (snd r) = 3 /\
  algolia (snd r) = ∅ /\
  createdPlugins (snd r) = [] /\
  updatedPlugins (snd r) = [] /\
  deletedPlugins (snd r) = [] /\
  failedPlugins (snd r) = [] /\
  exists listings,
    (listings = [EvListAlgolia] \/ listings = [EvListAlgolia; EvListWebflow]) /\
    trace (snd r) =
      [] ++ listings ++
        [EvError "An error occurred during the sync process:" "503 Service Unavailable"].
Proof.
  apply (rejected_listing_stops_the_run SyncPluginsJs Demo.utils
           Samples.worldListingRejected [Demo.offline]
           (initState [Demo.orphanRecord] 3 ∅)
           (mkJsError "503 Service Unavailable")).
  right. split; reflexivity.
Defined.

Lemma filter_snoc {A} (p : A -> bool) l x :
  List.filter p (l ++ [x]) = List.filter p l ++ (if p x then [x] else []).
Proof. rewrite List.filter_app. cbn. destruct (p x); reflexivity. Qed.

Lemma processPluginOf_no_readme rev U W g wps s :
  List.filter isGenerateReadme (trace (snd (processPluginOf rev U W g wps s)))
    = List.filter isGenerateReadme (trace s).
Proof.
  destruct rev; cbn [processPluginOf]; unfold_js; case_js; cbn [snd trace record
    set_failed set_created set_updated set_deleted set_ids set_webflow set_algolia
    set_nextId applyStore]; rewrite ?filter_snoc; cbn [isGenerateReadme];
    rewrite ?app_nil_r; reflexivity.
Qed.

Lemma forOf_cons_run {A} (x : A) (l : list A) (body : A -> M unit) (s : State) :
  forOf (x :: l) body s =
    match body x s with
    | (Returned _, s1) => forOf l body s1
    | (Thrown e, s1) => (Thrown e, s1)
    end.
Proof.
  cbn [forOf]. unfold bind. destruct (body x s) as [[[]|e] s1]; reflexivity.
Qed.

(** The orphan pass of [src/unnamed/part_000] when a deletion is rejected:
    the exception leaves the loop, and nothing of it looks like
    [generateReadme]. *)
Lemma Part000_deleteOrphans_throws W githubPlugins wp :
  findPluginByName gp_name githubPlugins (webflowName wp) = None ->
  storeFault W (DeleteWebflowItem (wf_id wp)) <> None \/
  storeFault W (DeleteAlgoliaItem (fd_slug (wf_fieldData wp))) <> None ->
  forall listing s, In wp listing ->
    (exists e, fst (Part000.deleteOrphans W githubPlugins listing s) = Thrown e) /\
    List.filter isGenerateReadme
      (trace (snd (Part000.deleteOrphans W githubPlugins listing s)))
      = List.filter isGenerateReadme (trace s).
Proof.
  intros Horphan Hfault. unfold Part000.deleteOrphans.
  induction listing as [|x l IH]; intros s Hin; [contradiction|].
  rewrite forOf_cons_run. cbv beta.
  destruct (findPluginByName gp_name githubPlugins (webflowName x)) eqn:E.
  - cbn [ret]. destruct Hin as [-> | Hin]; [congruence|]. apply IH, Hin.
  - unfold_js.
    destruct (storeFault W (DeleteWebflowItem (wf_id x))) eqn:F1;
      [|destruct (storeFault W (DeleteAlgoliaItem (fd_slug (wf_fieldData x)))) eqn:F2].
    + cbn. rewrite !filter_snoc. cbn. rewrite !app_nil_r. eauto.
    + cbn. rewrite !filter_snoc. cbn. rewrite !app_nil_r. eauto.
    + destruct Hin as [-> | Hin].
      * exfalso. destruct Hfault as [H|H]; apply H; assumption.
      * match goal with
        | |- context [forOf l ?F ?st] =>
            destruct (IH st Hin) as [Hex Hf]
        end.
        split; [exact Hex|]. rewrite Hf. cbn. rewrite !filter_snoc. cbn.
        rewrite !app_nil_r. reflexivity.
Qed.

(** In [src/unnamed/part_000], with the listings not rejected: when a
    delete call for some orphan record is rejected, the run ends with exit
    code 1 and [generateReadme] is never called.  ([src/sync-plugins.js]
    completes in the same situation.) *)
Theorem part000_rejected_orphan_deletion_aborts (U : Utils) (W : World)
    (githubPlugins : list ManifestEntry) (s : State) (webflowPlugin : WebflowItem) :
  listAlgoliaFault W = None ->
  listWebflowFault W = None ->
  In webflowPlugin (webflow s) ->
  findPluginByName gp_name githubPlugins (webflowName webflowPlugin) = None ->
  storeFault W (DeleteWebflowItem (wf_id webflowPlugin)) <> None \/
  storeFault W (DeleteAlgoliaItem (fd_slug (wf_fieldData webflowPlugin))) <> None ->
  let r := Part000.syncPlugins U W githubPlugins s in
  fst r = Exit1 /\
  List.filter isGenerateReadme (trace (snd r)) = List.filter isGenerateReadme (trace s).
Proof.
  intros HlA HlW Hin Horphan Hfault.
  unfold Part000.syncPlugins, orExit, Part000.syncPluginsBody, bind,
    listAlgoliaItems, listWebflowCollectionItems, modify.
  rewrite HlA, HlW. cbn [webflow record].
  match goal with
  | |- context [forBatches ?p ?q ?m 0 ?st] =>
      destruct (forBatches_invariant
                  (fun st' => List.filter isGenerateReadme (trace st')
                              = List.filter isGenerateReadme (trace s))
                  p q m) with (n := length m) (i := 0) (s := st) as [Hret Htr];
        [ intros; apply (processPluginOf_returns Part_000)
        | reflexivity
        | intros g st' _ Hst; rewrite <- Hst; apply (processPluginOf_no_readme Part_000)
        | intros st' Hst; cbn; rewrite filter_snoc; cbn; rewrite app_nil_r; exact Hst
        | lia
        | cbn; rewrite !filter_snoc; cbn; rewrite !app_nil_r; reflexivity
        | destruct (forBatches p q m 0 st) as [r3 s3]; cbn in Hret, Htr; subst r3 ]
  end.
  destruct (Part000_deleteOrphans_throws W githubPlugins webflowPlugin Horphan Hfault
              (webflow s) s3 Hin) as [[e He] Hf].
  destruct (Part000.deleteOrphans W githubPlugins (webflow s) s3) as [r4 s4].
  cbn in He, Hf. subst r4. cbn. rewrite filter_snoc. cbn. rewrite app_nil_r.
  split; [reflexivity | congruence].
Qed.

Lemma part000_rejected_orphan_deletion_aborts_witness :
  let r := Part000.syncPlugins Demo.utils Demo.worldDeleteRejected [Demo.offline]
             (initState [Demo.orphanRecord] 3 ∅) in
  fst r = Exit1 /\
  List.filter isGenerateReadme (trace (snd r)) = List.filter isGenerateReadme [].
Proof.
  apply (part000_rejected_orphan_deletion_aborts Demo.utils Demo.worldDeleteRejected
           [Demo.offline] (initState [Demo.orphanRecord] 3 ∅) Demo.orphanRecord);
    try reflexivity.
  - left. reflexivity.
  - left. discriminate.
Defined.

(** ** Stores that part ways *)

(** [processDeletePlugin] of [src/sync-plugins.js] when the content
    collection deletes the record and the index rejects the deletion: the
    record is gone, the index is as it was, and the record's name is in no
    report list. *)
Theorem rejected_index_deletion_keeps_the_object (U : Utils) (W : World)
    (webflowPlugin : WebflowItem) (s : State) (err : JsError) :
  storeFault W (DeleteWebflowItem (wf_id webflowPlugin)) = None ->
  storeFault W (DeleteAlgoliaItem (fd_slug (wf_fieldData webflowPlugin))) = Some err ->
  let r := Sync.processDeletePlugin U W webflowPlugin s in
  fst r = Returned tt /\
  webflow (snd r)
    = List.filter (fun it => negb (Nat.eqb (wf_id it) (wf_id webflowPlugin))) (webflow s) /\
  hasId (wf_id webflowPlugin) (webflow (snd r)) = false /\
  algolia (snd r) = algolia s /\
  deletedPlugins (snd r) = deletedPlugins s /\
  failedPlugins (snd r) = failedPlugins s.
Proof.
  intros H1 H2. unfold_js. use_outcomes. repeat split. apply hasId_filter_out.
Qed.

Lemma rejected_index_deletion_keeps_the_object_witness :
  let index := <["serverless-gone" := Samples.offlineObject]> (∅ : gmap string AlgoliaItem) in
  let r := Sync.processDeletePlugin Demo.utils Samples.worldIndexReadOnly
             Demo.orphanRecord (initState [Demo.offlineRecord; Demo.orphanRecord] 3 index) in
  fst r = Returned tt /\
  webflow (snd r)
    = List.filter (fun it => negb (Nat.eqb (wf_id it) 2))
        [Demo.offlineRecord; Demo.orphanRecord] /\
  hasId 2 (webflow (snd r)) = false /\
  algolia (snd r) = index /\
  deletedPlugins (snd r) = [] /\
  failedPlugins (snd r) = [].
Proof.
  exact (rejected_index_deletion_keeps_the_object Demo.utils Samples.worldIndexReadOnly
           Demo.orphanRecord
           (initState [Demo.offlineRecord; Demo.orphanRecord] 3
              (<["serverless-gone" := Samples.offlineObject]> ∅))
           (mkJsError "index is read-only") eq_refl eq_refl).
Defined.

(** In both revisions: the entry has README content and no record, the
    content collection takes the new record and the index rejects the new
    object.  The record stays in the content collection, the index is as it
    was, and the entry is reported as failed, not as created. *)
Theorem rejected_index_creation_keeps_the_record (rev : Revision) (U : Utils) (W : World)
    (githubPlugin : ManifestEntry) (webflowPlugins : list WebflowItem) (s : State)
    (parsed : option RepoRef) (repoInfo : option RepoInfo) (npmDownloads : option Z)
    (readmeContent : option Readme) (content : string) (err : JsError) :
  findPluginByName webflowName webflowPlugins (gp_name githubPlugin) = None ->
  gitUrlParse U (gp_githubUrl githubPlugin) = Returned parsed ->
  getRepoInfo W (default noRepoRef parsed) = Returned repoInfo ->
  getNpmDownloads W (gp_name githubPlugin) (repo (default noRepoRef parsed))
    = Returned npmDownloads ->
  getReadmeContent W (default noRepoRef parsed) = Returned readmeContent ->
  contentOf readmeContent = Some content ->
  let fieldData := assembleFieldData U githubPlugin repoInfo npmDownloads content in
  let algoliaItem := assembleAlgoliaItem U githubPlugin repoInfo npmDownloads in
  storeFault W (CreateWebflowItem fieldData) = None ->
  storeFault W (CreateAlgoliaItem algoliaItem) = Some err ->
  let r := processPluginOf rev U W githubPlugin webflowPlugins s in
  webflow (snd r) = webflow s ++ [mkWebflowItem (nextId s) None fieldData] /\
  algolia (snd r) = algolia s /\
  createdPlugins (snd r) = createdPlugins s /\
  updatedPlugins (snd r) = updatedPlugins s /\
  failedPlugins (snd r) =
    failedPlugins s ++
      [{| fp_name := gp_name githubPlugin;
          fp_reason := "Webflow or Algolia error: " +:+ getErrorMessage U err |}].
Proof.
  intros Hfind Hparse Hinfo Hnpm Hreadme Hcontent fieldData algoliaItem Hf1 Hf2.
  subst fieldData algoliaItem.
  destruct rev; cbn [processPluginOf]; unfold_js; use_outcomes; repeat split.
Qed.

Lemma rejected_index_creation_keeps_the_record_witness :
  let fieldData :=
    assembleFieldData Demo.utils Demo.offline (Some (Demo.info 10)) (Some 1200%Z) "# Usage" in
  let r := processPluginOf Part_000 Demo.utils Demo.worldIndexRejected Demo.offline
             [] (initState [] 1 ∅) in
  webflow (snd r) = [] ++ [mkWebflowItem 1 None fieldData] /\
  algolia (snd r) = ∅ /\
  createdPlugins (snd r) = [] /\
  updatedPlugins (snd r) = [] /\
  failedPlugins (snd r) =
    [] ++ [{| fp_name := "serverless-offline";
              fp_reason := "Webflow or Algolia error: " +:+ "index unavailable" |}].
Proof.
  apply (rejected_index_creation_keeps_the_record Part_000 Demo.utils
           Demo.worldIndexRejected Demo.offline [] (initState [] 1 ∅)
           (Some (mkRepoRef (Some "github.com") (Some "acme") (Some "serverless-offline")))
           (Some (Demo.info 10)) (Some 1200%Z) (Some (mkReadme (Some "# Usage")))
           "# Usage" (mkJsError "index unavailable"));
    reflexivity.
Defined.

(** In both revisions: the entry has README content and a record, the
    update is attempted (always in [src/unnamed/part_000]; in
    [src/sync-plugins.js] when [isPluginEqual] answers truthy), the content
    collection takes the new fields and the index rejects the object.  The
    record has the new fields, the index is as it was, and the entry is
    reported as failed, not as updated. *)
Theorem rejected_index_update_keeps_the_new_fields (rev : Revision) (U : Utils) (W : World)
    (githubPlugin : ManifestEntry) (webflowPlugins : list WebflowItem) (s : State)
    (webflowPlugin : WebflowItem)
    (parsed : option RepoRef) (repoInfo : option RepoInfo) (npmDownloads : option Z)
    (readmeContent : option Readme) (content : string) (err : JsError) :
  findPluginByName webflowName webflowPlugins (gp_name githubPlugin) = Some webflowPlugin ->
  gitUrlParse U (gp_githubUrl githubPlugin) = Returned parsed ->
  getRepoInfo W (default noRepoRef parsed) = Returned repoInfo ->
  getNpmDownloads W (gp_name githubPlugin) (repo (default noRepoRef parsed))
    = Returned npmDownloads ->
  getReadmeContent W (default noRepoRef parsed) = Returned readmeContent ->
  contentOf readmeContent = Some content ->
  rev = Part_000 \/
    isPluginEqual U githubPlugin (wf_fieldData webflowPlugin) content = true ->
  let fieldData := assembleFieldData U githubPlugin repoInfo npmDownloads content in
  let algoliaItem := assembleAlgoliaItem U githubPlugin repoInfo npmDownloads in
  storeFault W (UpdateWebflowItem (wf_id webflowPlugin) fieldData) = None ->
  storeFault W (UpdateAlgoliaItem algoliaItem) = Some err ->
  let r := processPluginOf rev U W githubPlugin webflowPlugins s in
  webflow (snd r) =
    map (fun it => if Nat.eqb (wf_id it) (wf_id webflowPlugin)
                   then mkWebflowItem (wf_id it) (wf_name it) fieldData else it)
        (webflow s) /\
  algolia (snd r) = algolia s /\
  createdPlugins (snd r) = createdPlugins s /\
  updatedPlugins (snd r) = updatedPlugins s /\
  failedPlugins (snd r) =
    failedPlugins s ++
      [{| fp_name := gp_name githubPlugin;
          fp_reason := "Webflow or Algolia error: " +:+ getErrorMessage U err |}].
Proof.
  intros Hfind Hparse Hinfo Hnpm Hreadme Hcontent Hattempt fieldData algoliaItem Hf1 Hf2.
  subst fieldData algoliaItem.
  destruct rev; cbn [processPluginOf].
  - destruct Hattempt as [Hrev | Hchanged]; [discriminate|].
    unfold_js. use_outcomes. repeat split.
  - unfold_js. use_outcomes. repeat split.
Qed.

Lemma rejected_index_update_keeps_the_new_fields_witness :
  let fieldData :=
    assembleFieldData Demo.utils Demo.offline (Some (Demo.info 10)) (Some 1200%Z) "# Usage" in
  let r := processPluginOf Part_000 Demo.utils Samples.worldIndexReadOnly Demo.offline
             [Demo.offlineRecord] (initState [Demo.offlineRecord] 2 ∅) in
  webflow (snd r) =
    map (fun it => if Nat.eqb (wf_id it) 1
                   then mkWebflowItem (wf_id it) (wf_name it) fieldData else it)
        [Demo.offlineRecord] /\
  algolia (snd r) = ∅ /\
  createdPlugins (snd r) = [] /\
  updatedPlugins (snd r) = [] /\
  failedPlugins (snd r) =
    [] ++ [{| fp_name := "serverless-offline";
              fp_reason := "Webflow or Algolia error: " +:+ "index is read-only" |}].
Proof.
  apply (rejected_index_update_keeps_the_new_fields Part_000 Demo.utils
           Samples.worldIndexReadOnly Demo.offline [Demo.offlineRecord]
           (initState [Demo.offlineRecord] 2 ∅) Demo.offlineRecord
           (Some (mkRepoRef (Some "github.com") (Some "acme") (Some "serverless-offline")))
           (Some (Demo.info 10)) (Some 1200%Z) (Some (mkReadme (Some "# Usage")))
           "# Usage" (mkJsError "index is read-only"));
    try reflexivity.
  left. reflexivity.
Defined.

(** ** An entry whose enrichment fails *)

(** In both revisions: when [gitUrlParse] throws or one of the three
    enrichment calls is rejected, [processPlugin] makes no store call at
    all.  Both stores are as they were (a record the entry had is neither
    updated nor deleted), three of the report lists are unchanged, and the
    failed list gains the entry's name with the message of one of the
    errors thrown. *)
Theorem failed_enrichment_touches_no_store (rev : Revision) (U : Utils) (W : World)
    (githubPlugin : ManifestEntry) (webflowPlugins : list WebflowItem) (s : State) :
  let r := default noRepoRef
             match gitUrlParse U (gp_githubUrl githubPlugin) with
             | Returned parsed => parsed
             | Thrown _ => None
             end in
  let thrown :=
    match gitUrlParse U (gp_githubUrl githubPlugin) with
    | Thrown e => [e]
    | Returned _ =>
        match getRepoInfo W r with Thrown e => [e] | Returned _ => [] end ++
        match getNpmDownloads W (gp_name githubPlugin) (repo r) with
        | Thrown e => [e] | Returned _ => [] end ++
        match getReadmeContent W r with Thrown e => [e] | Returned _ => [] end
    end in
  thrown <> [] ->
  let s' := snd (processPluginOf rev U W githubPlugin webflowPlugins s) in
  webflow s' = webflow s /\ nextId s' = nextId s /\ algolia s' = algolia s /\
  createdPlugins s' = createdPlugins s /\
  updatedPlugins s' = updatedPlugins s /\
  deletedPlugins s' = deletedPlugins s /\
  storeCalls (trace s') = storeCalls (trace s) /\
  exists err,
    In err thrown /\
    failedPlugins s' =
      failedPlugins s ++
        [{| fp_name := gp_name githubPlugin;
            fp_reason := "Webflow or Algolia error: " +:+ getErrorMessage U err |}].
Proof.
  cbv zeta. intros Hthrown.
  destruct rev; cbn [processPluginOf]; unfold_js;
    destruct (gitUrlParse U (gp_githubUrl githubPlugin)) as [parsed|e0];
    cbn -[storeCalls] in *;
    try (destruct (getRepoInfo W (default noRepoRef parsed)) as [?|e1];
         destruct (getNpmDownloads W (gp_name githubPlugin)
                     (repo (default noRepoRef parsed))) as [?|e2];
         destruct (getReadmeContent W (default noRepoRef parsed)) as [?|e3]);
    cbn -[storeCalls] in *; try congruence;
    unfold storeCalls; rewrite ?filter_snoc; cbn; rewrite ?app_nil_r;
    repeat (split; [reflexivity|]); eexists; (split; [|reflexivity]); cbn; auto.
Qed.

Lemma failed_enrichment_touches_no_store_witness :
  let s := initState [Demo.offlineRecord] 2 ∅ in
  let s' := snd (processPluginOf SyncPluginsJs Demo.utils Samples.worldRepoInfoRejected
                   Demo.offline [Demo.offlineRecord] s) in
  webflow s' = [Demo.offlineRecord] /\ nextId s' = 2 /\ algolia s' = ∅ /\
  createdPlugins s' = [] /\
  updatedPlugins s' = [] /\
  deletedPlugins s' = [] /\
  storeCalls (trace s') = storeCalls [] /\
  exists err,
    In err ([mkJsError "502 Bad Gateway"] ++ [] ++ []) /\
    failedPlugins s' =
      [] ++ [{| fp_name := "serverless-offline";
                fp_reason := "Webflow or Algolia error: " +:+ message err |}].
Proof.
  apply (failed_enrichment_touches_no_store SyncPluginsJs Demo.utils
           Samples.worldRepoInfoRejected Demo.offline [Demo.offlineRecord]
           (initState [Demo.offlineRecord] 2 ∅)).
  discriminate.
Defined.

(** ** What the report lists account for *)

Lemma forOf_invariant {A} (P : State -> Prop) (body : A -> M unit) (l : list A) :
  (forall x st, In x l -> P st -> P (snd (body x st))) ->
  forall s, P s -> P (snd (forOf l body s)).
Proof.
  induction l as [|x l IH]; intros Hbody s HP; [exact HP|].
  rewrite forOf_cons_run.
  pose proof (Hbody x s (or_introl eq_refl) HP) as H1.
  destruct (body x s) as [[[]|e] s1]; cbn in H1; [|exact H1].
  apply IH; [|exact H1]. intros y st Hy. apply Hbody. right. exact Hy.
Qed.

(** One entry: nothing is reported (the skipped update of
    [src/sync-plugins.js]), or the entry's name enters exactly one of the
    created, updated and failed lists. *)
Lemma processPluginOf_lists rev U W g wps s :
  let s' := snd (processPluginOf rev U W g wps s) in
  (rev = SyncPluginsJs /\
   createdPlugins s' = createdPlugins s /\ updatedPlugins s' = updatedPlugins s /\
   failedPlugins s' = failedPlugins s) \/
  (createdPlugins s' = createdPlugins s ++ [gp_name g] /\
   updatedPlugins s' = updatedPlugins s /\ failedPlugins s' = failedPlugins s) \/
  (createdPlugins s' = createdPlugins s /\
   updatedPlugins s' = updatedPlugins s ++ [gp_name g] /\
   failedPlugins s' = failedPlugins s) \/
  (createdPlugins s' = createdPlugins s /\ updatedPlugins s' = updatedPlugins s /\
   exists reason, failedPlugins s' = failedPlugins s ++ [mkFailedPlugin (gp_name g) reason]).
Proof.
  destruct rev; cbn [processPluginOf]; unfold_js; case_js; cbn;
    first [ left; repeat split; reflexivity
          | right; left; repeat split; reflexivity
          | right; right; left; repeat split; reflexivity
          | right; right; right; repeat split; eexists; reflexivity ].
Qed.

Lemma processPluginOf_reported rev U W g wps s :
  let s' := snd (processPluginOf rev U W g wps s) in
  (rev = SyncPluginsJs /\ reportedNames s' = reportedNames s) \/
  reportedNames s' ≡ₚ reportedNames s ++ [gp_name g].
Proof.
  cbv zeta. unfold reportedNames.
  destruct (processPluginOf_lists rev U W g wps s)
    as [(Hr & Hc & Hu & Hf) | [(Hc & Hu & Hf) | [(Hc & Hu & Hf) | (Hc & Hu & reason & Hf)]]];
    rewrite Hc, Hu, Hf.
  - left. split; [exact Hr | reflexivity].
  - right. generalize (updatedPlugins s ++ map fp_name (failedPlugins s)). intros rest.
    rewrite <- !app_assoc. apply Permutation_app_head, Permutation_app_comm.
  - right. rewrite <- !app_assoc. apply Permutation_app_head, Permutation_app_head.
    apply Permutation_app_comm.
  - right. rewrite map_app. cbn. rewrite <- !app_assoc. reflexivity.
Qed.

(** One entry deletes a record of the listing, or none. *)
Lemma processPluginOf_deleted rev U W g wps s :
  forall n, In n (deletedPlugins (snd (processPluginOf rev U W g wps s))) ->
    In n (deletedPlugins s) \/ In n (map webflowName wps).
Proof.
  intros n.
  destruct rev; cbn [processPluginOf]; unfold_js; case_js; cbn;
    try match goal with
        | H : findPluginByName _ _ _ = Some _ |- _ =>
            apply findPluginByName_Some in H as [Hin _];
            apply (in_map webflowName) in Hin
        end;
    rewrite ?in_app_iff; cbn; intuition (subst; auto).
Qed.

(** A run whose listings resolve: the batch loop, then the orphan pass
    and [generateReadme] under the outer [catch]. *)
Lemma syncPluginsOf_run rev U W githubPlugins s :
  listAlgoliaFault W = None ->
  listWebflowFault W = None ->
  syncPluginsOf rev U W githubPlugins s =
    orExit (deleteOrphansOf rev U W githubPlugins (webflow s) ;;; generateReadme W)
      (snd (forBatches (fun g => processPluginOf rev U W g (webflow s))
              (sleep DELAY_MS) githubPlugins 0 (afterListings s))).
Proof.
  intros HlA HlW.
  pose proof (forBatches_returns rev U W (webflow s) githubPlugins (afterListings s)) as Hret.
  destruct rev; cbn [syncPluginsOf processPluginOf deleteOrphansOf] in *;
    unfold Sync.syncPlugins, Part000.syncPlugins, Sync.syncPluginsBody,
      Part000.syncPluginsBody, orExit, bind, listAlgoliaItems,
      listWebflowCollectionItems, modify;
    rewrite HlA, HlW; cbn [webflow record]; fold (afterListings s);
    match type of Hret with
    | fst ?c = _ => destruct c as [r3 s3]
    end; cbn in Hret; subst r3; reflexivity.
Qed.

(** The orphan pass of either revision reports nothing as created, updated
    or failed, and deletes records of the listing only. *)
Lemma deleteOrphans_lists rev U W githubPlugins webflowPlugins s :
  let r := deleteOrphansOf rev U W githubPlugins webflowPlugins s in
  reportedNames (snd r) = reportedNames s /\
  forall n, In n (deletedPlugins (snd r)) ->
    In n (deletedPlugins s) \/ In n (map webflowName webflowPlugins).
Proof.
  cbv zeta.
  set (P := fun st : State =>
    reportedNames st = reportedNames s /\
    forall n, In n (deletedPlugins st) ->
      In n (deletedPlugins s) \/ In n (map webflowName webflowPlugins)).
  assert (HP : P s) by (split; [reflexivity | auto]).
  destruct rev; cbn [deleteOrphansOf];
    unfold Sync.deleteOrphans, Part000.deleteOrphans;
    apply (forOf_invariant P); try exact HP;
    intros x st Hx [HR HD];
    assert (Hnm : In (webflowName x) (map webflowName webflowPlugins))
      by (apply in_map, Hx);
    unfold P, reportedNames in *; unfold_js; case_js; cbn;
    (split; [exact HR|]); intros n; rewrite ?in_app_iff; cbn;
    intros Hn;
    first [ apply HD, Hn
          | destruct Hn as [Hn | [<- | []]]; [apply HD, Hn | right; exact Hnm] ].
Qed.

(** In both revisions, from stores in any condition and with both listings
    resolved: the names in the created, updated and failed lists, taken
    together and with their repetitions, are manifest names, each reported
    at most as often as the manifest has it; in [src/unnamed/part_000] they
    are exactly the names of the manifest.  The deleted list names records
    of the listing only.  This holds however the run ends. *)
Theorem report_accounts_for_the_manifest (rev : Revision) (U : Utils) (W : World)
    (githubPlugins : list ManifestEntry) (items : list WebflowItem) (next : nat)
    (index : gmap string AlgoliaItem) :
  listAlgoliaFault W = None ->
  listWebflowFault W = None ->
  let s' := snd (syncPluginsOf rev U W githubPlugins (initState items next index)) in
  reportedNames s' ⊆+ map gp_name githubPlugins /\
  (rev = Part_000 -> reportedNames s' ≡ₚ map gp_name githubPlugins) /\
  (forall n, In n (deletedPlugins s') -> In n (map webflowName items)).
Proof.
  intros HlA HlW. cbv zeta.
  rewrite (syncPluginsOf_run rev U W githubPlugins _ HlA HlW).
  cbn [initState webflow].
  set (process := fun g => processPluginOf rev U W g items).
  set (Q := fun (done : list ManifestEntry) (st : State) =>
    reportedNames st ⊆+ map gp_name done /\
    (rev = Part_000 -> reportedNames st ≡ₚ map gp_name done) /\
    (forall n, In n (deletedPlugins st) -> In n (map webflowName items))).
  assert (Hloop : Q githubPlugins
    (snd (forBatches process (sleep DELAY_MS) githubPlugins 0
            (afterListings (mkState items next index [] [] [] [] ∅ []))))).
  { apply (forBatches_prefixes Q process (sleep DELAY_MS) githubPlugins)
      with (n := length githubPlugins); try (reflexivity || lia).
    - intros g st. apply processPluginOf_returns.
    - intros done g todo st _ (Hsub & Hperm & Hdel). unfold Q, process.
      rewrite map_app. cbn [map].
      split; [|split].
      + destruct (processPluginOf_reported rev U W g items st) as [[_ ->] | ->].
        * etransitivity; [exact Hsub|]. apply submseteq_inserts_r. reflexivity.
        * apply submseteq_app; [exact Hsub | reflexivity].
      + intros Hrev.
        destruct (processPluginOf_reported rev U W g items st) as [[Hr _] | ->].
        * congruence.
        * rewrite (Hperm Hrev). reflexivity.
      + intros n Hn.
        destruct (processPluginOf_deleted rev U W g items st n Hn) as [H|H];
          [apply Hdel, H | exact H].
    - intros done st HQ. exact HQ.
    - unfold Q, reportedNames. cbn.
      split; [reflexivity|]. split; [reflexivity|]. intros n []. }
  destruct Hloop as (Hsub & Hperm & Hdel).
  match goal with
  | |- context [orExit _ ?st] => set (s3 := st) in *
  end.
  pose proof (deleteOrphans_lists rev U W githubPlugins items s3) as [HR HD].
  cbv zeta in HR, HD. unfold orExit, bind, generateReadme.
  destruct (deleteOrphansOf rev U W githubPlugins items s3) as [[[]|e] s4];
    cbn in HR, HD;
    [destruct (generateReadmeFault W)|]; cbn;
    change (reportedNames s4 ⊆+ map gp_name githubPlugins
            /\ (rev = Part_000 -> reportedNames s4 ≡ₚ map gp_name githubPlugins)
            /\ (forall n, In n (deletedPlugins s4) -> In n (map webflowName items)));
    rewrite HR;
    (split; [exact Hsub|]); (split; [exact Hperm|]);
    intros n Hn; destruct (HD n Hn) as [H|H]; auto.
Qed.

Lemma report_accounts_for_the_manifest_witness :
  let s' := snd (syncPluginsOf Part_000 Demo.utils (Demo.world 10) Demo.twelve
                   (initState [Demo.orphanRecord] 3 ∅)) in
  reportedNames s' ⊆+ map gp_name Demo.twelve /\
  (Part_000 = Part_000 -> reportedNames s' ≡ₚ map gp_name Demo.twelve) /\
  (forall n, In n (deletedPlugins s') -> In n (map webflowName [Demo.orphanRecord])).
Proof.
  apply (report_accounts_for_the_manifest Part_000 Demo.utils (Demo.world 10)
           Demo.twelve [Demo.orphanRecord] 3 ∅); reflexivity.
Defined.

(** ** A plugin renamed in the manifest *)



(** ** The first run on an empty content collection *)

(** One entry against an empty listing, no store call rejected: an entry
    with README content gets a new record and is reported as created; any
    other is reported as failed and leaves the collection as it was. *)
Lemma processPluginOf_on_empty rev U W g s :
  (forall c, storeFault W c = None) ->
  let s' := snd (processPluginOf rev U W g [] s) in
  (if hasContent (planOf U W g)
   then createdPlugins s' = createdPlugins s ++ [gp_name g] /\
        length (webflow s') = S (length (webflow s)) /\
        map fp_name (failedPlugins s') = map fp_name (failedPlugins s)
   else createdPlugins s' = createdPlugins s /\
        length (webflow s') = length (webflow s) /\
        map fp_name (failedPlugins s') = map fp_name (failedPlugins s) ++ [gp_name g]) /\
  updatedPlugins s' = updatedPlugins s /\
  deletedPlugins s' = deletedPlugins s.
Proof.
  intros Hok. cbv zeta. unfold planOf.
  destruct rev; cbn [processPluginOf]; unfold_js; cbn [findPluginByName List.find];
    destruct (gitUrlParse U (gp_githubUrl g)) as [parsed|e0]; cbn;
    try (destruct (getRepoInfo W (default noRepoRef parsed)) as [?|e1];
         destruct (getNpmDownloads W (gp_name g)
                     (repo (default noRepoRef parsed))) as [?|e2];
         destruct (getReadmeContent W (default noRepoRef parsed)) as [r|e3]; cbn;
         try destruct (contentOf r); cbn);
    rewrite ?Hok; cbn; rewrite ?Hok; cbn;
    rewrite ?map_app, ?length_app; cbn; repeat split; lia.
Qed.

(** In both revisions, on an empty content collection, nothing rejected:
    every manifest entry is looked up in the listing taken before the
    batch loop, which is empty.  So every entry with README content gets a
    new record, a name the manifest has twice gets two; the created list
    holds the names of these entries and the failed list those of the
    others, in some order; nothing is updated or deleted. *)
Theorem first_run_on_an_empty_collection (rev : Revision) (U : Utils) (W : World)
    (githubPlugins : list ManifestEntry) (next : nat) (index : gmap string AlgoliaItem) :
  (forall c, storeFault W c = None) ->
  listAlgoliaFault W = None ->
  listWebflowFault W = None ->
  let s' := snd (syncPluginsOf rev U W githubPlugins (initState [] next index)) in
  createdPlugins s' ≡ₚ
    map gp_name (List.filter (fun g => hasContent (planOf U W g)) githubPlugins) /\
  map fp_name (failedPlugins s') ≡ₚ
    map gp_name (List.filter (fun g => negb (hasContent (planOf U W g))) githubPlugins) /\
  length (webflow s') = length (createdPlugins s') /\
  updatedPlugins s' = [] /\
  deletedPlugins s' = [].
Proof.
  intros Hok HlA HlW. cbv zeta.
  rewrite (syncPluginsOf_run rev U W githubPlugins _ HlA HlW).
  cbn [initState webflow].
  set (Q := fun (done : list ManifestEntry) (st : State) =>
    createdPlugins st ≡ₚ
      map gp_name (List.filter (fun g => hasContent (planOf U W g)) done) /\
    map fp_name (failedPlugins st) ≡ₚ
      map gp_name (List.filter (fun g => negb (hasContent (planOf U W g))) done) /\
    length (webflow st) = length (createdPlugins st) /\
    updatedPlugins st = [] /\
    deletedPlugins st = []).
  assert (Hloop : Q githubPlugins
    (snd (forBatches (fun g => processPluginOf rev U W g []) (sleep DELAY_MS)
            githubPlugins 0 (afterListings (mkState [] next index [] [] [] [] ∅ []))))).
  { apply (forBatches_prefixes Q (fun g => processPluginOf rev U W g [])
             (sleep DELAY_MS) githubPlugins)
      with (n := length githubPlugins); try (reflexivity || lia).
    - intros g st. apply processPluginOf_returns.
    - intros done g todo st _ (Hc & Hf & Hw & Hu & Hd). unfold Q.
      destruct (processPluginOf_on_empty rev U W g st Hok) as (Hcase & Hu' & Hd').
      rewrite !List.filter_app, !map_app. cbn [List.filter].
      destruct (hasContent (planOf U W g)); cbn [negb map];
        destruct Hcase as (Hc' & Hw' & Hf');
        rewrite Hc', Hf', Hu', Hd', Hw', ?app_nil_r, ?length_app; cbn [length];
        (split; [rewrite Hc; reflexivity|]); (split; [rewrite Hf; reflexivity|]);
        (split; [lia|]); split; assumption.
    - intros done st HQ. exact HQ.
    - unfold Q. cbn. repeat split; reflexivity. }
  unfold orExit, bind, generateReadme.
  destruct rev; cbn [deleteOrphansOf];
    unfold Sync.deleteOrphans, Part000.deleteOrphans; cbn [forOf ret];
    destruct (generateReadmeFault W); exact Hloop.
Qed.

Lemma first_run_on_an_empty_collection_witness :
  let s' := snd (syncPluginsOf SyncPluginsJs Demo.utils (Demo.world 10)
                   [Demo.offline; Demo.offline] (initState [] 1 ∅)) in
  createdPlugins s' ≡ₚ
    map gp_name (List.filter (fun g => hasContent (planOf Demo.utils (Demo.world 10) g))
                   [Demo.offline; Demo.offline]) /\
  map fp_name (failedPlugins s') ≡ₚ
    map gp_name (List.filter (fun g => negb (hasContent (planOf Demo.utils (Demo.world 10) g)))
                   [Demo.offline; Demo.offline]) /\
  length (webflow s') = length (createdPlugins s') /\
  updatedPlugins s' = [] /\
  deletedPlugins s' = [].
Proof.
  apply (first_run_on_an_empty_collection SyncPluginsJs Demo.utils (Demo.world 10)
           [Demo.offline; Demo.offline] 1 ∅); reflexivity.
Defined.

(** ** The report *)

Lemma includes_app_r search a b : includes search b = true -> includes search (a +:+ b) = true.
Proof.
  intros H. induction a as [|c a IH]; [exact H|].
  change (includes search (String c a +:+ b))
    with (String.prefix search (String c (a +:+ b)) || includes search (a +:+ b)).
  rewrite IH. apply orb_true_r.
Qed.

Lemma prefix_app search rest : String.prefix search (search +:+ rest) = true.
Proof.
  induction search as [|c search IH]; [destruct rest; reflexivity|].
  simpl. destruct (ascii_dec c c); [exact IH | congruence].
Qed.

Lemma includes_prefix search s : String.prefix search s = true -> includes search s = true.
Proof.
  intros H. destruct s as [|c s];
    [ change (includes search "") with (String.prefix search "" || false)
    | change (includes search (String c s))
        with (String.prefix search (String c s) || includes search s) ];
    rewrite H; reflexivity.
Qed.

Lemma includes_middle search a b : includes search (a +:+ search +:+ b) = true.
Proof. apply includes_app_r, includes_prefix, prefix_app. Qed.

Lemma prefix_app_l search a b :
  String.prefix search a = true -> String.prefix search (a +:+ b) = true.
Proof.
  revert a. induction search as [|c search IH]; intros a H.
  - destruct (a +:+ b); reflexivity.
  - destruct a as [|d a]; [discriminate|].
    simpl in *. destruct (ascii_dec c d); [apply IH, H | discriminate].
Qed.

Lemma includes_app_l search a b : includes search a = true -> includes search (a +:+ b) = true.
Proof.
  induction a as [|c a IH]; intros H.
  - apply includes_prefix. apply (prefix_app_l search "" b).
    destruct search; [reflexivity | discriminate].
  - change (includes search (String c a)) with
      (String.prefix search (String c a) || includes search a) in H.
    apply orb_true_iff in H as [H|H].
    + apply includes_prefix. apply (prefix_app_l search (String c a) b), H.
    + change (includes search (String c a +:+ b))
        with (String.prefix search (String c (a +:+ b)) || includes search (a +:+ b)).
      rewrite (IH H). apply orb_true_r.
Qed.

Lemma includes_refl search : includes search search = true.
Proof.
  apply includes_prefix. induction search as [|c search IH]; [reflexivity|].
  simpl. destruct (ascii_dec c c); [exact IH | congruence].
Qed.

Lemma includes_join sep (item : string) (l : list string) :
  In item l -> includes item (join sep l) = true.
Proof.
  unfold join. induction l as [|x l IH]; intros Hin; [contradiction|].
  destruct l as [|y l].
  - destruct Hin as [->|[]]. apply includes_refl.
  - change (String.concat sep (x :: y :: l))
      with (x +:+ sep +:+ String.concat sep (y :: l)).
    destruct Hin as [->|Hin].
    + apply includes_app_l, includes_refl.
    + apply includes_app_r, includes_app_r, IH, Hin.
Qed.

Lemma includes_itemize {A} (item : A -> string) (l : list A) (x : A) :
  In x l -> includes (item x) (itemize item l) = true.
Proof.
  intros Hin. unfold itemize. destruct l as [|y l]; [contradiction|].
  cbn [length Nat.ltb Nat.leb]. apply includes_join, in_map, Hin.
Qed.

(** In both copies, whatever the report lists hold: the report contains
    the heading and does not start with it (it starts with a line
    feed). *)
Theorem report_contains_its_heading_but_does_not_start_with_it (s : State) :
  includes "## Sync Report" (Part000Report.generateReport s) = true /\
  startsWith "## Sync Report" (Part000Report.generateReport s) = false /\
  includes "## Sync Report" (Older.generateReport s) = true /\
  startsWith "## Sync Report" (Older.generateReport s) = false.
Proof. repeat split. Qed.

(** The report of [src/unnamed/part_000] prints every failure, the name
    in bold and the reason in backticks, and every created and every
    deleted name. *)
Theorem part000_report_itemises_the_lists (s : State) :
  (forall plugin, In plugin (failedPlugins s) ->
     includes ("  - **" +:+ fp_name plugin +:+ "**: `" +:+ fp_reason plugin +:+ "`")
       (Part000Report.generateReport s) = true) /\
  (forall plugin, In plugin (createdPlugins s) ->
     includes ("  - " +:+ plugin) (Part000Report.generateReport s) = true) /\
  (forall plugin, In plugin (deletedPlugins s) ->
     includes ("  - " +:+ plugin) (Part000Report.generateReport s) = true).
Proof.
  unfold Part000Report.generateReport, reportText.
  split; [|split]; intros plugin Hin.
  - do 22 apply includes_app_r. apply includes_app_l.
    apply (includes_itemize
             (fun plugin => "  - **" +:+ fp_name plugin +:+ "**: `" +:+ fp_reason plugin +:+ "`")
             _ plugin Hin).
  - do 7 apply includes_app_r. apply includes_app_l.
    apply (includes_itemize (fun plugin => "  - " +:+ plugin) _ plugin Hin).
  - do 16 apply includes_app_r. apply includes_app_l.
    apply (includes_itemize (fun plugin => "  - " +:+ plugin) _ plugin Hin).
Qed.

(** ** Posting the report *)

Lemma find_first {A} (p : A -> bool) (l : list A) (x : A) :
  In x l -> p x = true -> exists y, List.find p l = Some y /\ In y l /\ p y = true.
Proof.
  intros Hin Hp. destruct (List.find p l) as [y|] eqn:E.
  - exists y. apply List.find_some in E as [H1 H2]. auto.
  - exfalso. pose proof (List.find_none p l E x Hin) as H. congruence.
Qed.

(** A post on a thread that is listed in full and has a comment the test
    accepts: no comment is added, and a comment carries the report. *)
Lemma postReport_updates isReport O report t c :
  listComments O t = Returned (comments t) ->
  (forall i body, updateCommentFault O i body = None) ->
  In c (comments t) -> isReport (comment_body c) = true ->
  fst (postReport isReport O report t) = Returned "Report updated on the PR successfully." /\
  length (comments (snd (postReport isReport O report t))) = length (comments t) /\
  nextCommentId (snd (postReport isReport O report t)) = nextCommentId t /\
  exists c', In c' (comments (snd (postReport isReport O report t))) /\
             comment_body c' = report.
Proof.
  intros Hlist Hupd Hin Hc. unfold postReport. rewrite Hlist.
  destruct (find_first (fun comment => isReport (comment_body comment)) (comments t) c Hin Hc)
    as (y & -> & Hy & _).
  rewrite Hupd. cbn. rewrite length_map. repeat split.
  exists (mkComment (comment_id y) report). split; [|reflexivity].
  apply in_map_iff. exists y. rewrite Nat.eqb_refl. auto.
Qed.

(** A post on a thread that is listed in full and has no comment the test
    accepts: the report goes to the end of the thread as a new comment. *)
Lemma postReport_creates isReport O report t :
  listComments O t = Returned (comments t) ->
  createCommentFault O report = None ->
  (forall c, In c (comments t) -> isReport (comment_body c) = false) ->
  postReport isReport O report t =
    (Returned "Report posted to the PR successfully.", createComment report t).
Proof.
  intros Hlist Hnew Hnone. unfold postReport. rewrite Hlist.
  destruct (List.find _ (comments t)) as [y|] eqn:E.
  - apply List.find_some in E as [H1 H2]. rewrite (Hnone y H1) in H2. discriminate.
  - rewrite Hnew. reflexivity.
Qed.

(** In [src/unnamed/part_000], when [listComments] answers with the whole
    thread and no call is rejected: the first report adds at most one
    comment, and the report of a later run replaces an earlier comment
    instead of adding one. *)
Theorem part000_second_report_replaces_the_first (O : Octokit) (t : Thread)
    (s1 s2 : State) :
  (forall t', listComments O t' = Returned (comments t')) ->
  (forall i body, updateCommentFault O i body = None) ->
  (forall body, createCommentFault O body = None) ->
  let t1 := snd (Part000Report.postReportToPR O (Part000Report.generateReport s1) t) in
  let r2 := Part000Report.postReportToPR O (Part000Report.generateReport s2) t1 in
  length (comments t1) <= S (length (comments t)) /\
  fst r2 = Returned "Report updated on the PR successfully." /\
  length (comments (snd r2)) = length (comments t1) /\
  exists c, In c (comments (snd r2)) /\ comment_body c = Part000Report.generateReport s2.
Proof.
  intros Hlist Hupd Hnew t1 r2.
  assert (H1 : length (comments t1) <= S (length (comments t)) /\
               exists c, In c (comments t1) /\
                         includes "## Sync Report" (comment_body c) = true).
  { subst t1. unfold Part000Report.postReportToPR, postReport.
    rewrite Hlist.
    destruct (List.find _ (comments t)) as [y|] eqn:E.
    - rewrite Hupd. cbn. rewrite length_map. split; [lia|].
      apply List.find_some in E as [Hy _].
      exists (mkComment (comment_id y) (Part000Report.generateReport s1)).
      split; [|reflexivity].
      apply in_map_iff. exists y. rewrite Nat.eqb_refl. auto.
    - rewrite Hnew. cbn. rewrite length_app. cbn. split; [lia|].
      exists (mkComment (nextCommentId t) (Part000Report.generateReport s1)).
      split; [apply in_app_iff; right; left; reflexivity | reflexivity]. }
  destruct H1 as [Hlen (c & Hc & Hinc)].
  destruct (postReport_updates (includes "## Sync Report") O
              (Part000Report.generateReport s2) t1 c (Hlist t1) Hupd Hc Hinc)
    as (Hret & Hlen2 & _ & Hex).
  repeat split; assumption.
Qed.

Lemma part000_second_report_replaces_the_first_witness :
  let t1 := snd (Part000Report.postReportToPR Samples.octokit
                   (Part000Report.generateReport Samples.reportLists) Samples.thread) in
  let r2 := Part000Report.postReportToPR Samples.octokit
              (Part000Report.generateReport (initState [] 1 ∅)) t1 in
  length (comments t1) <= S (length (comments Samples.thread)) /\
  fst r2 = Returned "Report updated on the PR successfully." /\
  length (comments (snd r2)) = length (comments t1) /\
  exists c, In c (comments (snd r2)) /\
            comment_body c = Part000Report.generateReport (initState [] 1 ∅).
Proof.
  apply (part000_second_report_replaces_the_first Samples.octokit Samples.thread
           Samples.reportLists (initState [] 1 ∅)); reflexivity.
Defined.

(** In the older copy, when [listComments] answers with the whole thread,
    no call is rejected and no comment of the thread starts with the
    heading: every report becomes a new comment, the one of a later run
    next to the one of the run before, because no report starts with the
    heading the copy looks for. *)
Theorem older_report_is_posted_again (O : Octokit) (t : Thread) (s1 s2 : State) :
  (forall t', listComments O t' = Returned (comments t')) ->
  (forall body, createCommentFault O body = None) ->
  (forall c, In c (comments t) -> startsWith "## Sync Report" (comment_body c) = false) ->
  let t1 := snd (Older.postReportToPR O (Older.generateReport s1) t) in
  let t2 := snd (Older.postReportToPR O (Older.generateReport s2) t1) in
  comments t2 =
    comments t ++ [mkComment (nextCommentId t) (Older.generateReport s1);
                   mkComment (S (nextCommentId t)) (Older.generateReport s2)].
Proof.
  intros Hlist Hnew Hnone t1 t2. subst t2 t1. unfold Older.postReportToPR.
  rewrite (postReport_creates _ O _ t (Hlist t) (Hnew _) Hnone).
  cbn [snd].
  rewrite postReport_creates.
  - cbn. rewrite <- app_assoc. reflexivity.
  - apply Hlist.
  - apply Hnew.
  - cbn [createComment comments]. intros c Hc. apply in_app_iff in Hc as [Hc | [<- | []]].
    + apply Hnone, Hc.
    + reflexivity.
Qed.

Lemma older_report_is_posted_again_witness :
  let t1 := snd (Older.postReportToPR Samples.octokit
                   (Older.generateReport Samples.reportLists) Samples.thread) in
  let t2 := snd (Older.postReportToPR Samples.octokit
                   (Older.generateReport Samples.reportLists) t1) in
  comments t2 =
    comments Samples.thread ++
      [mkComment 8 (Older.generateReport Samples.reportLists);
       mkComment 9 (Older.generateReport Samples.reportLists)].
Proof.
  apply (older_report_is_posted_again Samples.octokit Samples.thread
           Samples.reportLists Samples.reportLists); try reflexivity.
  intros c [<- | []]. reflexivity.
Defined.

(** In [src/unnamed/part_000]: the thread of the pull request is touched
    only when the run is for a pull request and the synchronisation itself
    got through; a run that ends in the outer [catch] before the report
    posts nothing. *)
Theorem part000_report_needs_a_pull_request_and_a_finished_sync (U : Utils) (W : World)
    (O : Octokit) (eventName : option string) (githubPlugins : list ManifestEntry)
    (s : State) (t : Thread) :
  eventName <> Some "pull_request" \/
  fst (Part000.syncPlugins U W githubPlugins s) = Exit1 ->
  let r := Part000Report.syncPlugins U W O eventName githubPlugins s t in
  snd r = t /\
  fst (fst r) = fst (Part000.syncPlugins U W githubPlugins s).
Proof.
  intros H. unfold Part000Report.syncPlugins, reportAndExit, Part000.syncPlugins, orExit in *.
  destruct (Part000.syncPluginsBody U W githubPlugins s) as [[[]|e] s1]; cbn in *;
    [|split; reflexivity].
  destruct H as [H|H]; [|discriminate].
  destruct eventName as [ev|]; [|split; reflexivity].
  cbn [isEvent].
  destruct (String.eqb_spec ev "pull_request") as [->|Hne]; [congruence|].
  split; reflexivity.
Qed.

Lemma part000_report_needs_a_pull_request_and_a_finished_sync_witness :
  let r := Part000Report.syncPlugins Demo.utils (Demo.world 10) Samples.octokit
             (Some "push") [Demo.offline] (initState [] 1 ∅) Samples.thread in
  snd r = Samples.thread /\
  fst (fst r) = fst (Part000.syncPlugins Demo.utils (Demo.world 10) [Demo.offline]
                       (initState [] 1 ∅)).
Proof.
  apply (part000_report_needs_a_pull_request_and_a_finished_sync Demo.utils
           (Demo.world 10) Samples.octokit (Some "push") [Demo.offline]
           (initState [] 1 ∅) Samples.thread).
  left. discriminate.
Defined.

(** ** The older copy and its [sleep] *)

Lemma Older_processPlugin_returns U W g wps s :
  fst (Older.processPlugin U W g wps s) = Returned tt.
Proof. unfold Older.processPlugin. unfold_js. case_js; reflexivity. Qed.

(** [processPlugin] of the older copy makes no delete call and reports
    nothing as deleted. *)
Lemma Older_processPlugin_no_delete U W g wps s :
  let s' := snd (Older.processPlugin U W g wps s) in
  deletedPlugins s' = deletedPlugins s /\
  List.filter isDeleteCall (trace s') = List.filter isDeleteCall (trace s).
Proof.
  unfold Older.processPlugin. unfold_js. case_js; cbn [snd];
    cbn [deletedPlugins trace record set_failed set_created set_updated set_ids
         set_webflow set_algolia set_nextId applyStore];
    rewrite ?filter_snoc; cbn [isDeleteCall]; rewrite ?app_nil_r; split; reflexivity.
Qed.

Lemma runAll_invariant (P : State -> Prop) (process : ManifestEntry -> M unit) :
  (forall g st, P st -> P (snd (process g st))) ->
  forall batch s, P s -> P (runAll process batch s).
Proof.
  intros Hstep. induction batch as [|g batch IH]; intros s HP; [exact HP|].
  change (runAll process (g :: batch) s) with (runAll process batch (snd (process g s))).
  apply IH, Hstep, HP.
Qed.

Lemma handled_afterListings n s : handled n (afterListings s) = handled n s.
Proof.
  unfold handled, afterListings.
  cbn [createdPlugins updatedPlugins failedPlugins trace record set_ids].
  rewrite !skips_snoc. cbn [isSkipOf]. lia.
Qed.

(** In the older copy, with both listings resolved.  A manifest of more
    than [BATCH_SIZE] entries: the run ends with exit code 1, the last
    thing it prints being the error of the unbound [sleep]; the comments of
    the pull request are as they were; no delete call was made and nothing
    is reported as deleted; and the entries that were dealt with are those
    of the first batch, each once.  A manifest of at most [BATCH_SIZE]
    entries: [sleep] is never evaluated, the batch loop returns normally
    and deals with every entry once. *)
Theorem older_copy_stops_at_the_first_pause (U : Utils) (W : World) (O : Octokit)
    (eventName : option string) (githubPlugins : list ManifestEntry)
    (s : State) (t : Thread) :
  listAlgoliaFault W = None ->
  listWebflowFault W = None ->
  (BATCH_SIZE < length githubPlugins ->
     let r := Older.syncPlugins U W O eventName githubPlugins s t in
     fst (fst r) = Exit1 /\
     snd r = t /\
     (exists before,
        trace (snd (fst r)) =
          before ++ [EvError "An error occurred during the sync process:"
                             "sleep is not defined"]) /\
     List.filter isDeleteCall (trace (snd (fst r))) = List.filter isDeleteCall (trace s) /\
     deletedPlugins (snd (fst r)) = deletedPlugins s /\
     forall n, handled n (snd (fst r))
               = handled n s + occurrences n (map gp_name (firstn BATCH_SIZE githubPlugins))) /\
  (length githubPlugins <= BATCH_SIZE ->
     forall webflowPlugins st,
       let r := forBatches (fun g => Older.processPlugin U W g webflowPlugins)
                  Older.sleepUnbound githubPlugins 0 st in
       fst r = Returned tt /\
       forall n, handled n (snd r) = handled n st + occurrences n (map gp_name githubPlugins)).
Proof.
  intros HlA HlW.
  split; intros Hlen.
  - set (process := fun g => Older.processPlugin U W g (webflow s)).
    assert (Hrun :
      Older.syncPlugins U W O eventName githubPlugins s t =
        (Exit1,
         record (EvError "An error occurred during the sync process:" "sleep is not defined")
           (runAll process (firstn BATCH_SIZE githubPlugins) (afterListings s)),
         t)).
    { assert (Hhead :
        Older.syncPluginsBody U W githubPlugins s
        = (forBatches process Older.sleepUnbound githubPlugins 0 ;;;
           Part000.deleteOrphans W githubPlugins (webflow s)) (afterListings s)).
      { unfold Older.syncPluginsBody, bind, listAlgoliaItems, listWebflowCollectionItems,
          modify.
        rewrite HlA, HlW. reflexivity. }
      unfold Older.syncPlugins, reportAndExit. rewrite Hhead.
      unfold bind at 1. rewrite forBatches_step.
      rewrite (proj2 (Nat.ltb_lt 0 (length githubPlugins))) by lia.
      unfold bind at 1.
      rewrite promiseAll_runAll by (intros; apply Older_processPlugin_returns).
      cbn [Nat.add]. rewrite (proj2 (Nat.ltb_lt BATCH_SIZE (length githubPlugins)) Hlen).
      unfold bind at 1. cbn. reflexivity. }
    cbv zeta. rewrite Hrun. cbn [fst snd].
    set (P := fun st : State =>
      deletedPlugins st = deletedPlugins s /\
      List.filter isDeleteCall (trace st) = List.filter isDeleteCall (trace s)).
    assert (HP : P (runAll process (firstn BATCH_SIZE githubPlugins) (afterListings s))).
    { apply runAll_invariant.
      - intros g st [H1 H2].
        destruct (Older_processPlugin_no_delete U W g (webflow s) st) as [H3 H4].
        cbv zeta in H3, H4. unfold P, process.
        split; [rewrite H3; exact H1 | rewrite H4; exact H2].
      - unfold P. split; [reflexivity|]. unfold afterListings. cbn [trace record set_ids].
        rewrite !filter_snoc. cbn [isDeleteCall]. rewrite !app_nil_r. reflexivity. }
    destruct HP as [Hd Hc].
    split; [reflexivity|]. split; [reflexivity|].
    split; [eexists; apply trace_record|].
    split; [rewrite trace_record, filter_snoc; cbn [isDeleteCall];
            rewrite app_nil_r; exact Hc|].
    split; [exact Hd|].
    intros n. rewrite <- (handled_afterListings n s).
    rewrite <- (runAll_handled process n
                  (fun g st => Older_processPlugin_handled U W g (webflow s) st n)).
    unfold handled. cbn [createdPlugins updatedPlugins failedPlugins trace record].
    rewrite skips_snoc. cbn [isSkipOf]. lia.
  - intros webflowPlugins st. cbv zeta.
    set (process := fun g => Older.processPlugin U W g webflowPlugins).
    assert (Hrun : forBatches process Older.sleepUnbound githubPlugins 0 st =
                   (Returned tt, runAll process githubPlugins st)).
    { rewrite forBatches_step.
      destruct githubPlugins as [|g0 rest]; [reflexivity|].
      rewrite (proj2 (Nat.ltb_lt 0 (length (g0 :: rest)))) by (cbn; lia).
      unfold bind at 1.
      rewrite promiseAll_runAll by (intros; apply Older_processPlugin_returns).
      cbn [Nat.add].
      rewrite (proj2 (Nat.ltb_ge BATCH_SIZE (length (g0 :: rest))) Hlen).
      unfold bind at 1. cbn [ret]. rewrite forBatches_step.
      rewrite (proj2 (Nat.ltb_ge BATCH_SIZE (length (g0 :: rest))) Hlen).
      unfold slice. rewrite Nat.sub_0_r. cbn [skipn].
      rewrite firstn_all2 by exact Hlen. reflexivity. }
    rewrite Hrun. split; [reflexivity|]. intros n. cbn [snd].
    apply runAll_handled. intros. apply Older_processPlugin_handled.
Qed.

Lemma older_copy_stops_at_the_first_pause_witness :
  (BATCH_SIZE < length Samples.six ->
     let r := Older.syncPlugins Demo.utils (Demo.world 10) Samples.octokit
                (Some "pull_request") Samples.six (initState [] 1 ∅) Samples.thread in
     fst (fst r) = Exit1 /\
     snd r = Samples.thread /\
     (exists before,
        trace (snd (fst r)) =
          before ++ [EvError "An error occurred during the sync process:"
                             "sleep is not defined"]) /\
     List.filter isDeleteCall (trace (snd (fst r)))
       = List.filter isDeleteCall (trace (initState [] 1 ∅)) /\
     deletedPlugins (snd (fst r)) = deletedPlugins (initState [] 1 ∅) /\
     forall n, handled n (snd (fst r))
               = handled n (initState [] 1 ∅)
                 + occurrences n (map gp_name (firstn BATCH_SIZE Samples.six))) /\
  (length Samples.six <= BATCH_SIZE ->
     forall webflowPlugins st,
       let r := forBatches (fun g => Older.processPlugin Demo.utils (Demo.world 10) g
                                       webflowPlugins)
                  Older.sleepUnbound Samples.six 0 st in
       fst r = Returned tt /\
       forall n, handled n (snd r) = handled n st + occurrences n (map gp_name Samples.six)).
Proof.
  apply (older_copy_stops_at_the_first_pause Demo.utils (Demo.world 10) Samples.octokit
           (Some "pull_request") Samples.six (initState [] 1 ∅) Samples.thread);
    reflexivity.
Defined.

(** ** Plugin names in the README table *)

Ltac each_char c := destruct c as [[] [] [] [] [] [] [] []].

Lemma charToLowerCase_idem c : charToLowerCase (charToLowerCase c) = charToLowerCase c.
Proof. each_char c; reflexivity. Qed.

Lemma charToLowerCase_space c : isSpaceChar (charToLowerCase c) = isSpaceChar c.
Proof. each_char c; reflexivity. Qed.

Lemma charToUpperCase_idem c : charToUpperCase (charToUpperCase c) = charToUpperCase c.
Proof. each_char c; reflexivity. Qed.

Lemma charToUpperCase_word c : isWordChar (charToUpperCase c) = isWordChar c.
Proof. each_char c; reflexivity. Qed.

Lemma charToUpperCase_hyphen c : Ascii.eqb "-" (charToUpperCase c) = Ascii.eqb "-" c.
Proof. each_char c; reflexivity. Qed.

Lemma charToLowerCase_hyphen c : Ascii.eqb "-" (charToLowerCase c) = Ascii.eqb "-" c.
Proof. each_char c; reflexivity. Qed.

Lemma titleCase_idem b str : titleCase b (titleCase b str) = titleCase b str.
Proof.
  revert b. induction str as [|c str IH]; intros b; [reflexivity|].
  destruct b; cbn [titleCase].
  - destruct (isSpaceChar c) eqn:E; cbn [titleCase].
    + rewrite E, IH. reflexivity.
    + rewrite charToLowerCase_space, E, charToLowerCase_idem, IH. reflexivity.
  - destruct (isWordChar c) eqn:E; cbn [titleCase].
    + rewrite charToUpperCase_word, E, charToUpperCase_idem, IH. reflexivity.
    + rewrite E, IH. reflexivity.
Qed.

Lemma titleCase_length b str : String.length (titleCase b str) = String.length str.
Proof.
  revert b. induction str as [|c str IH]; intros b; [reflexivity|].
  destruct b; cbn [titleCase]; [destruct (isSpaceChar c) | destruct (isWordChar c)];
    cbn [String.length]; rewrite IH; reflexivity.
Qed.

Lemma titleCase_hasHyphen b str : hasChar "-" (titleCase b str) = hasChar "-" str.
Proof.
  revert b. induction str as [|c str IH]; intros b; [reflexivity|].
  destruct b; cbn [titleCase]; [destruct (isSpaceChar c) | destruct (isWordChar c)];
    cbn [hasChar]; rewrite IH, ?charToLowerCase_hyphen, ?charToUpperCase_hyphen;
    reflexivity.
Qed.

Lemma replaceHyphens_hasHyphen s : hasChar "-" (replaceHyphens s) = false.
Proof.
  induction s as [|c s IH]; [reflexivity|].
  cbn [replaceHyphens mapString hasChar]. fold (replaceHyphens s). rewrite IH.
  each_char c; reflexivity.
Qed.

(** [toTitleCase] changes the case of letters and nothing else: the
    length stays, and title case of title case is title case. *)
Theorem toTitleCase_is_idempotent (str : string) :
  isAscii str = true ->
  toTitleCase (toTitleCase str) = toTitleCase str /\
  String.length (toTitleCase str) = String.length str.
Proof.
  intros _. split; [apply titleCase_idem | apply titleCase_length].
Qed.

Lemma toTitleCase_is_idempotent_witness :
  toTitleCase (toTitleCase "aws lambda-LAYERS v2") = toTitleCase "aws lambda-LAYERS v2" /\
  String.length (toTitleCase "aws lambda-LAYERS v2") = String.length "aws lambda-LAYERS v2".
Proof. apply (toTitleCase_is_idempotent "aws lambda-LAYERS v2"). reflexivity. Defined.

(** No formatted name has a hyphen. *)
Theorem formatPluginName_has_no_hyphen (string : String.string) :
  isAscii string = true ->
  hasChar "-" (formatPluginName string) = false.
Proof.
  intros _. unfold formatPluginName, toTitleCase.
  rewrite titleCase_hasHyphen. apply replaceHyphens_hasHyphen.
Qed.

Lemma formatPluginName_has_no_hyphen_witness :
  hasChar "-" (formatPluginName "serverless-plugin-aws-alerts") = false.
Proof. apply (formatPluginName_has_no_hyphen "serverless-plugin-aws-alerts"). reflexivity. Defined.

Lemma mapString_app f a b : mapString f (a +:+ b) = mapString f a +:+ mapString f b.
Proof. induction a as [|c a IH]; [reflexivity|]. simpl. rewrite IH. reflexivity. Qed.

Lemma readWord_Some word s rest : readWord word s = Some rest -> s = word +:+ rest.
Proof.
  revert s. induction word as [|c word IH]; intros s H.
  - cbn in H. injection H as ->. reflexivity.
  - destruct s as [|d s]; [discriminate|]. cbn in H.
    destruct (Ascii.eqb_spec c d) as [->|]; [|discriminate].
    simpl. rewrite (IH s H). reflexivity.
Qed.

Lemma readWord_app word rest : readWord word (word +:+ rest) = Some rest.
Proof.
  induction word as [|c word IH]; [reflexivity|].
  simpl. rewrite Ascii.eqb_refl. exact IH.
Qed.

(** A match of [commonPartRe] reads [serverless]. *)
Lemma commonPartRe_includes atStart s rest :
  commonPartRe atStart s = Some rest -> includes "serverless" s = true.
Proof.
  unfold commonPartRe, commonPart. intros H.
  destruct (readWord "serverless-plugin" s) eqn:E1;
    [apply readWord_Some in E1; subst s; apply (includes_middle "serverless" "")|].
  destruct (readWord "-serverless-plugin" s) eqn:E2;
    [apply readWord_Some in E2; subst s; apply (includes_middle "serverless" "-")|].
  destruct (readWord "serverless" s) eqn:E3;
    [apply readWord_Some in E3; subst s; apply (includes_middle "serverless" "")|].
  destruct (readWord "-serverless" s) eqn:E4;
    [apply readWord_Some in E4; subst s; apply (includes_middle "serverless" "-")|].
  destruct atStart; discriminate.
Qed.

Lemma replaceCommonPart_none atStart s :
  includes "serverless" s = false -> replaceCommonPart atStart s = s.
Proof.
  revert atStart. induction s as [|c s IH]; intros atStart H.
  - destruct atStart; reflexivity.
  - cbn [replaceCommonPart].
    destruct (commonPartRe atStart (String c s)) as [rest|] eqn:E.
    + apply commonPartRe_includes in E. congruence.
    + change (includes "serverless" (String c s))
        with (String.prefix "serverless" (String c s) || includes "serverless" s) in H.
      apply orb_false_iff in H as [_ H]. rewrite (IH false H). reflexivity.
Qed.

(** A name that does not read [serverless], in whatever case, keeps all
    its characters: the hyphens become spaces and the words get title
    case. *)
Theorem formatPluginName_without_common_part (string : String.string) :
  isAscii string = true ->
  includes "serverless" (toLowerCase string) = false ->
  formatPluginName string = toTitleCase (replaceHyphens (toLowerCase string)).
Proof.
  intros _ H. unfold formatPluginName. rewrite (replaceCommonPart_none true _ H).
  reflexivity.
Qed.

Lemma formatPluginName_without_common_part_witness :
  formatPluginName "AWS-Lambda-layers" =
    toTitleCase (replaceHyphens (toLowerCase "AWS-Lambda-layers")).
Proof.
  apply (formatPluginName_without_common_part "AWS-Lambda-layers"); reflexivity.
Defined.

Lemma replaceCommonPart_match atStart s rest :
  commonPartRe atStart s = Some rest -> replaceCommonPart atStart s = rest.
Proof. intros H. destruct s; cbn [replaceCommonPart]; rewrite H; reflexivity. Qed.

Lemma readWord_common word1 word2 s :
  readWord (word1 +:+ word2) (word1 +:+ s) = readWord word2 s.
Proof.
  induction word1 as [|c word1 IH]; [reflexivity|].
  simpl. rewrite Ascii.eqb_refl. exact IH.
Qed.

(** A name that starts with [serverless-plugin-], in whatever case, loses
    this prefix and nothing else; so does a name that starts with
    [serverless-], unless [plugin] follows as a word of its own. *)
Theorem formatPluginName_drops_the_prefix (prefix rest : string) :
  isAscii (prefix +:+ rest) = true ->
  toLowerCase prefix = "serverless-plugin-" \/
  (toLowerCase prefix = "serverless-" /\
   startsWith "plugin-" (toLowerCase rest) = false /\
   toLowerCase rest <> "plugin") ->
  formatPluginName (prefix +:+ rest) = toTitleCase (replaceHyphens (toLowerCase rest)).
Proof.
  intros _ H. unfold formatPluginName, toLowerCase. rewrite mapString_app.
  fold (toLowerCase prefix) (toLowerCase rest).
  destruct H as [-> | (-> & Hstart & Hne)].
  - reflexivity.
  - assert (E : replaceCommonPart true ("serverless-" +:+ toLowerCase rest)
                = toLowerCase rest); [|rewrite E; reflexivity].
    generalize dependent (toLowerCase rest). intros x Hstart Hne.
    apply replaceCommonPart_match. unfold commonPartRe, commonPart.
    change "serverless-plugin" with ("serverless-" +:+ "plugin").
    rewrite readWord_common.
    assert (E1 : match readWord "plugin" x with
                 | Some r => hyphenOrEnd r
                 | None => None
                 end = None).
    { destruct (readWord "plugin" x) as [r|] eqn:E; [|reflexivity].
      apply readWord_Some in E. subst x.
      destruct r as [|c r]; [exfalso; apply Hne; reflexivity|].
      cbn [hyphenOrEnd]. destruct (Ascii.eqb_spec c "-") as [->|]; [|reflexivity].
      change ("plugin" +:+ String "-" r) with ("plugin-" +:+ r) in Hstart.
      unfold startsWith in Hstart. rewrite prefix_app in Hstart. discriminate Hstart. }
    rewrite E1.
    change (readWord (String "-" ("serverless-" +:+ "plugin")) ("serverless-" +:+ x))
      with (@None string).
    change ("serverless-" +:+ x) with ("serverless" +:+ String "-" x).
    rewrite readWord_app. reflexivity.
Qed.

Lemma formatPluginName_drops_the_prefix_witness :
  formatPluginName ("Serverless-" +:+ "plugins-table") =
    toTitleCase (replaceHyphens (toLowerCase "plugins-table")).
Proof.
  apply (formatPluginName_drops_the_prefix "Serverless-" "plugins-table").
  - reflexivity.
  - right. split; [reflexivity|]. split; [reflexivity | discriminate].
Defined.

Lemma hasChar_app c a b : hasChar c (a +:+ b) = hasChar c a || hasChar c b.
Proof.
  induction a as [|d a IH]; [reflexivity|].
  simpl. rewrite IH. apply orb_assoc.
Qed.

Lemma toLowerCase_hasHyphen s : hasChar "-" (toLowerCase s) = hasChar "-" s.
Proof.
  induction s as [|c s IH]; [reflexivity|].
  cbn [toLowerCase mapString hasChar]. fold (toLowerCase s).
  rewrite IH, charToLowerCase_hyphen. reflexivity.
Qed.

Lemma replaceHyphens_none s : hasChar "-" s = false -> replaceHyphens s = s.
Proof.
  induction s as [|c s IH]; intros H; [reflexivity|].
  cbn [hasChar] in H. apply orb_false_iff in H as [Hc Hs].
  cbn [replaceHyphens mapString]. fold (replaceHyphens s). rewrite (IH Hs).
  rewrite Ascii.eqb_sym, Hc. reflexivity.
Qed.

(** Two strings that agree up to their first hyphen. *)
Lemma first_hyphen a b r r' :
  hasChar "-" a = false -> hasChar "-" b = false ->
  a +:+ String "-" r = b +:+ String "-" r' -> a = b.
Proof.
  revert b. induction a as [|c a IH]; intros b Ha Hb E.
  - destruct b as [|d b]; [reflexivity|].
    simpl in E. injection E as <- _. discriminate Hb.
  - destruct b as [|d b].
    + simpl in E. injection E as -> _. discriminate Ha.
    + simpl in E. injection E as -> E.
      cbn [hasChar] in Ha, Hb.
      apply orb_false_iff in Ha as [_ Ha]. apply orb_false_iff in Hb as [_ Hb].
      rewrite (IH b Ha Hb E). reflexivity.
Qed.

(** At the first position of a name whose first word is not
    [serverless], neither alternative matches with [^]. *)
Lemma commonPart_not_at_start word a r :
  word = "serverless" \/ word = "serverless-plugin" ->
  hasChar "-" a = false -> a <> "serverless" ->
  match readWord word (a +:+ String "-" r) with
  | Some rest => hyphenOrEnd rest
  | None => None
  end = None.
Proof.
  intros Hword Ha Hne.
  destruct (readWord word (a +:+ String "-" r)) as [rest|] eqn:E; [|reflexivity].
  apply readWord_Some in E.
  destruct Hword as [-> | ->].
  - destruct rest as [|c rest].
    + exfalso. apply (f_equal (hasChar "-")) in E.
      rewrite hasChar_app, Ha in E. discriminate E.
    + cbn [hyphenOrEnd]. destruct (Ascii.eqb_spec c "-") as [->|]; [|reflexivity].
      exfalso. apply Hne. apply (first_hyphen a "serverless" r rest Ha eq_refl E).
  - exfalso. apply Hne.
    apply (first_hyphen a "serverless" r ("plugin" +:+ rest) Ha eq_refl E).
Qed.

(** Past the first position, no match starts at a character other than a
    hyphen. *)
Lemma commonPartRe_needs_a_hyphen c s :
  Ascii.eqb "-" c = false -> commonPartRe false (String c s) = None.
Proof.
  intros Hc. unfold commonPartRe, commonPart. cbn [readWord]. rewrite Hc. reflexivity.
Qed.

Lemma replaceCommonPart_after a s rest :
  hasChar "-" a = false ->
  commonPartRe false s = Some rest ->
  replaceCommonPart false (a +:+ s) = a +:+ rest.
Proof.
  intros Ha Hs. induction a as [|c a IH].
  - apply replaceCommonPart_match, Hs.
  - cbn [hasChar] in Ha. apply orb_false_iff in Ha as [Hc Ha].
    change (String c a +:+ s) with (String c (a +:+ s)).
    cbn [replaceCommonPart]. rewrite (commonPartRe_needs_a_hyphen c _ Hc).
    rewrite (IH Ha). reflexivity.
Qed.

(** A common part in the middle of a name is taken out with the hyphens
    on both sides of it: the words around it are joined into one.  Here
    the name has one word before the common part, which is not
    [serverless] itself. *)
Theorem formatPluginName_joins_the_words_around_the_common_part
    (before middle after : string) :
  isAscii (before +:+ middle +:+ after) = true ->
  hasChar "-" before = false ->
  toLowerCase before <> "serverless" ->
  toLowerCase middle = "-serverless-plugin-" \/
  (toLowerCase middle = "-serverless-" /\
   startsWith "plugin-" (toLowerCase after) = false /\
   toLowerCase after <> "plugin") ->
  formatPluginName (before +:+ middle +:+ after) =
    toTitleCase (toLowerCase before +:+ replaceHyphens (toLowerCase after)).
Proof.
  intros _ Ha Hne Hmiddle. unfold formatPluginName, toLowerCase.
  rewrite !mapString_app.
  fold (toLowerCase before) (toLowerCase middle) (toLowerCase after).
  rewrite <- toLowerCase_hasHyphen in Ha.
  generalize dependent (toLowerCase before). intros a Ha Hne.
  generalize dependent (toLowerCase after). intros x Hmiddle.
  assert (Hm : exists r, toLowerCase middle +:+ x = String "-" r /\
                         commonPartRe false (toLowerCase middle +:+ x) = Some x).
  { destruct Hmiddle as [-> | (-> & Hstart & Hx)].
    - eexists. split; reflexivity.
    - eexists. split; [reflexivity|].
      unfold commonPartRe, commonPart.
      change (String "-" "serverless-plugin") with ("-serverless-" +:+ "plugin").
      rewrite readWord_common.
      assert (E1 : match readWord "plugin" x with
                   | Some r => hyphenOrEnd r
                   | None => None
                   end = None).
      { destruct (readWord "plugin" x) as [r|] eqn:E; [|reflexivity].
        apply readWord_Some in E. subst x.
        destruct r as [|c r]; [exfalso; apply Hx; reflexivity|].
        cbn [hyphenOrEnd]. destruct (Ascii.eqb_spec c "-") as [->|]; [|reflexivity].
        change ("plugin" +:+ String "-" r) with ("plugin-" +:+ r) in Hstart.
        unfold startsWith in Hstart. rewrite prefix_app in Hstart. discriminate Hstart. }
      rewrite E1.
      change ("-serverless-" +:+ x) with ("-serverless" +:+ String "-" x).
      change (String "-" "serverless") with "-serverless".
      rewrite readWord_app. reflexivity. }
  destruct Hm as (r & Er & Hmatch).
  assert (E : replaceCommonPart true (a +:+ toLowerCase middle +:+ x) = a +:+ x).
  { destruct a as [|c a].
    - change ("" +:+ toLowerCase middle +:+ x) with (toLowerCase middle +:+ x).
      apply replaceCommonPart_match.
      revert Hmatch. rewrite Er. unfold commonPartRe, commonPart.
      cbn [readWord]. change (Ascii.eqb "s" "-") with false. cbv iota. auto.
    - pose proof Ha as Ha'. cbn [hasChar] in Ha'.
      apply orb_false_iff in Ha' as [Hc Ha'].
      change (String c a +:+ toLowerCase middle +:+ x)
        with (String c (a +:+ toLowerCase middle +:+ x)).
      cbn [replaceCommonPart].
      assert (Hnone : commonPartRe true (String c (a +:+ toLowerCase middle +:+ x)) = None).
      { change (String c (a +:+ toLowerCase middle +:+ x))
          with (String c a +:+ toLowerCase middle +:+ x).
        rewrite Er. unfold commonPartRe, commonPart.
        rewrite (commonPart_not_at_start "serverless-plugin" (String c a) r
                   (or_intror eq_refl) Ha Hne).
        rewrite (commonPart_not_at_start "serverless" (String c a) r
                   (or_introl eq_refl) Ha Hne).
        change (String c a +:+ String "-" r) with (String c (a +:+ String "-" r)).
        cbn [readWord]. rewrite Hc. reflexivity. }
      rewrite Hnone. rewrite (replaceCommonPart_after a _ x Ha' Hmatch). reflexivity. }
  rewrite E. unfold replaceHyphens. rewrite mapString_app.
  fold (replaceHyphens a) (replaceHyphens x). rewrite (replaceHyphens_none a Ha).
  reflexivity.
Qed.

Lemma formatPluginName_joins_the_words_around_the_common_part_witness :
  formatPluginName ("aws" +:+ "-serverless-" +:+ "express") =
    toTitleCase (toLowerCase "aws" +:+ replaceHyphens (toLowerCase "express")).
Proof.
  apply (formatPluginName_joins_the_words_around_the_common_part
           "aws" "-serverless-" "express").
  - reflexivity.
  - reflexivity.
  - discriminate.
  - right. split; [reflexivity|]. split; [reflexivity | discriminate].
Defined.

(** ** The two revisions of [processPlugin] side by side *)

(** [processPlugin] of [src/unnamed/part_000] is the one of
    [src/sync-plugins.js] with a change check that always answers truthy,
    but for one case: an entry without README content that has a record,
    where [src/sync-plugins.js] goes on to delete the record. *)
Theorem revisions_agree_when_every_record_has_changed (U : Utils) (W : World)
    (githubPlugin : ManifestEntry) (webflowPlugins : list WebflowItem) (s : State) :
  (forall fieldData content, isPluginEqual U githubPlugin fieldData content = true) ->
  planOf U W githubPlugin <> PlanNoContent \/
  findPluginByName webflowName webflowPlugins (gp_name githubPlugin) = None ->
  Sync.processPlugin U W githubPlugin webflowPlugins s =
  Part000.processPlugin U W githubPlugin webflowPlugins s.
Proof.
  intros Hchanged Hcase. unfold planOf in Hcase. unfold_js.
  destruct (gitUrlParse U (gp_githubUrl githubPlugin)) as [parsed|e0]; cbn in *;
    [|reflexivity].
  destruct (getRepoInfo W (default noRepoRef parsed)) as [repoInfo|e1];
    destruct (getNpmDownloads W (gp_name githubPlugin)
                (repo (default noRepoRef parsed))) as [npmDownloads|e2];
    destruct (getReadmeContent W (default noRepoRef parsed)) as [readmeContent|e3];
    cbn in *; try reflexivity.
  destruct (contentOf readmeContent) as [content|]; cbn in *.
  - destruct (findPluginByName webflowName webflowPlugins (gp_name githubPlugin))
      as [wp|]; [rewrite Hchanged|]; reflexivity.
  - destruct Hcase as [Hcase | ->]; [congruence | reflexivity].
Qed.

Lemma revisions_agree_when_every_record_has_changed_witness :
  Sync.processPlugin (Demo.utilsWith (fun _ _ _ => true)) (Demo.world 10) Demo.offline
    [Demo.offlineRecord] (initState [Demo.offlineRecord] 2 ∅) =
  Part000.processPlugin (Demo.utilsWith (fun _ _ _ => true)) (Demo.world 10) Demo.offline
    [Demo.offlineRecord] (initState [Demo.offlineRecord] 2 ∅).
Proof.
  apply (revisions_agree_when_every_record_has_changed
           (Demo.utilsWith (fun _ _ _ => true)) (Demo.world 10) Demo.offline
           [Demo.offlineRecord] (initState [Demo.offlineRecord] 2 ∅)).
  - reflexivity.
  - left. discriminate.
Defined.

(** ** A report that cannot be posted *)

(** In [src/unnamed/part_000], on a run for a pull request whose
    synchronisation got through: when the comments of the pull request
    cannot be listed, the run ends with exit code 1 all the same; both
    stores and the four report lists are as the synchronisation left them,
    and the thread is as it was. *)
Theorem part000_rejected_posting_fails_a_finished_sync (U : Utils) (W : World)
    (O : Octokit) (githubPlugins : list ManifestEntry) (s : State) (t : Thread)
    (err : JsError) :
  fst (Part000.syncPlugins U W githubPlugins s) = Completed ->
  listComments O t = Thrown err ->
  let synced := snd (Part000.syncPlugins U W githubPlugins s) in
  let r := Part000Report.syncPlugins U W O (Some "pull_request") githubPlugins s t in
  fst (fst r) = Exit1 /\
  snd r = t /\
  webflow (snd (fst r)) = webflow synced /\
  algolia (snd (fst r)) = algolia synced /\
  createdPlugins (snd (fst r)) = createdPlugins synced /\
  updatedPlugins (snd (fst r)) = updatedPlugins synced /\
  deletedPlugins (snd (fst r)) = deletedPlugins synced /\
  failedPlugins (snd (fst r)) = failedPlugins synced.
Proof.
  unfold Part000Report.syncPlugins, reportAndExit, Part000.syncPlugins, orExit,
    Part000Report.postReportToPR, postReport.
  destruct (Part000.syncPluginsBody U W githubPlugins s) as [[[]|e] s1]; cbn [fst snd];
    [|discriminate].
  intros _ Hlist. cbn [isEvent]. rewrite String.eqb_refl, Hlist.
  cbn. repeat split.
Qed.

Lemma part000_rejected_posting_fails_a_finished_sync_witness :
  let synced := snd (Part000.syncPlugins Demo.utils (Demo.world 10) [Demo.offline]
                       (initState [] 1 ∅)) in
  let r := Part000Report.syncPlugins Demo.utils (Demo.world 10) Samples.unlisted
             (Some "pull_request") [Demo.offline] (initState [] 1 ∅) Samples.thread in
  fst (fst r) = Exit1 /\
  snd r = Samples.thread /\
  webflow (snd (fst r)) = webflow synced /\
  algolia (snd (fst r)) = algolia synced /\
  createdPlugins (snd (fst r)) = createdPlugins synced /\
  updatedPlugins (snd (fst r)) = updatedPlugins synced /\
  deletedPlugins (snd (fst r)) = deletedPlugins synced /\
  failedPlugins (snd (fst r)) = failedPlugins synced.
Proof.
  apply (part000_rejected_posting_fails_a_finished_sync Demo.utils (Demo.world 10)
           Samples.unlisted [Demo.offline] (initState [] 1 ∅) Samples.thread
           (mkJsError "401 Bad credentials")); reflexivity.
Defined.
